(** * ndn-traffic-push: the scheduled publication engine

    A shallow embedding of [src/ndn-traffic-push.cpp] (class
    [ndntg::NdnTrafficPush]) and the properties of its publish step, its
    start-up sequence, its registration-failure callback and its stop
    operation.

    Conventions.
    - [uint64_t] and [std::size_t] values are integers in [Z] with the
      wrap-around modulo [2^64] written out ([wrap64]).
    - durations are tick counts in [Z] (microseconds, or milliseconds for the
      freshness period); [-1_ms] is the "not configured" sentinel.
    - [std::string] is [string]; [std::optional] is [option];
      [std::vector] is [list], read with [!!] and updated with [<[_:=_]>].
    - the member functions run in a state-and-exception monad over the
      object; everything the object does to its collaborators (logger, face,
      key chain, signal set, timers, thread sleep) is appended to one
      chronological [trace]. *)

From Stdlib Require Import ZArith Ascii String DecimalString.
From stdpp Require Import base list strings.

Local Open Scope Z_scope.

(** ** Integers and strings of the C++ side *)

Definition UINT64_MODULUS : Z := 2 ^ 64.

(** Unsigned 64-bit arithmetic keeps the residue modulo [2^64]. *)
Definition wrap64 (z : Z) : Z := z mod UINT64_MODULUS.

(** [std::to_string] on an integer: its decimal digits. *)
Definition to_string (z : Z) : string := NilZero.string_of_int (Z.to_int z).

(** [std::string::size]. *)
Definition size (s : string) : Z := Z.of_nat (String.length s).

(** [std::string::empty]. *)
Definition empty (s : string) : bool :=
  match s with EmptyString => true | String _ _ => false end.

(** [static_cast<char>] of a [short]: the low eight bits. *)
Definition static_cast_char (z : Z) : ascii := ascii_of_N (Z.to_N (z mod 256)).

(** Comparison [opt == 0] of a [std::optional<uint64_t>] with a value: an
    empty optional equals no value. *)
Definition optional_eq_0 (o : option Z) : bool :=
  match o with Some v => v =? 0 | None => false end.

(** ** The data model *)

(** [ndn::security::SigningInfo] belongs to the signing library; the model
    keeps the text that [operator<<] prints for it. *)
Definition SigningInfo : Type := string.

(** The nested class [DataTrafficConfiguration]: one traffic pattern, with
    the statistics counter the publish step increments. *)
Module DataTrafficConfiguration.

Record t : Type := Build {
  m_name : string;
  m_contentDelay : Z;            (* microseconds *)
  m_generationInterval : Z;      (* microseconds *)
  m_freshnessPeriod : Z;         (* milliseconds *)
  m_contentType : option Z;
  m_contentLength : option Z;
  m_content : string;
  m_signingInfo : SigningInfo;
  m_nInterestsReceived : Z
}.

(** The default member initializers: [-1_ms] for the three durations, no
    content type, no content length, empty name and content, counter 0.
    The argument is the text of a default-constructed [SigningInfo]. *)
Definition default (si : SigningInfo) : t :=
  {| m_name := EmptyString;
     m_contentDelay := -1000;
     m_generationInterval := -1000;
     m_freshnessPeriod := -1;
     m_contentType := None;
     m_contentLength := None;
     m_content := EmptyString;
     m_signingInfo := si;
     m_nInterestsReceived := 0 |}.

(** [checkTrafficDetailCorrectness]: accepts every pattern. *)
Definition checkTrafficDetailCorrectness (p : t) : bool := true.

(** [pattern.m_nInterestsReceived++]. *)
Definition count (p : t) : t :=
  {| m_name := m_name p;
     m_contentDelay := m_contentDelay p;
     m_generationInterval := m_generationInterval p;
     m_freshnessPeriod := m_freshnessPeriod p;
     m_contentType := m_contentType p;
     m_contentLength := m_contentLength p;
     m_content := m_content p;
     m_signingInfo := m_signingInfo p;
     m_nInterestsReceived := wrap64 (m_nInterestsReceived p + 1) |}.

(** The same pattern with another content length. *)
Definition with_contentLength (v : option Z) (p : t) : t :=
  {| m_name := m_name p;
     m_contentDelay := m_contentDelay p;
     m_generationInterval := m_generationInterval p;
     m_freshnessPeriod := m_freshnessPeriod p;
     m_contentType := m_contentType p;
     m_contentLength := v;
     m_content := m_content p;
     m_signingInfo := m_signingInfo p;
     m_nInterestsReceived := m_nInterestsReceived p |}.

(** The text [printTrafficConfiguration] sends to the logger: every
    configured field, then the signing info. *)
Definition printTrafficConfiguration (p : t) : string :=
  ((if empty (m_name p) then EmptyString else "Name=" ++ m_name p ++ ", ") ++
   (if (0 <=? m_contentDelay p)%Z
    then "ContentDelay=" ++ to_string (m_contentDelay p) ++ ", " else EmptyString) ++
   (if (0 <=? m_generationInterval p)%Z
    then "GenerationInterval=" ++ to_string (m_generationInterval p) ++ ", "
    else EmptyString) ++
   (if (0 <=? m_freshnessPeriod p)%Z
    then "FreshnessPeriod=" ++ to_string (m_freshnessPeriod p) ++ ", " else EmptyString) ++
   match m_contentType p with
   | Some ty => "ContentType=" ++ to_string ty ++ ", "
   | None => EmptyString
   end ++
   match m_contentLength p with
   | Some len => "ContentBytes=" ++ to_string len ++ ", "
   | None => EmptyString
   end ++
   (if empty (m_content p) then EmptyString else "Content=" ++ m_content p ++ ", ") ++
   "SigningInfo=" ++ m_signingInfo p)%string.

End DataTrafficConfiguration.

Abbreviation TrafficPattern := DataTrafficConfiguration.t.

(** [ndn::Data] as the publish step fills it in. *)
Record Data : Type := {
  d_name : string;
  d_freshnessPeriod : option Z;
  d_contentType : option Z;
  d_content : string;
  d_signature : option SigningInfo
}.

(** [boost::asio::deadline_timer]: the expiry time, in microseconds. *)
Record deadline_timer : Type := { expires_at : Z }.

(** The two completion handlers given to [m_signalSet.async_wait]: the one
    [run] installs and the one every [startPushLoop] installs. *)
Inductive signal_handler : Type :=
| run_signal_handler
| pushLoop_signal_handler.

(** What the object asks of its collaborators, in the order it asks. *)
Inductive event : Type :=
| InitializeLog (instanceId : string)
| Log (msg : string) (printTime printToConsole : bool)
| SignalAsyncWait (h : signal_handler)
| SignalCancel
| RegisterPrefix (name : string) (id : nat)
| ReleasePrefixes (ids : list nat)
| TimerAsyncWait (id : nat) (deadline : Z)
| Sign (d : Data) (si : SigningInfo)
| SleepFor (d : Z)
| Put (d : Data)
| FaceShutdown
| IoServiceStop
| ProcessEvents.

(** The exceptions that leave the publish step. *)
Inductive exn : Type :=
| length_error          (* std::length_error, from std::string *)
| sign_error            (* thrown by KeyChain::sign *)
| put_error             (* thrown by Face::put *)
| bad_index.            (* m_trafficPatterns[i] with i out of range *)

(** The collaborators of the engine, which the source uses through their
    interfaces: the random number engine with the byte distribution drawn
    from it, the limit of [std::string], the key chain, the face, and the
    reader of the configuration file (declared in [util.hpp]). *)
Class Collaborators : Type := {
  engine : Type;
  (** one value of [dist(ndn::random::getRandomNumberEngine())] *)
  dist : engine -> Z * engine;
  (** [ndn::random::generateWord32] *)
  generateWord32 : engine -> Z * engine;
  (** [std::string::max_size] *)
  max_size : Z;
  (** whether [m_keyChain.sign] returns (it throws otherwise) *)
  keyChain_sign : Data -> SigningInfo -> bool;
  (** whether [m_face.put] returns (it throws otherwise) *)
  face_put : Data -> bool;
  (** [readConfigurationFile]: the patterns of the file, or failure *)
  readConfigurationFile : string -> option (list TrafficPattern)
}.

(** How a member function ends: it returns a value, or an exception leaves
    it. *)
Inductive outcome (A : Type) : Type :=
| Done (a : A)
| Thrown (e : exn).

Arguments Done {A} a.
Arguments Thrown {A} e.

Section Engine.

Context {collaborators : Collaborators}.

(** ** The object *)

(** The data members of [NdnTrafficPush]. A registered-prefix handle is the
    id of the pattern it was obtained for. The random number engine is the
    thread-local one of the library; [trace] is the history of the calls
    made on [m_logger], [m_face], [m_keyChain], [m_signalSet], the timers and
    the thread. *)
Record NdnTrafficPush : Type := {
  m_configurationFile : string;
  m_nMaximumInterests : option Z;
  m_contentDelay : Z;
  m_trafficPatterns : list TrafficPattern;
  m_registeredPrefixes : list nat;
  m_nRegistrationsFailed : Z;
  m_nInterestsReceived : Z;
  m_wantQuiet : bool;
  m_hasError : bool;
  randomNumberEngine : engine;
  trace : list event
}.

(** The constructor: no cap, no delay, no pattern, counters at zero. *)
Definition construct (configFile : string) (rng : engine) : NdnTrafficPush :=
  {| m_configurationFile := configFile;
     m_nMaximumInterests := None;
     m_contentDelay := 0;
     m_trafficPatterns := [];
     m_registeredPrefixes := [];
     m_nRegistrationsFailed := 0;
     m_nInterestsReceived := 0;
     m_wantQuiet := false;
     m_hasError := false;
     randomNumberEngine := rng;
     trace := [] |}.

Definition with_nMaximumInterests (v : option Z) (o : NdnTrafficPush) :=
  {| m_configurationFile := m_configurationFile o;
     m_nMaximumInterests := v;
     m_contentDelay := m_contentDelay o;
     m_trafficPatterns := m_trafficPatterns o;
     m_registeredPrefixes := m_registeredPrefixes o;
     m_nRegistrationsFailed := m_nRegistrationsFailed o;
     m_nInterestsReceived := m_nInterestsReceived o;
     m_wantQuiet := m_wantQuiet o;
     m_hasError := m_hasError o;
     randomNumberEngine := randomNumberEngine o;
     trace := trace o |}.

Definition with_contentDelay (v : Z) (o : NdnTrafficPush) :=
  {| m_configurationFile := m_configurationFile o;
     m_nMaximumInterests := m_nMaximumInterests o;
     m_contentDelay := v;
     m_trafficPatterns := m_trafficPatterns o;
     m_registeredPrefixes := m_registeredPrefixes o;
     m_nRegistrationsFailed := m_nRegistrationsFailed o;
     m_nInterestsReceived := m_nInterestsReceived o;
     m_wantQuiet := m_wantQuiet o;
     m_hasError := m_hasError o;
     randomNumberEngine := randomNumberEngine o;
     trace := trace o |}.

Definition with_trafficPatterns (v : list TrafficPattern) (o : NdnTrafficPush) :=
  {| m_configurationFile := m_configurationFile o;
     m_nMaximumInterests := m_nMaximumInterests o;
     m_contentDelay := m_contentDelay o;
     m_trafficPatterns := v;
     m_registeredPrefixes := m_registeredPrefixes o;
     m_nRegistrationsFailed := m_nRegistrationsFailed o;
     m_nInterestsReceived := m_nInterestsReceived o;
     m_wantQuiet := m_wantQuiet o;
     m_hasError := m_hasError o;
     randomNumberEngine := randomNumberEngine o;
     trace := trace o |}.

Definition with_registeredPrefixes (v : list nat) (o : NdnTrafficPush) :=
  {| m_configurationFile := m_configurationFile o;
     m_nMaximumInterests := m_nMaximumInterests o;
     m_contentDelay := m_contentDelay o;
     m_trafficPatterns := m_trafficPatterns o;
     m_registeredPrefixes := v;
     m_nRegistrationsFailed := m_nRegistrationsFailed o;
     m_nInterestsReceived := m_nInterestsReceived o;
     m_wantQuiet := m_wantQuiet o;
     m_hasError := m_hasError o;
     randomNumberEngine := randomNumberEngine o;
     trace := trace o |}.

Definition with_nRegistrationsFailed (v : Z) (o : NdnTrafficPush) :=
  {| m_configurationFile := m_configurationFile o;
     m_nMaximumInterests := m_nMaximumInterests o;
     m_contentDelay := m_contentDelay o;
     m_trafficPatterns := m_trafficPatterns o;
     m_registeredPrefixes := m_registeredPrefixes o;
     m_nRegistrationsFailed := v;
     m_nInterestsReceived := m_nInterestsReceived o;
     m_wantQuiet := m_wantQuiet o;
     m_hasError := m_hasError o;
     randomNumberEngine := randomNumberEngine o;
     trace := trace o |}.

Definition with_nInterestsReceived (v : Z) (o : NdnTrafficPush) :=
  {| m_configurationFile := m_configurationFile o;
     m_nMaximumInterests := m_nMaximumInterests o;
     m_contentDelay := m_contentDelay o;
     m_trafficPatterns := m_trafficPatterns o;
     m_registeredPrefixes := m_registeredPrefixes o;
     m_nRegistrationsFailed := m_nRegistrationsFailed o;
     m_nInterestsReceived := v;
     m_wantQuiet := m_wantQuiet o;
     m_hasError := m_hasError o;
     randomNumberEngine := randomNumberEngine o;
     trace := trace o |}.

Definition with_wantQuiet (v : bool) (o : NdnTrafficPush) :=
  {| m_configurationFile := m_configurationFile o;
     m_nMaximumInterests := m_nMaximumInterests o;
     m_contentDelay := m_contentDelay o;
     m_trafficPatterns := m_trafficPatterns o;
     m_registeredPrefixes := m_registeredPrefixes o;
     m_nRegistrationsFailed := m_nRegistrationsFailed o;
     m_nInterestsReceived := m_nInterestsReceived o;
     m_wantQuiet := v;
     m_hasError := m_hasError o;
     randomNumberEngine := randomNumberEngine o;
     trace := trace o |}.

Definition with_hasError (v : bool) (o : NdnTrafficPush) :=
  {| m_configurationFile := m_configurationFile o;
     m_nMaximumInterests := m_nMaximumInterests o;
     m_contentDelay := m_contentDelay o;
     m_trafficPatterns := m_trafficPatterns o;
     m_registeredPrefixes := m_registeredPrefixes o;
     m_nRegistrationsFailed := m_nRegistrationsFailed o;
     m_nInterestsReceived := m_nInterestsReceived o;
     m_wantQuiet := m_wantQuiet o;
     m_hasError := v;
     randomNumberEngine := randomNumberEngine o;
     trace := trace o |}.

Definition with_randomNumberEngine (v : engine) (o : NdnTrafficPush) :=
  {| m_configurationFile := m_configurationFile o;
     m_nMaximumInterests := m_nMaximumInterests o;
     m_contentDelay := m_contentDelay o;
     m_trafficPatterns := m_trafficPatterns o;
     m_registeredPrefixes := m_registeredPrefixes o;
     m_nRegistrationsFailed := m_nRegistrationsFailed o;
     m_nInterestsReceived := m_nInterestsReceived o;
     m_wantQuiet := m_wantQuiet o;
     m_hasError := m_hasError o;
     randomNumberEngine := v;
     trace := trace o |}.

Definition with_trace (v : list event) (o : NdnTrafficPush) :=
  {| m_configurationFile := m_configurationFile o;
     m_nMaximumInterests := m_nMaximumInterests o;
     m_contentDelay := m_contentDelay o;
     m_trafficPatterns := m_trafficPatterns o;
     m_registeredPrefixes := m_registeredPrefixes o;
     m_nRegistrationsFailed := m_nRegistrationsFailed o;
     m_nInterestsReceived := m_nInterestsReceived o;
     m_wantQuiet := m_wantQuiet o;
     m_hasError := m_hasError o;
     randomNumberEngine := randomNumberEngine o;
     trace := v |}.

(** The three setters [main] calls before [run]. *)
Definition setMaximumInterests (maxInterests : Z) : NdnTrafficPush -> NdnTrafficPush :=
  with_nMaximumInterests (Some maxInterests).

Definition setContentDelay (delay : Z) : NdnTrafficPush -> NdnTrafficPush :=
  with_contentDelay delay.

Definition setQuietLogging : NdnTrafficPush -> NdnTrafficPush :=
  with_wantQuiet true.

(** ** The monad of the member functions

    A member function takes the object, changes it, and either returns a
    value or leaves with an exception; the changes made before an exception
    stay. *)

Definition M (A : Type) : Type := NdnTrafficPush -> outcome A * NdnTrafficPush.

Definition ret {A} (a : A) : M A := fun o => (Done a, o).

Definition bind {A B} (c : M A) (k : A -> M B) : M B :=
  fun o =>
    match c o with
    | (Done a, o') => k a o'
    | (Thrown e, o') => (Thrown e, o')
    end.

Definition throw {A} (e : exn) : M A := fun o => (Thrown e, o).

Definition get : M NdnTrafficPush := fun o => (Done o, o).

Definition modify (f : NdnTrafficPush -> NdnTrafficPush) : M unit :=
  fun o => (Done tt, f o).

(** One more call on a collaborator. *)
Definition emit (e : event) : M unit :=
  modify (fun o => with_trace (trace o ++ [e]) o).

(** [m_logger.log(msg, printTime, printToConsole)]. *)
Definition log (msg : string) (printTime printToConsole : bool) : M unit :=
  emit (Log msg printTime printToConsole).

Definition when (b : bool) (c : M unit) : M unit := if b then c else ret tt.

Notation "'let!' x ':=' c 'in' k" := (bind c (fun x => k))
  (at level 10, x name, c at level 99, k at level 200).
Notation "c >> k" := (bind c (fun _ => k))
  (at level 100, k at level 200, right associativity).

(** [m_trafficPatterns[patternId]]; an index past the end has no defined
    behaviour in the source and is a [bad_index] here. *)
Definition trafficPattern (patternId : nat) : M TrafficPattern :=
  let! o := get in
  match m_trafficPatterns o !! patternId with
  | Some p => ret p
  | None => throw bad_index
  end.

(** ** Statistics *)

(** The lines of [logStatistics] for the patterns from [patternId] on. *)
Fixpoint logStatistics_patterns (patternId : nat) (ps : list TrafficPattern) : M unit :=
  match ps with
  | [] => ret tt
  | p :: ps' =>
      log (String "010" "Traffic Pattern Type #" ++ to_string (Z.of_nat patternId + 1))
          false true >>
      log (DataTrafficConfiguration.printTrafficConfiguration p) false false >>
      log ("Total Interests Received    = " ++
           to_string (DataTrafficConfiguration.m_nInterestsReceived p) ++
           String "010" EmptyString) false true >>
      logStatistics_patterns (S patternId) ps'
  end%string.

(** [logStatistics]: the report, a heading, the two totals and three lines
    per pattern. *)
Definition logStatistics : M unit :=
  let! o := get in
  (log (String "010" (String "010" "== Interest Traffic Report ==" ++ String "010" EmptyString))
       false true >>
   log ("Total Traffic Pattern Types = " ++
        to_string (Z.of_nat (length (m_trafficPatterns o)))) false true >>
   log ("Total Interests Received    = " ++ to_string (m_nInterestsReceived o))
       false true >>
   logStatistics_patterns 0 (m_trafficPatterns o))%string.

(** [checkTrafficPatternCorrectness]: the body is a [TODO] and accepts every
    configuration. *)
Definition checkTrafficPatternCorrectness (o : NdnTrafficPush) : bool := true.

(** [stop]: the report, then the face and the io service are shut down. *)
Definition stop : M unit :=
  logStatistics >>
  emit FaceShutdown >>
  emit IoServiceStop.

(** ** Content generation *)

(** The loop of [getRandomByteString]: [n] values of the distribution, each
    cast to [char]. *)
Fixpoint draw_chars (n : nat) (e : engine) : string * engine :=
  match n with
  | O => (EmptyString, e)
  | S n' =>
      let (v, e') := dist e in
      let (s, e'') := draw_chars n' e' in
      (String (static_cast_char v) s, e'')
  end.

(** [getRandomByteString(length)]. [s.reserve(length)] throws
    [std::length_error] when [length] is more than [max_size()]; otherwise
    [length] characters are drawn from the engine. *)
Definition getRandomByteString (length : Z) : M string :=
  if max_size <? length then throw length_error
  else
    let! o := get in
    let (s, e) := draw_chars (Z.to_nat length) (randomNumberEngine o) in
    modify (with_randomNumberEngine e) >>
    ret s.

(** The header the publish step writes in front of the generated bytes:
    the name, ["/seq="], the pattern's counter, ["&%_"]. *)
Definition header (p : TrafficPattern) : string :=
  (DataTrafficConfiguration.m_name p ++ "/seq=" ++
   to_string (DataTrafficConfiguration.m_nInterestsReceived p) ++ "&%_")%string.

(** The content block of [sendData] (the local [content]). The test
    [m_contentLength > 0] compares an optional with a value and holds when
    the content length is present and positive; the content is then the
    header followed by [*m_contentLength - content.size()] random bytes, the
    subtraction being one of [std::size_t]. After that, when [m_content] is
    not empty, the content is [m_content] instead. *)
Definition sendData_content (p : TrafficPattern) : M string :=
  let! content :=
    match DataTrafficConfiguration.m_contentLength p with
    | Some len =>
        if 0 <? len then
          let content := header p in
          let! filler := getRandomByteString (wrap64 (len - size content)) in
          ret (content ++ filler)%string
        else ret EmptyString
    | None => ret EmptyString
    end in
  ret (if empty (DataTrafficConfiguration.m_content p)
       then content
       else DataTrafficConfiguration.m_content p).

(** ** The publish step *)

(** [m_nInterestsReceived++] and [pattern.m_nInterestsReceived++]. *)
Definition count_global : M unit :=
  modify (fun o => with_nInterestsReceived (wrap64 (m_nInterestsReceived o + 1)) o).

Definition count_pattern (patternId : nat) : M unit :=
  let! p := trafficPattern patternId in
  modify (fun o =>
    with_trafficPatterns
      (<[patternId := DataTrafficConfiguration.count p]> (m_trafficPatterns o)) o).

(** The tail shared by the log lines of the publish step. *)
Definition ids_and_name (o : NdnTrafficPush) (p : TrafficPattern) : string :=
  ("GlobalID=" ++ to_string (m_nInterestsReceived o) ++
   ", LocalID=" ++ to_string (DataTrafficConfiguration.m_nInterestsReceived p) ++
   ", Name=" ++ DataTrafficConfiguration.m_name p)%string.

(** [m_nMaximumInterests && m_nInterestsReceived >= *m_nMaximumInterests]. *)
Definition cap_reached (o : NdnTrafficPush) : bool :=
  match m_nMaximumInterests o with
  | Some cap => cap <=? m_nInterestsReceived o
  | None => false
  end.

(** [sendData(patternId, timer)]. The timer is passed by reference in the
    source; here the re-armed timer is the result. A [Sign] or [Put] event
    records a call that returned. *)
Definition sendData (patternId : nat) (timer : deadline_timer) : M deadline_timer :=
  let! pattern := trafficPattern patternId in
  let freshness :=
    if 0 <=? DataTrafficConfiguration.m_freshnessPeriod pattern
    then Some (DataTrafficConfiguration.m_freshnessPeriod pattern) else None in
  let! content := sendData_content pattern in
  let unsigned :=
    {| d_name := DataTrafficConfiguration.m_name pattern;
       d_freshnessPeriod := freshness;
       d_contentType := DataTrafficConfiguration.m_contentType pattern;
       d_content := content;
       d_signature := None |} in
  let signingInfo := DataTrafficConfiguration.m_signingInfo pattern in
  (if keyChain_sign unsigned signingInfo
   then emit (Sign unsigned signingInfo) else throw sign_error) >>
  let data :=
    {| d_name := d_name unsigned;
       d_freshnessPeriod := d_freshnessPeriod unsigned;
       d_contentType := d_contentType unsigned;
       d_content := d_content unsigned;
       d_signature := Some signingInfo |} in
  count_global >>
  count_pattern patternId >>
  let! pattern := trafficPattern patternId in
  let! o := get in
  when (negb (m_wantQuiet o))
    (log ("Send Data          - PatternType=" ++ to_string (Z.of_nat patternId + 1) ++
          ", " ++ ids_and_name o pattern) true false) >>
  when (0 <? DataTrafficConfiguration.m_contentDelay pattern)
    (emit (SleepFor (DataTrafficConfiguration.m_contentDelay pattern))) >>
  when (0 <? m_contentDelay o) (emit (SleepFor (m_contentDelay o))) >>
  (if face_put data then emit (Put data) else throw put_error) >>
  (if negb (m_wantQuiet o)
   then log ("Successfully Sent Data          - PatternType=" ++
             to_string (Z.of_nat patternId + 1) ++ ", " ++ ids_and_name o pattern)
            true false
   else log ("Successfully Sent Data          - " ++ ids_and_name o pattern)
            true false) >>
  let timer :=
    {| expires_at :=
         expires_at timer + DataTrafficConfiguration.m_generationInterval pattern |} in
  emit (TimerAsyncWait patternId (expires_at timer)) >>
  when (cap_reached o)
    (log "Finished data sending." false false >>
     emit (ReleasePrefixes (m_registeredPrefixes o)) >>
     modify (with_registeredPrefixes []) >>
     emit SignalCancel) >>
  ret timer.

(** ** The callbacks of the event loop *)

(** [onRegisterFailed(reason, patternId)]. *)
Definition onRegisterFailed (reason : string) (patternId : nat) : M unit :=
  let! pattern := trafficPattern patternId in
  log ("Prefix registration failed - PatternType=" ++
       to_string (Z.of_nat patternId + 1) ++
       ", Name=" ++ DataTrafficConfiguration.m_name pattern ++
       ", Reason=" ++ reason) true true >>
  modify (fun o => with_nRegistrationsFailed (wrap64 (m_nRegistrationsFailed o + 1)) o) >>
  let! o := get in
  when (m_nRegistrationsFailed o =? Z.of_nat (length (m_trafficPatterns o)))
    (modify (with_hasError true) >>
     log "Registration failure." false false >>
     stop).

(** [m_nMaximumInterests && m_nInterestsReceived < *m_nMaximumInterests]. *)
Definition cap_pending (o : NdnTrafficPush) : bool :=
  match m_nMaximumInterests o with
  | Some cap => m_nInterestsReceived o <? cap
  | None => false
  end.

(** The handler [run] gives to [m_signalSet.async_wait]: a signal before the
    cap is reached sets the error flag; then [stop]. *)
Definition on_run_signal : M unit :=
  let! o := get in
  when (cap_pending o)
    (log "Async wait error set." false false >>
     modify (with_hasError true)) >>
  log "Async wait ended." false false >>
  stop.

(** The handler [startPushLoop] gives to [m_signalSet.async_wait]. *)
Definition on_pushLoop_signal : M unit := stop.

Definition signal_callback (h : signal_handler) : M unit :=
  match h with
  | run_signal_handler => on_run_signal
  | pushLoop_signal_handler => on_pushLoop_signal
  end.

(** ** Start-up *)

(** [startPushLoop(patternId)] up to its call of [m_face.processEvents()]:
    the signal wait, the timer that expires one generation interval after
    [now] (the time at which the timer is constructed), its wait. The result
    is the armed timer. *)
Definition startPushLoop (patternId : nat) (now : Z) : M deadline_timer :=
  log ("Starting push loop for pattern " ++ to_string (Z.of_nat patternId + 1) ++ ".")
      false false >>
  let! pattern := trafficPattern patternId in
  emit (SignalAsyncWait pushLoop_signal_handler) >>
  let timer :=
    {| expires_at := now + DataTrafficConfiguration.m_generationInterval pattern |} in
  emit (TimerAsyncWait patternId (expires_at timer)) >>
  log ("Push loop for pattern " ++ to_string (Z.of_nat patternId + 1) ++ " started.")
      false false >>
  emit ProcessEvents >>
  ret timer.

(** The first loop of [run]: the configuration of every pattern is logged. *)
Fixpoint log_patterns (i : nat) (ps : list TrafficPattern) : M unit :=
  match ps with
  | [] => ret tt
  | p :: ps' =>
      log ("Traffic Pattern Type #" ++ to_string (Z.of_nat i + 1)) false false >>
      log (DataTrafficConfiguration.printTrafficConfiguration p) false false >>
      log EmptyString false false >>
      log_patterns (S i) ps'
  end.

(** The second loop of [run]: a prefix is registered for every pattern and
    its handle kept. *)
Fixpoint register_patterns (id : nat) (ps : list TrafficPattern) : M unit :=
  match ps with
  | [] => ret tt
  | p :: ps' =>
      log ("Registering pattern " ++ to_string (Z.of_nat id + 1) ++ ".") true false >>
      emit (RegisterPrefix (DataTrafficConfiguration.m_name p) id) >>
      modify (fun o => with_registeredPrefixes (m_registeredPrefixes o ++ [id]) o) >>
      register_patterns (S id) ps'
  end.

(** How far [run] gets before the event loop takes over: it has returned an
    exit code, or it is inside [m_face.processEvents()], with the timer of
    the push loop it started, if any. From there on the run is made of the
    callbacks above. *)
Inductive run_result : Type :=
| Returned (code : Z)
| InProcessEvents (timer : option deadline_timer).

(** [run], up to its first call of [m_face.processEvents()]. With at least
    one pattern that call is the one in [startPushLoop(0)]; with none it is
    the one of [run] itself. [now] is the time at which the first timer is
    constructed. *)
Definition run (now : Z) : M run_result :=
  let! o := get in
  let (word, e) := generateWord32 (randomNumberEngine o) in
  modify (with_randomNumberEngine e) >>
  emit (InitializeLog (to_string word)) >>
  match readConfigurationFile (m_configurationFile o) with
  | None => ret (Returned 2)
  | Some patterns =>
      modify (fun o => with_trafficPatterns (m_trafficPatterns o ++ patterns) o) >>
      let! o := get in
      if negb (checkTrafficPatternCorrectness o) then
        log "ERROR: Traffic configuration provided is not proper" false true >>
        ret (Returned 2)
      else
        log ("Traffic configuration file processing completed." ++ String "010" EmptyString)
            true false >>
        log_patterns 0 (m_trafficPatterns o) >>
        if optional_eq_0 (m_nMaximumInterests o) then
          logStatistics >>
          ret (Returned 0)
        else
          emit (SignalAsyncWait run_signal_handler) >>
          log ("We have " ++ to_string (Z.of_nat (length (m_trafficPatterns o))) ++
               " traffic patterns.") true false >>
          register_patterns 0 (m_trafficPatterns o) >>
          match m_trafficPatterns o with
          | [] =>
              emit ProcessEvents >>
              ret (InProcessEvents None)
          | _ :: _ =>
              log ("Starting data push for pattern " ++ to_string (Z.of_nat 0 + 1) ++ ".")
                  true false >>
              let! timer := startPushLoop 0 now in
              ret (InProcessEvents (Some timer))
          end
  end.

(** ** The command line *)

(** The options [main] reads once the command line is parsed: [--count] is
    an [int] that may be absent, [--delay] has the default 0. *)
Record options : Type := {
  opt_help : bool;
  opt_count : option Z;
  opt_delay : Z;
  opt_quiet : bool;
  opt_configFile : string
}.

(** [main], from the parsed options on. The result is that of [run] and the
    object as [run] left it, or the exit code of [main] itself. *)
Definition main (opts : options) (rng : engine) (now : Z)
  : outcome run_result * NdnTrafficPush :=
  let server := construct (opt_configFile opts) rng in
  if opt_help opts then (Done (Returned 0), server)
  else if empty (opt_configFile opts) then (Done (Returned 2), server)
  else
    match
      match opt_count opts with
      | Some count =>
          if count <? 0 then None
          else Some (setMaximumInterests (wrap64 count) server)
      | None => Some server
      end
    with
    | None => (Done (Returned 2), server)
    | Some server =>
        if opt_delay opts <? 0 then (Done (Returned 2), server)
        else
          let server := setContentDelay (opt_delay opts) server in
          let server := if opt_quiet opts then setQuietLogging server else server in
          run now server
    end.

(** ** The event loop, as the callbacks it dispatches

    The loop is single-threaded: it runs one callback to completion, then
    the next. A schedule is the list of the callbacks it dispatches, in
    order: timer expirations, registration failures and the completions of
    the signal waits. [dispatch] lets an exception leave the callback and
    keeps the object as the callback left it. *)

Inductive callback : Type :=
| TimerExpired (patternId : nat) (timer : deadline_timer)
| RegisterFailed (reason : string) (patternId : nat)
| SignalWaitCompleted (h : signal_handler).

Definition dispatch (cb : callback) (o : NdnTrafficPush) : NdnTrafficPush :=
  match cb with
  | TimerExpired patternId timer => snd (sendData patternId timer o)
  | RegisterFailed reason patternId => snd (onRegisterFailed reason patternId o)
  | SignalWaitCompleted h => snd (signal_callback h o)
  end.

Definition run_schedule (cbs : list callback) (o : NdnTrafficPush) : NdnTrafficPush :=
  fold_left (fun o cb => dispatch cb o) cbs o.

(** [n] firings of the timer of one pattern, one after the other, each
    handing the re-armed timer to the next. *)
Fixpoint firings (n : nat) (patternId : nat) (timer : deadline_timer) : M deadline_timer :=
  match n with
  | O => ret timer
  | S n' =>
      let! timer' := sendData patternId timer in
      firings n' patternId timer'
  end.

(** [rearmed patternId interval n t t']: the timer [t] of a pattern becomes
    [t'] through [n] firings that return. Each firing starts from any state
    of the object in which the pattern has the generation interval
    [interval]: whatever ran between two firings, and however long it or the
    delays of the publish step took, is left open. *)
Inductive rearmed (patternId : nat) (interval : Z)
  : nat -> deadline_timer -> deadline_timer -> Prop :=
| rearmed_O t : rearmed patternId interval O t t
| rearmed_S n t t' t'' o o' p :
    rearmed patternId interval n t t' ->
    m_trafficPatterns o !! patternId = Some p ->
    DataTrafficConfiguration.m_generationInterval p = interval ->
    sendData patternId t' o = (Done t'', o') ->
    rearmed patternId interval (S n) t t''.

(** [k] invocations of [stop] in a row. *)
Fixpoint stop_times (k : nat) : M unit :=
  match k with
  | O => ret tt
  | S k' => stop >> stop_times k'
  end.

(** ** Observations on a trace *)

(** The Data packets handed to the face. *)
Fixpoint emitted (evs : list event) : list Data :=
  match evs with
  | [] => []
  | Put d :: evs' => d :: emitted evs'
  | _ :: evs' => emitted evs'
  end.

(** The prefixes registered with the face. *)
Fixpoint registered (evs : list event) : list string :=
  match evs with
  | [] => []
  | RegisterPrefix name _ :: evs' => name :: registered evs'
  | _ :: evs' => registered evs'
  end.

(** The heading that opens every statistics report. *)
Definition report_heading : string :=
  String "010" (String "010" "== Interest Traffic Report ==" ++ String "010" EmptyString).

(** The number of statistics reports in a trace. *)
Fixpoint reports (evs : list event) : nat :=
  match evs with
  | [] => O
  | Log msg _ _ :: evs' =>
      if String.eqb msg report_heading then S (reports evs') else reports evs'
  | _ :: evs' => reports evs'
  end.

(** The number of times the io service was told to stop. *)
Fixpoint io_stops (evs : list event) : nat :=
  match evs with
  | [] => O
  | IoServiceStop :: evs' => S (io_stops evs')
  | _ :: evs' => io_stops evs'
  end.

(** Whether an event is a call on the logger. *)
Definition is_logging (e : event) : bool :=
  match e with
  | InitializeLog _ | Log _ _ _ => true
  | _ => false
  end.

(** The sum of the counters of the patterns. *)
Definition sum_counters (ps : list TrafficPattern) : Z :=
  foldr (fun p acc => DataTrafficConfiguration.m_nInterestsReceived p + acc) 0 ps.

(** Where a run starts: no publication counted yet. *)
Definition nothing_published (o : NdnTrafficPush) : Prop :=
  m_nInterestsReceived o = 0 /\
  Forall (fun p => DataTrafficConfiguration.m_nInterestsReceived p = 0)
         (m_trafficPatterns o).

(** What one publish step does to the two counters: it increments both, or
    it leaves both. *)
Definition counted_once (patternId : nat) (p : TrafficPattern) (o o' : NdnTrafficPush)
  : Prop :=
  m_nInterestsReceived o' = wrap64 (m_nInterestsReceived o + 1) /\
  m_trafficPatterns o' =
    <[patternId := DataTrafficConfiguration.count p]> (m_trafficPatterns o).

Definition not_counted (o o' : NdnTrafficPush) : Prop :=
  m_nInterestsReceived o' = m_nInterestsReceived o /\
  m_trafficPatterns o' = m_trafficPatterns o.

(** ** The publish step in closed form

    The events and the object the publish step produces, written as
    functions of the object it starts from; [sendData_run] below proves
    that [sendData] computes them. *)

(** The lines [logStatistics] writes for the patterns from [patternId] on,
    and for the whole report. *)
Fixpoint report_pattern_events (patternId : nat) (ps : list TrafficPattern) : list event :=
  match ps with
  | [] => []
  | p :: ps' =>
      Log (String "010" "Traffic Pattern Type #" ++ to_string (Z.of_nat patternId + 1))
          false true ::
      Log (DataTrafficConfiguration.printTrafficConfiguration p) false false ::
      Log ("Total Interests Received    = " ++
           to_string (DataTrafficConfiguration.m_nInterestsReceived p) ++
           String "010" EmptyString) false true ::
      report_pattern_events (S patternId) ps'
  end.

Definition report_events (total : Z) (ps : list TrafficPattern) : list event :=
  Log report_heading false true ::
  Log ("Total Traffic Pattern Types = " ++ to_string (Z.of_nat (length ps))) false true ::
  Log ("Total Interests Received    = " ++ to_string total) false true ::
  report_pattern_events 0 ps.

(** The events of one call of [stop]. *)
Definition stop_events (o : NdnTrafficPush) : list event :=
  report_events (m_nInterestsReceived o) (m_trafficPatterns o) ++
  [FaceShutdown; IoServiceStop].

(** The events of the two loops of [run] and of [startPushLoop]. *)
Fixpoint configuration_events (i : nat) (ps : list TrafficPattern) : list event :=
  match ps with
  | [] => []
  | p :: ps' =>
      Log ("Traffic Pattern Type #" ++ to_string (Z.of_nat i + 1)) false false ::
      Log (DataTrafficConfiguration.printTrafficConfiguration p) false false ::
      Log EmptyString false false ::
      configuration_events (S i) ps'
  end.

Fixpoint registration_events (id : nat) (ps : list TrafficPattern) : list event :=
  match ps with
  | [] => []
  | p :: ps' =>
      Log ("Registering pattern " ++ to_string (Z.of_nat id + 1) ++ ".") true false ::
      RegisterPrefix (DataTrafficConfiguration.m_name p) id ::
      registration_events (S id) ps'
  end.

Definition startPushLoop_events (patternId : nat) (now : Z) (p : TrafficPattern)
  : list event :=
  [Log ("Starting push loop for pattern " ++ to_string (Z.of_nat patternId + 1) ++ ".")
       false false;
   SignalAsyncWait pushLoop_signal_handler;
   TimerAsyncWait patternId (now + DataTrafficConfiguration.m_generationInterval p);
   Log ("Push loop for pattern " ++ to_string (Z.of_nat patternId + 1) ++ " started.")
       false false;
   ProcessEvents].

(** [run] in closed form, from the object [o] it is called on, the word and
    the engine [generateWord32] gives, and the patterns [ps] of the file. *)
Definition run_loaded (now : Z) (o : NdnTrafficPush) (word : Z) (e : engine)
    (ps : list TrafficPattern) : run_result * NdnTrafficPush :=
  let all := m_trafficPatterns o ++ ps in
  let o1 :=
    with_trace
      (trace o ++
       [InitializeLog (to_string word);
        Log ("Traffic configuration file processing completed." ++ String "010" EmptyString)
            true false] ++
       configuration_events 0 all)
      (with_trafficPatterns all (with_randomNumberEngine e o)) in
  if optional_eq_0 (m_nMaximumInterests o) then
    (Returned 0,
     with_trace (trace o1 ++ report_events (m_nInterestsReceived o) all) o1)
  else
    let o2 :=
      with_trace
        (trace o1 ++
         [SignalAsyncWait run_signal_handler;
          Log ("We have " ++ to_string (Z.of_nat (length all)) ++ " traffic patterns.")
              true false] ++
         registration_events 0 all)
        (with_registeredPrefixes (m_registeredPrefixes o ++ seq 0 (length all)) o1) in
    match all with
    | [] => (InProcessEvents None, with_trace (trace o2 ++ [ProcessEvents]) o2)
    | p :: _ =>
        (InProcessEvents
           (Some {| expires_at := now + DataTrafficConfiguration.m_generationInterval p |}),
         with_trace
           (trace o2 ++
            Log ("Starting data push for pattern " ++ to_string (Z.of_nat 0 + 1) ++ ".")
                true false ::
            startPushLoop_events 0 now p) o2)
    end.

(** The argument of [getRandomByteString] in the content block, when the
    block calls it. *)
Definition filler_length (p : TrafficPattern) : option Z :=
  match DataTrafficConfiguration.m_contentLength p with
  | Some len => if 0 <? len then Some (wrap64 (len - size (header p))) else None
  | None => None
  end.

(** The Data packet of a pattern with a given content. *)
Definition make_data (p : TrafficPattern) (content : string) (sig : option SigningInfo)
  : Data :=
  {| d_name := DataTrafficConfiguration.m_name p;
     d_freshnessPeriod :=
       if 0 <=? DataTrafficConfiguration.m_freshnessPeriod p
       then Some (DataTrafficConfiguration.m_freshnessPeriod p) else None;
     d_contentType := DataTrafficConfiguration.m_contentType p;
     d_content := content;
     d_signature := sig |}.

(** The object once both counters are incremented. *)
Definition counted (patternId : nat) (p : TrafficPattern) (o : NdnTrafficPush)
  : NdnTrafficPush :=
  with_trafficPatterns
    (<[patternId := DataTrafficConfiguration.count p]> (m_trafficPatterns o))
    (with_nInterestsReceived (wrap64 (m_nInterestsReceived o + 1)) o).

(** The events between the counting and the call of [m_face.put]; [o] and
    [p] are the object and the pattern after the counting. *)
Definition before_put_events (patternId : nat) (o : NdnTrafficPush) (p : TrafficPattern)
  : list event :=
  (if m_wantQuiet o then []
   else [Log ("Send Data          - PatternType=" ++ to_string (Z.of_nat patternId + 1) ++
              ", " ++ ids_and_name o p) true false]) ++
  (if 0 <? DataTrafficConfiguration.m_contentDelay p
   then [SleepFor (DataTrafficConfiguration.m_contentDelay p)] else []) ++
  (if 0 <? m_contentDelay o then [SleepFor (m_contentDelay o)] else []).

(** The events after the call of [m_face.put]. *)
Definition after_put_events (patternId : nat) (o : NdnTrafficPush) (p : TrafficPattern)
    (timer : deadline_timer) : list event :=
  [if m_wantQuiet o
   then Log ("Successfully Sent Data          - " ++ ids_and_name o p) true false
   else Log ("Successfully Sent Data          - PatternType=" ++
             to_string (Z.of_nat patternId + 1) ++ ", " ++ ids_and_name o p) true false;
   TimerAsyncWait patternId
     (expires_at timer + DataTrafficConfiguration.m_generationInterval p)] ++
  (if cap_reached o
   then [Log "Finished data sending." false false;
         ReleasePrefixes (m_registeredPrefixes o);
         SignalCancel]
   else []).

(** The publish step from the signing on, for a pattern [p] found at
    [patternId] and the content [content]. *)
Definition publish (patternId : nat) (p : TrafficPattern) (content : string)
    (timer : deadline_timer) (o : NdnTrafficPush)
  : outcome deadline_timer * NdnTrafficPush :=
  let signingInfo := DataTrafficConfiguration.m_signingInfo p in
  if keyChain_sign (make_data p content None) signingInfo then
    let o2 :=
      counted patternId p
        (with_trace (trace o ++ [Sign (make_data p content None) signingInfo]) o) in
    let p2 := DataTrafficConfiguration.count p in
    let data := make_data p content (Some signingInfo) in
    if face_put data then
      (Done {| expires_at :=
                 expires_at timer + DataTrafficConfiguration.m_generationInterval p |},
       (if cap_reached o2 then with_registeredPrefixes [] else id)
         (with_trace (trace o2 ++ before_put_events patternId o2 p2 ++ [Put data] ++
                      after_put_events patternId o2 p2 timer) o2))
    else
      (Thrown put_error,
       with_trace (trace o2 ++ before_put_events patternId o2 p2) o2)
  else (Thrown sign_error, o).

End Engine.

(** ** The lines of the configuration file *)

(** [static_cast] of an [unsigned long] to the 64-bit signed count of a
    duration, and to [uint32_t]. *)
Definition to_int64 (z : Z) : Z :=
  if wrap64 z <? 2 ^ 63 then wrap64 z else wrap64 z - UINT64_MODULUS.

Definition to_uint32 (z : Z) : Z := z mod 2 ^ 32.

(** The assignments of [parseConfigurationLine], one per parameter. *)
Definition set_name (v : string) (p : TrafficPattern) : TrafficPattern :=
  {| DataTrafficConfiguration.m_name := v;
     DataTrafficConfiguration.m_contentDelay := DataTrafficConfiguration.m_contentDelay p;
     DataTrafficConfiguration.m_generationInterval :=
       DataTrafficConfiguration.m_generationInterval p;
     DataTrafficConfiguration.m_freshnessPeriod :=
       DataTrafficConfiguration.m_freshnessPeriod p;
     DataTrafficConfiguration.m_contentType := DataTrafficConfiguration.m_contentType p;
     DataTrafficConfiguration.m_contentLength := DataTrafficConfiguration.m_contentLength p;
     DataTrafficConfiguration.m_content := DataTrafficConfiguration.m_content p;
     DataTrafficConfiguration.m_signingInfo := DataTrafficConfiguration.m_signingInfo p;
     DataTrafficConfiguration.m_nInterestsReceived :=
       DataTrafficConfiguration.m_nInterestsReceived p |}.

Definition set_contentDelay (v : Z) (p : TrafficPattern) : TrafficPattern :=
  {| DataTrafficConfiguration.m_name := DataTrafficConfiguration.m_name p;
     DataTrafficConfiguration.m_contentDelay := v;
     DataTrafficConfiguration.m_generationInterval :=
       DataTrafficConfiguration.m_generationInterval p;
     DataTrafficConfiguration.m_freshnessPeriod :=
       DataTrafficConfiguration.m_freshnessPeriod p;
     DataTrafficConfiguration.m_contentType := DataTrafficConfiguration.m_contentType p;
     DataTrafficConfiguration.m_contentLength := DataTrafficConfiguration.m_contentLength p;
     DataTrafficConfiguration.m_content := DataTrafficConfiguration.m_content p;
     DataTrafficConfiguration.m_signingInfo := DataTrafficConfiguration.m_signingInfo p;
     DataTrafficConfiguration.m_nInterestsReceived :=
       DataTrafficConfiguration.m_nInterestsReceived p |}.

Definition set_generationInterval (v : Z) (p : TrafficPattern) : TrafficPattern :=
  {| DataTrafficConfiguration.m_name := DataTrafficConfiguration.m_name p;
     DataTrafficConfiguration.m_contentDelay := DataTrafficConfiguration.m_contentDelay p;
     DataTrafficConfiguration.m_generationInterval := v;
     DataTrafficConfiguration.m_freshnessPeriod :=
       DataTrafficConfiguration.m_freshnessPeriod p;
     DataTrafficConfiguration.m_contentType := DataTrafficConfiguration.m_contentType p;
     DataTrafficConfiguration.m_contentLength := DataTrafficConfiguration.m_contentLength p;
     DataTrafficConfiguration.m_content := DataTrafficConfiguration.m_content p;
     DataTrafficConfiguration.m_signingInfo := DataTrafficConfiguration.m_signingInfo p;
     DataTrafficConfiguration.m_nInterestsReceived :=
       DataTrafficConfiguration.m_nInterestsReceived p |}.

Definition set_freshnessPeriod (v : Z) (p : TrafficPattern) : TrafficPattern :=
  {| DataTrafficConfiguration.m_name := DataTrafficConfiguration.m_name p;
     DataTrafficConfiguration.m_contentDelay := DataTrafficConfiguration.m_contentDelay p;
     DataTrafficConfiguration.m_generationInterval :=
       DataTrafficConfiguration.m_generationInterval p;
     DataTrafficConfiguration.m_freshnessPeriod := v;
     DataTrafficConfiguration.m_contentType := DataTrafficConfiguration.m_contentType p;
     DataTrafficConfiguration.m_contentLength := DataTrafficConfiguration.m_contentLength p;
     DataTrafficConfiguration.m_content := DataTrafficConfiguration.m_content p;
     DataTrafficConfiguration.m_signingInfo := DataTrafficConfiguration.m_signingInfo p;
     DataTrafficConfiguration.m_nInterestsReceived :=
       DataTrafficConfiguration.m_nInterestsReceived p |}.

Definition set_contentType (v : Z) (p : TrafficPattern) : TrafficPattern :=
  {| DataTrafficConfiguration.m_name := DataTrafficConfiguration.m_name p;
     DataTrafficConfiguration.m_contentDelay := DataTrafficConfiguration.m_contentDelay p;
     DataTrafficConfiguration.m_generationInterval :=
       DataTrafficConfiguration.m_generationInterval p;
     DataTrafficConfiguration.m_freshnessPeriod :=
       DataTrafficConfiguration.m_freshnessPeriod p;
     DataTrafficConfiguration.m_contentType := Some v;
     DataTrafficConfiguration.m_contentLength := DataTrafficConfiguration.m_contentLength p;
     DataTrafficConfiguration.m_content := DataTrafficConfiguration.m_content p;
     DataTrafficConfiguration.m_signingInfo := DataTrafficConfiguration.m_signingInfo p;
     DataTrafficConfiguration.m_nInterestsReceived :=
       DataTrafficConfiguration.m_nInterestsReceived p |}.

Definition set_content (v : string) (p : TrafficPattern) : TrafficPattern :=
  {| DataTrafficConfiguration.m_name := DataTrafficConfiguration.m_name p;
     DataTrafficConfiguration.m_contentDelay := DataTrafficConfiguration.m_contentDelay p;
     DataTrafficConfiguration.m_generationInterval :=
       DataTrafficConfiguration.m_generationInterval p;
     DataTrafficConfiguration.m_freshnessPeriod :=
       DataTrafficConfiguration.m_freshnessPeriod p;
     DataTrafficConfiguration.m_contentType := DataTrafficConfiguration.m_contentType p;
     DataTrafficConfiguration.m_contentLength := DataTrafficConfiguration.m_contentLength p;
     DataTrafficConfiguration.m_content := v;
     DataTrafficConfiguration.m_signingInfo := DataTrafficConfiguration.m_signingInfo p;
     DataTrafficConfiguration.m_nInterestsReceived :=
       DataTrafficConfiguration.m_nInterestsReceived p |}.

Definition set_signingInfo (v : SigningInfo) (p : TrafficPattern) : TrafficPattern :=
  {| DataTrafficConfiguration.m_name := DataTrafficConfiguration.m_name p;
     DataTrafficConfiguration.m_contentDelay := DataTrafficConfiguration.m_contentDelay p;
     DataTrafficConfiguration.m_generationInterval :=
       DataTrafficConfiguration.m_generationInterval p;
     DataTrafficConfiguration.m_freshnessPeriod :=
       DataTrafficConfiguration.m_freshnessPeriod p;
     DataTrafficConfiguration.m_contentType := DataTrafficConfiguration.m_contentType p;
     DataTrafficConfiguration.m_contentLength := DataTrafficConfiguration.m_contentLength p;
     DataTrafficConfiguration.m_content := DataTrafficConfiguration.m_content p;
     DataTrafficConfiguration.m_signingInfo := v;
     DataTrafficConfiguration.m_nInterestsReceived :=
       DataTrafficConfiguration.m_nInterestsReceived p |}.

(** How [parseConfigurationLine] ends: it returns a flag, with the pattern as
    the line leaves it and what it logged; or [std::stoul] or the
    constructor of [SigningInfo] throws, before any assignment. *)
Inductive parse_result : Type :=
| parse_returned (ok : bool) (p : TrafficPattern) (logged : list event)
| parse_thrown.

Section Configuration.

(** [extractParameterAndValue] is declared in [util.hpp]; [std::stoul] and
    the constructor of [SigningInfo] from a string belong to libraries. Each
    gives its result or nothing: no parameter and value in the line, an
    exception of [std::stoul] or of the constructor. [std::stoul] returns an
    [unsigned long]. *)
Variable extractParameterAndValue : string -> option (string * string).
Variable stoul : string -> option Z.
Variable signingInfo_of_string : string -> option SigningInfo.

(** The numeric assignments: the value of [std::stoul], converted to the
    type of the member. *)
Definition assign_number (value : string) (store : Z -> TrafficPattern) : parse_result :=
  match stoul value with
  | Some v => parse_returned true (store v) []
  | None => parse_thrown
  end.

(** [parseConfigurationLine(line, logger, lineNumber)] on the pattern [p]. *)
Definition parseConfigurationLine (line : string) (lineNumber : Z) (p : TrafficPattern)
  : parse_result :=
  match extractParameterAndValue line with
  | None =>
      parse_returned false p
        [Log ("Line " ++ to_string lineNumber ++ " - Invalid syntax: " ++ line) false true]
  | Some (parameter, value) =>
      if String.eqb parameter "Name" then
        parse_returned true (set_name value p) []
      else if String.eqb parameter "ContentDelay" then
        assign_number value (fun v => set_contentDelay (to_int64 v) p)
      else if String.eqb parameter "GenerationInterval" then
        assign_number value (fun v => set_generationInterval (to_int64 v) p)
      else if String.eqb parameter "FreshnessPeriod" then
        assign_number value (fun v => set_freshnessPeriod (to_int64 v) p)
      else if String.eqb parameter "ContentType" then
        assign_number value (fun v => set_contentType (to_uint32 v) p)
      else if String.eqb parameter "ContentBytes" then
        assign_number value
          (fun v => DataTrafficConfiguration.with_contentLength (Some (wrap64 v)) p)
      else if String.eqb parameter "Content" then
        parse_returned true (set_content value p) []
      else if String.eqb parameter "SigningInfo" then
        match signingInfo_of_string value with
        | Some si => parse_returned true (set_signingInfo si p) []
        | None => parse_thrown
        end
      else
        parse_returned true p
          [Log ("Line " ++ to_string lineNumber ++ " - Ignoring unknown parameter: " ++
                parameter) false true]
  end.

(** The pattern after a line that returned true, if it did. *)
Definition parsed (line : string) (lineNumber : Z) (p : TrafficPattern)
  : option TrafficPattern :=
  match parseConfigurationLine line lineNumber p with
  | parse_returned true p' _ => Some p'
  | _ => None
  end.

End Configuration.

(** The eight parameters [parseConfigurationLine] knows. *)
Definition known_parameters : list string :=
  ["Name"; "ContentDelay"; "GenerationInterval"; "FreshnessPeriod"; "ContentType";
   "ContentBytes"; "Content"; "SigningInfo"]%string.

(** ** More observations *)

(** A pattern without its counter: what the configuration file defines. *)
Definition configuration (p : TrafficPattern) : TrafficPattern :=
  {| DataTrafficConfiguration.m_name := DataTrafficConfiguration.m_name p;
     DataTrafficConfiguration.m_contentDelay := DataTrafficConfiguration.m_contentDelay p;
     DataTrafficConfiguration.m_generationInterval :=
       DataTrafficConfiguration.m_generationInterval p;
     DataTrafficConfiguration.m_freshnessPeriod :=
       DataTrafficConfiguration.m_freshnessPeriod p;
     DataTrafficConfiguration.m_contentType := DataTrafficConfiguration.m_contentType p;
     DataTrafficConfiguration.m_contentLength := DataTrafficConfiguration.m_contentLength p;
     DataTrafficConfiguration.m_content := DataTrafficConfiguration.m_content p;
     DataTrafficConfiguration.m_signingInfo := DataTrafficConfiguration.m_signingInfo p;
     DataTrafficConfiguration.m_nInterestsReceived := 0 |}.

(** The pauses of a publish step: the delay of the pattern, then the delay
    of the run, each when it is more than zero. *)
Definition pauses {collaborators : Collaborators}
    (o : NdnTrafficPush) (p : TrafficPattern) : list Z :=
  (if 0 <? DataTrafficConfiguration.m_contentDelay p
   then [DataTrafficConfiguration.m_contentDelay p] else []) ++
  (if 0 <? m_contentDelay o then [m_contentDelay o] else []).

(** Whether a callback sets the error flag: the registration failure that
    takes the count of failures to the number of patterns, and the signal
    wait of [run] that completes while a cap is set and not reached. *)
Definition sets_error {collaborators : Collaborators}
    (cb : callback) (o : NdnTrafficPush) : bool :=
  match cb with
  | TimerExpired _ _ => false
  | RegisterFailed _ patternId =>
      bool_decide (is_Some (m_trafficPatterns o !! patternId)) &&
      (wrap64 (m_nRegistrationsFailed o + 1) =? Z.of_nat (length (m_trafficPatterns o)))
  | SignalWaitCompleted run_signal_handler => cap_pending o
  | SignalWaitCompleted pushLoop_signal_handler => false
  end.

(** A schedule of registration failures only, each for a pattern of the
    object. *)
Definition failures_only {collaborators : Collaborators}
    (cbs : list callback) (o : NdnTrafficPush) : Prop :=
  Forall
    (fun cb =>
       match cb with
       | RegisterFailed _ patternId => (patternId < length (m_trafficPatterns o))%nat
       | _ => False
       end) cbs.

(** Whether [main] returns before it calls [run]. *)
Definition leaves_early (opts : options) : bool :=
  opt_help opts || empty (opt_configFile opts) ||
  match opt_count opts with Some count => count <? 0 | None => false end ||
  (opt_delay opts <? 0).

(** What [po::store] and [po::notify] make of the command line: they throw
    [po::error] or [boost::bad_any_cast], or they fill the variables map
    the options of [main] are read from. *)
Inductive command_line : Type :=
| po_thrown
| po_stored (opts : options).

(** [main], from the command line on: its two [catch] clauses return 2
    before any option is looked at and before the object is constructed. *)
Definition main_argv {collaborators : Collaborators}
    (cl : command_line) (rng : engine) (now : Z)
  : outcome run_result * option NdnTrafficPush :=
  match cl with
  | po_thrown => (Done (Returned 2), None)
  | po_stored opts =>
      let result := main opts rng now in (fst result, Some (snd result))
  end.

(** Whether [main] returns before it calls [run], from the command line
    on. *)
Definition returns_before_run (cl : command_line) : bool :=
  match cl with
  | po_thrown => true
  | po_stored opts => leaves_early opts
  end.

(** The timer waits started, with the pattern and the deadline of each. *)
Fixpoint timers_armed (evs : list event) : list (nat * Z) :=
  match evs with
  | [] => []
  | TimerAsyncWait id deadline :: evs' => (id, deadline) :: timers_armed evs'
  | _ :: evs' => timers_armed evs'
  end.

(** The pauses of the thread, in order. *)
Fixpoint sleeps (evs : list event) : list Z :=
  match evs with
  | [] => []
  | SleepFor d :: evs' => d :: sleeps evs'
  | _ :: evs' => sleeps evs'
  end.

(** The number of lines written to the log. *)
Fixpoint log_lines (evs : list event) : nat :=
  match evs with
  | [] => O
  | Log _ _ _ :: evs' => S (log_lines evs')
  | _ :: evs' => log_lines evs'
  end.

(** The number of cancellations of the signal waits, and the prefixes
    released. *)
Fixpoint signal_cancels (evs : list event) : nat :=
  match evs with
  | [] => O
  | SignalCancel :: evs' => S (signal_cancels evs')
  | _ :: evs' => signal_cancels evs'
  end.

Fixpoint released (evs : list event) : list nat :=
  match evs with
  | [] => []
  | ReleasePrefixes ids :: evs' => ids ++ released evs'
  | _ :: evs' => released evs'
  end.

(** The signal waits started, by handler. *)
Fixpoint signal_waits (evs : list event) : list signal_handler :=
  match evs with
  | [] => []
  | SignalAsyncWait h :: evs' => h :: signal_waits evs'
  | _ :: evs' => signal_waits evs'
  end.

(** ** Fixtures

    A deterministic engine that counts its draws (the [n]-th byte drawn is
    [n - 128]), a key chain and a face that accept everything, and a reader
    that knows two configuration files. *)

Definition pattern_a : TrafficPattern :=
  {| DataTrafficConfiguration.m_name := "/a";
     DataTrafficConfiguration.m_contentDelay := -1000;
     DataTrafficConfiguration.m_generationInterval := 500;
     DataTrafficConfiguration.m_freshnessPeriod := -1;
     DataTrafficConfiguration.m_contentType := None;
     DataTrafficConfiguration.m_contentLength := Some 20;
     DataTrafficConfiguration.m_content := EmptyString;
     DataTrafficConfiguration.m_signingInfo := "id:/a";
     DataTrafficConfiguration.m_nInterestsReceived := 0 |}.

(** Both [Content] and [ContentBytes] are set. *)
Definition pattern_b : TrafficPattern :=
  {| DataTrafficConfiguration.m_name := "/b";
     DataTrafficConfiguration.m_contentDelay := 40;
     DataTrafficConfiguration.m_generationInterval := 300;
     DataTrafficConfiguration.m_freshnessPeriod := 1000;
     DataTrafficConfiguration.m_contentType := Some 0;
     DataTrafficConfiguration.m_contentLength := Some 20;
     DataTrafficConfiguration.m_content := "hi";
     DataTrafficConfiguration.m_signingInfo := "id:/b";
     DataTrafficConfiguration.m_nInterestsReceived := 0 |}.

(** [ContentBytes=0] and no [Content]. *)
Definition pattern_zero : TrafficPattern :=
  {| DataTrafficConfiguration.m_name := "/z";
     DataTrafficConfiguration.m_contentDelay := -1000;
     DataTrafficConfiguration.m_generationInterval := 100;
     DataTrafficConfiguration.m_freshnessPeriod := -1;
     DataTrafficConfiguration.m_contentType := None;
     DataTrafficConfiguration.m_contentLength := Some 0;
     DataTrafficConfiguration.m_content := EmptyString;
     DataTrafficConfiguration.m_signingInfo := "id:/z";
     DataTrafficConfiguration.m_nInterestsReceived := 0 |}.

(** [ContentBytes=5], less than the eleven characters of the header. *)
Definition pattern_short : TrafficPattern :=
  {| DataTrafficConfiguration.m_name := "/s";
     DataTrafficConfiguration.m_contentDelay := -1000;
     DataTrafficConfiguration.m_generationInterval := 100;
     DataTrafficConfiguration.m_freshnessPeriod := -1;
     DataTrafficConfiguration.m_contentType := None;
     DataTrafficConfiguration.m_contentLength := Some 5;
     DataTrafficConfiguration.m_content := EmptyString;
     DataTrafficConfiguration.m_signingInfo := "id:/s";
     DataTrafficConfiguration.m_nInterestsReceived := 0 |}.

Definition bench : Collaborators :=
  {| engine := nat;
     dist := fun e => (Z.of_nat e - 128, S e);
     generateWord32 := fun e => (Z.of_nat e, S e);
     max_size := 2 ^ 62 - 1;
     keyChain_sign := fun _ _ => true;
     face_put := fun _ => true;
     readConfigurationFile := fun file =>
       if String.eqb file "push.conf"
       then Some [pattern_a; pattern_b; pattern_zero; pattern_short]
       else if String.eqb file "blank.conf"
       then Some [DataTrafficConfiguration.default EmptyString]
       else None |}.

(** Three command lines: no [--count], [--count 0], [--count 2 --delay 7]. *)
Definition options_no_count (file : string) : options :=
  {| opt_help := false; opt_count := None; opt_delay := 0; opt_quiet := false;
     opt_configFile := file |}.

Definition options_count (n : Z) (file : string) : options :=
  {| opt_help := false; opt_count := Some n; opt_delay := 7; opt_quiet := false;
     opt_configFile := file |}.

(** The object of the bench once [run] is in the event loop with a cap of
    [n], and the timer of its first push loop, armed at time 100. *)
Definition bench_started (n : Z) : NdnTrafficPush (collaborators := bench) :=
  snd (main (collaborators := bench) (options_count n "push.conf") 0%nat 100).

Definition bench_timer : deadline_timer := {| expires_at := 600 |}.

(** A schedule of the event loop of the bench: two patterns fire, a
    registration fails, the first pattern fires again. *)
Definition bench_schedule : list callback :=
  [TimerExpired 0 bench_timer; TimerExpired 1 bench_timer;
   RegisterFailed "timeout" 2; TimerExpired 0 bench_timer].

(** The object of the bench after three of its four registrations failed. *)
Definition bench_three_failed : NdnTrafficPush (collaborators := bench) :=
  run_schedule
    [RegisterFailed "timeout" 0; RegisterFailed "timeout" 1; RegisterFailed "timeout" 2]
    (bench_started 9).

(** The object of the bench with a cap of 2 once two packets are published:
    the cap is reached and the signal waits are cancelled. *)
Definition bench_cap_reached : NdnTrafficPush (collaborators := bench) :=
  run_schedule [TimerExpired 0 bench_timer; TimerExpired 1 bench_timer]
    (bench_started 2).

(** A reader of lines for the bench: the parameter is what stands before
    the first ['='], the value what follows; a line without ['='] has no
    parameter. The numbers are the decimal ones below [2^64]. *)
Fixpoint bench_extract (line : string) : option (string * string) :=
  match line with
  | EmptyString => None
  | String c rest =>
      if Ascii.eqb c "=" then Some (EmptyString, rest)
      else
        match bench_extract rest with
        | Some (parameter, value) => Some (String c parameter, value)
        | None => None
        end
  end.

Definition bench_stoul (value : string) : option Z :=
  match NilZero.uint_of_string value with
  | Some d => if Z.of_uint d <? UINT64_MODULUS then Some (Z.of_uint d) else None
  | None => None
  end.

Definition bench_signingInfo (value : string) : option SigningInfo := Some value.

Definition bench_parse : string -> Z -> TrafficPattern -> parse_result :=
  parseConfigurationLine bench_extract bench_stoul bench_signingInfo.

(** A second bench whose face throws on every packet, and its object once
    [run] is in the event loop with a cap of 1. *)
Definition offline_bench : Collaborators :=
  {| engine := nat;
     dist := fun e => (Z.of_nat e - 128, S e);
     generateWord32 := fun e => (Z.of_nat e, S e);
     max_size := 2 ^ 62 - 1;
     keyChain_sign := fun _ _ => true;
     face_put := fun _ => false;
     readConfigurationFile := fun file =>
       if String.eqb file "push.conf"
       then Some [pattern_a; pattern_b; pattern_zero; pattern_short]
       else None |}.

Definition offline_started : NdnTrafficPush (collaborators := offline_bench) :=
  snd (main (collaborators := offline_bench) (options_count 1 "push.conf") 0%nat 100).

(** The object of the bench as [main] hands it to [run], with no cap. *)
Definition bench_constructed : NdnTrafficPush (collaborators := bench) :=
  setContentDelay 0 (construct (collaborators := bench) "push.conf" 0%nat).

(** The object of the bench with a cap of 2 after one publication. *)
Definition bench_one_published : NdnTrafficPush (collaborators := bench) :=
  dispatch (TimerExpired 0 bench_timer) (bench_started 2).

(** Four registration failures, one per pattern of the bench. *)
Definition bench_all_fail : list callback :=
  [RegisterFailed "timeout" 0; RegisterFailed "timeout" 1;
   RegisterFailed "timeout" 2; RegisterFailed "timeout" 3].

(** A command line with a negative count. *)
Definition options_negative_count : options :=
  {| opt_help := false; opt_count := Some (-1); opt_delay := 0; opt_quiet := false;
     opt_configFile := "push.conf" |}.

(** * Properties *)

(** [std::to_string] and the header, on examples. *)
Example to_string_0 : to_string 0 = "0"%string.
Proof. reflexivity. Qed.

Example to_string_1234 : to_string 1234 = "1234"%string.
Proof. reflexivity. Qed.

Example header_pattern_a : header pattern_a = "/a/seq=0&%_"%string.
Proof. reflexivity. Qed.

Example static_cast_char_negative : static_cast_char (-127) = "129"%char.
Proof. reflexivity. Qed.

Section Properties.

Context {collaborators : Collaborators}.

Implicit Types (o : NdnTrafficPush) (p : TrafficPattern).

Lemma with_trace_same o : with_trace (trace o) o = o.
Proof. by destruct o. Qed.

Lemma with_trace_twice evs evs' o :
  with_trace evs' (with_trace evs o) = with_trace evs' o.
Proof. reflexivity. Qed.

Lemma emit_run e o : emit e o = (Done tt, with_trace (trace o ++ [e]) o).
Proof. reflexivity. Qed.

Lemma logStatistics_patterns_run ps : forall i o,
  logStatistics_patterns i ps o =
  (Done tt, with_trace (trace o ++ report_pattern_events i ps) o).
Proof.
  induction ps as [|p ps IH]; intros i o.
  - simpl. by rewrite app_nil_r, with_trace_same.
  - simpl. unfold bind, log at 1 2 3. rewrite !emit_run. simpl. rewrite IH. simpl.
    by rewrite <- !app_assoc.
Qed.

Lemma logStatistics_run o :
  logStatistics o =
  (Done tt,
   with_trace (trace o ++ report_events (m_nInterestsReceived o) (m_trafficPatterns o)) o).
Proof.
  unfold logStatistics, bind, get, log. rewrite !emit_run. simpl.
  rewrite logStatistics_patterns_run. simpl. by rewrite <- !app_assoc.
Qed.

Lemma stop_run o : stop o = (Done tt, with_trace (trace o ++ stop_events o) o).
Proof.
  unfold stop, bind. rewrite logStatistics_run, !emit_run. simpl.
  unfold stop_events. by rewrite <- !app_assoc.
Qed.


Lemma draw_chars_length n : forall e, String.length (fst (draw_chars n e)) = n.
Proof.
  induction n as [|n IH]; intros e; simpl; [done|].
  destruct (dist e) as [v e']. specialize (IH e').
  destruct (draw_chars n e') as [s e'']. simpl in *. by rewrite IH.
Qed.

Lemma sendData_content_run p o :
  sendData_content p o =
  match filler_length p with
  | None =>
      (Done (if empty (DataTrafficConfiguration.m_content p)
             then EmptyString else DataTrafficConfiguration.m_content p), o)
  | Some n =>
      if max_size <? n then (Thrown length_error, o)
      else
        (Done (if empty (DataTrafficConfiguration.m_content p)
               then (header p ++ fst (draw_chars (Z.to_nat n) (randomNumberEngine o)))%string
               else DataTrafficConfiguration.m_content p),
         with_randomNumberEngine
           (snd (draw_chars (Z.to_nat n) (randomNumberEngine o))) o)
  end.
Proof.
  unfold sendData_content, filler_length, bind, ret.
  destruct (DataTrafficConfiguration.m_contentLength p) as [len|]; [|done].
  destruct (0 <? len); [|done].
  unfold getRandomByteString, bind.
  destruct (max_size <? wrap64 (len - size (header p))); [done|].
  unfold get. 
  destruct (draw_chars _ _) as [s e]. done.
Qed.

Lemma sendData_content_patterns p o :
  m_trafficPatterns (snd (sendData_content p o)) = m_trafficPatterns o.
Proof.
  rewrite sendData_content_run.
  destruct (filler_length p) as [n|]; [|done]. by destruct (max_size <? n).
Qed.

Lemma bind_ret {A B} (a : A) (k : A -> M B) o : bind (ret a) k o = k a o.
Proof. reflexivity. Qed.

Lemma bind_throw {A B} e (k : A -> M B) o : bind (throw e) k o = (Thrown e, o).
Proof. reflexivity. Qed.

Lemma bind_get {B} (k : NdnTrafficPush -> M B) o : bind get k o = k o o.
Proof. reflexivity. Qed.

Lemma bind_modify {B} f (k : unit -> M B) o : bind (modify f) k o = k tt (f o).
Proof. reflexivity. Qed.

Lemma bind_emit {B} e (k : unit -> M B) o :
  bind (emit e) k o = k tt (with_trace (trace o ++ [e]) o).
Proof. reflexivity. Qed.

Lemma bind_log {B} msg ts console (k : unit -> M B) o :
  bind (log msg ts console) k o = k tt (with_trace (trace o ++ [Log msg ts console]) o).
Proof. reflexivity. Qed.

Lemma bind_when {B} (b : bool) c (k : unit -> M B) o :
  bind (when b c) k o = if b then bind c k o else k tt o.
Proof. by destruct b. Qed.

Lemma bind_bind {A B C} (c : M A) (k : A -> M B) (k' : B -> M C) o :
  bind (bind c k) k' o = bind c (fun a => bind (k a) k') o.
Proof. unfold bind. by destruct (c o) as [[a|e] o']. Qed.

Lemma bind_trafficPattern {B} patternId (k : TrafficPattern -> M B) o :
  bind (trafficPattern patternId) k o =
  match m_trafficPatterns o !! patternId with
  | Some p => k p o
  | None => (Thrown bad_index, o)
  end.
Proof.
  unfold trafficPattern. rewrite bind_bind, bind_get.
  by destruct (m_trafficPatterns o !! patternId).
Qed.

Lemma bind_stop {B} (k : unit -> M B) o :
  bind stop k o = k tt (with_trace (trace o ++ stop_events o) o).
Proof. unfold bind at 1. by rewrite stop_run. Qed.

Ltac fields :=
  cbn [m_configurationFile m_nMaximumInterests m_contentDelay m_trafficPatterns
       m_registeredPrefixes m_nRegistrationsFailed m_nInterestsReceived m_wantQuiet
       m_hasError randomNumberEngine trace
       with_nMaximumInterests with_contentDelay with_trafficPatterns
       with_registeredPrefixes with_nRegistrationsFailed with_nInterestsReceived
       with_wantQuiet with_hasError with_randomNumberEngine with_trace] in *.

Ltac mstep :=
  first [ rewrite bind_ret | rewrite bind_throw | rewrite bind_get
        | rewrite bind_modify | rewrite bind_emit | rewrite bind_log
        | rewrite bind_when | rewrite bind_bind | rewrite bind_stop ];
  cbn [negb]; fields.

Lemma sendData_run patternId timer o p :
  m_trafficPatterns o !! patternId = Some p ->
  sendData patternId timer o =
  match sendData_content p o with
  | (Done content, o1) => publish patternId p content timer o1
  | (Thrown e, o1) => (Thrown e, o1)
  end.
Proof.
  intros Hp. unfold sendData. rewrite bind_trafficPattern, Hp.
  unfold bind at 1.
  pose proof (sendData_content_patterns p o) as Hps.
  destruct (sendData_content p o) as [[content|e] o1]; [|done]. simpl in Hps.
  rewrite <- Hps in Hp. clear Hps.
  unfold publish, counted, count_global, count_pattern. fold (make_data p content None).
  destruct (keyChain_sign _ _) eqn:Hsign; [|done].
  rewrite bind_emit, bind_modify, bind_bind, bind_trafficPattern. fields.
  rewrite Hp, bind_modify, bind_trafficPattern. fields.
  rewrite list_lookup_insert_eq by apply (lookup_lt_Some _ _ _ Hp).
  rewrite bind_get. unfold before_put_events, after_put_events, cap_reached, make_data.
  cbn [d_name d_freshnessPeriod d_contentType d_content d_signature
       DataTrafficConfiguration.count DataTrafficConfiguration.m_contentDelay
       DataTrafficConfiguration.m_generationInterval].
  fields.
  destruct (m_wantQuiet o1), (0 <? DataTrafficConfiguration.m_contentDelay p),
    (0 <? m_contentDelay o1), (face_put _);
    repeat mstep; cbn [app]; rewrite <- ?app_assoc; try reflexivity.
  all: destruct (m_nMaximumInterests o1) as [cap|];
    [match goal with |- context [cap <=? ?x] => destruct (cap <=? x) end|];
    repeat mstep; unfold ret, id; fields; cbn [app]; rewrite <- ?app_assoc;
    reflexivity.
Qed.

(** *** The callbacks in closed form *)

Lemma sendData_bad_index patternId timer o :
  m_trafficPatterns o !! patternId = None ->
  sendData patternId timer o = (Thrown bad_index, o).
Proof. intros Hp. unfold sendData. by rewrite bind_trafficPattern, Hp. Qed.

Lemma onRegisterFailed_bad_index reason patternId o :
  m_trafficPatterns o !! patternId = None ->
  onRegisterFailed reason patternId o = (Thrown bad_index, o).
Proof. intros Hp. unfold onRegisterFailed. by rewrite bind_trafficPattern, Hp. Qed.

Lemma onRegisterFailed_run reason patternId o p :
  m_trafficPatterns o !! patternId = Some p ->
  onRegisterFailed reason patternId o =
  (Done tt,
   let line :=
     Log ("Prefix registration failed - PatternType=" ++
          to_string (Z.of_nat patternId + 1) ++
          ", Name=" ++ DataTrafficConfiguration.m_name p ++
          ", Reason=" ++ reason) true true in
   let o' := with_nRegistrationsFailed (wrap64 (m_nRegistrationsFailed o + 1)) o in
   if wrap64 (m_nRegistrationsFailed o + 1) =? Z.of_nat (length (m_trafficPatterns o))
   then with_trace (trace o ++ [line; Log "Registration failure." false false] ++
                    stop_events o) (with_hasError true o')
   else with_trace (trace o ++ [line]) o').
Proof.
  intros Hp. unfold onRegisterFailed.
  rewrite bind_trafficPattern, Hp. repeat mstep.
  destruct (_ =? _); unfold when; repeat mstep; rewrite ?stop_run; unfold ret; fields;
    cbn [app]; rewrite <- ?app_assoc; reflexivity.
Qed.

Lemma on_run_signal_run o :
  on_run_signal o =
  (Done tt,
   if cap_pending o
   then with_trace (trace o ++ [Log "Async wait error set." false false;
                                Log "Async wait ended." false false] ++ stop_events o)
                   (with_hasError true o)
   else with_trace (trace o ++ [Log "Async wait ended." false false] ++ stop_events o) o).
Proof.
  unfold on_run_signal. rewrite bind_get, bind_when.
  destruct (cap_pending o);
    repeat mstep; rewrite stop_run; fields;
    cbn [app]; rewrite <- ?app_assoc; reflexivity.
Qed.

Lemma signal_callback_counters h o :
  m_nInterestsReceived (snd (signal_callback h o)) = m_nInterestsReceived o /\
  m_trafficPatterns (snd (signal_callback h o)) = m_trafficPatterns o.
Proof.
  destruct h; simpl.
  - rewrite on_run_signal_run. by destruct (cap_pending o).
  - unfold on_pushLoop_signal. by rewrite stop_run.
Qed.

Lemma onRegisterFailed_counters reason patternId o :
  m_nInterestsReceived (snd (onRegisterFailed reason patternId o)) = m_nInterestsReceived o /\
  m_trafficPatterns (snd (onRegisterFailed reason patternId o)) = m_trafficPatterns o.
Proof.
  destruct (m_trafficPatterns o !! patternId) as [p|] eqn:Hp.
  - rewrite (onRegisterFailed_run _ _ _ _ Hp). simpl. by destruct (_ =? _).
  - by rewrite onRegisterFailed_bad_index.
Qed.

(** *** What the publish step does to the counters *)

Lemma sendData_content_counters p o :
  not_counted o (snd (sendData_content p o)).
Proof.
  rewrite sendData_content_run. unfold not_counted.
  destruct (filler_length p) as [n|]; [|done]. by destruct (max_size <? n).
Qed.

Lemma publish_counters patternId p content timer o :
  match fst (publish patternId p content timer o) with
  | Done _ | Thrown put_error =>
      counted_once patternId p o (snd (publish patternId p content timer o))
  | Thrown _ => not_counted o (snd (publish patternId p content timer o))
  end.
Proof.
  unfold publish, counted_once, not_counted.
  destruct (keyChain_sign _ _); [|done].
  destruct (face_put _); [|done].
  cbn [fst snd]. by destruct (cap_reached _).
Qed.

Lemma sendData_content_throws p o e o' :
  sendData_content p o = (Thrown e, o') -> e = length_error /\ o' = o.
Proof.
  rewrite sendData_content_run.
  destruct (filler_length p) as [n|]; [|done].
  destruct (max_size <? n); [|done]. by intros [= <- <-].
Qed.

Lemma sendData_counters patternId timer o p :
  m_trafficPatterns o !! patternId = Some p ->
  match fst (sendData patternId timer o) with
  | Done _ | Thrown put_error =>
      counted_once patternId p o (snd (sendData patternId timer o))
  | Thrown _ => not_counted o (snd (sendData patternId timer o))
  end.
Proof.
  intros Hp. rewrite (sendData_run _ _ _ _ Hp).
  pose proof (sendData_content_counters p o) as [Hn Hps].
  destruct (sendData_content p o) as [[content|e] o1] eqn:Hc; cbn [fst snd] in *.
  - pose proof (publish_counters patternId p content timer o1) as H.
    unfold counted_once, not_counted in *. rewrite <- Hn, <- Hps. exact H.
  - by apply sendData_content_throws in Hc as [-> ->].
Qed.

(** *** The total and the sum of the counters *)

Lemma sum_counters_insert ps : forall i p q,
  ps !! i = Some p ->
  sum_counters (<[i := q]> ps) =
  sum_counters ps - DataTrafficConfiguration.m_nInterestsReceived p +
  DataTrafficConfiguration.m_nInterestsReceived q.
Proof.
  induction ps as [|p0 ps IH]; intros [|i] p q Hp; try done.
  - injection Hp as ->. simpl. lia.
  - simpl in *. rewrite (IH _ _ _ Hp). lia.
Qed.

Lemma sum_counters_ge ps i p :
  Forall (fun p => 0 <= DataTrafficConfiguration.m_nInterestsReceived p) ps ->
  ps !! i = Some p ->
  0 <= DataTrafficConfiguration.m_nInterestsReceived p <= sum_counters ps.
Proof.
  intros Hall. revert i. induction Hall as [|p0 ps H0 Hall IH]; intros [|i] Hp; try done.
  - injection Hp as ->. simpl.
    assert (0 <= sum_counters ps); [|lia].
    clear -Hall. induction Hall; simpl; lia.
  - simpl in *. specialize (IH _ Hp). lia.
Qed.

Lemma dispatch_counters cb o :
  not_counted o (dispatch cb o) \/
  exists patternId p,
    m_trafficPatterns o !! patternId = Some p /\
    counted_once patternId p o (dispatch cb o).
Proof.
  destruct cb as [patternId timer|reason patternId|h]; simpl.
  - destruct (m_trafficPatterns o !! patternId) as [p|] eqn:Hp.
    + pose proof (sendData_counters patternId timer o p Hp) as H.
      destruct (fst (sendData patternId timer o)) as [?|[]]; eauto.
    + left. by rewrite sendData_bad_index.
  - left. apply onRegisterFailed_counters.
  - left. apply signal_callback_counters.
Qed.

Lemma run_schedule_snoc cbs cb o :
  run_schedule (cbs ++ [cb]) o = dispatch cb (run_schedule cbs o).
Proof. unfold run_schedule. by rewrite fold_left_app. Qed.

Lemma wrap64_succ z : wrap64 (wrap64 z + 1) = wrap64 (z + 1).
Proof. unfold wrap64. by rewrite Zplus_mod_idemp_l. Qed.

Lemma wrap64_small z : 0 <= z < UINT64_MODULUS -> wrap64 z = z.
Proof. intros H. unfold wrap64. by apply Z.mod_small. Qed.

Lemma counts_agree_schedule cbs : forall o,
  m_nInterestsReceived o = wrap64 (sum_counters (m_trafficPatterns o)) ->
  m_nInterestsReceived (run_schedule cbs o) =
  wrap64 (sum_counters (m_trafficPatterns (run_schedule cbs o))).
Proof.
  induction cbs as [|cb cbs IH] using rev_ind; intros o H; [done|].
  rewrite run_schedule_snoc. specialize (IH o H).
  destruct (dispatch_counters cb (run_schedule cbs o))
    as [[Hn Hps]|(i & p & Hp & Hn & Hps)].
  - by rewrite Hn, Hps.
  - rewrite Hn, Hps, (sum_counters_insert _ _ _ _ Hp), IH, wrap64_succ. simpl.
    unfold wrap64. rewrite Zplus_mod_idemp_r. f_equal. lia.
Qed.

Lemma counts_exact_schedule cbs : forall o,
  nothing_published o ->
  Z.of_nat (length cbs) < UINT64_MODULUS ->
  let o' := run_schedule cbs o in
  m_nInterestsReceived o' = sum_counters (m_trafficPatterns o') /\
  Forall (fun p => 0 <= DataTrafficConfiguration.m_nInterestsReceived p)
         (m_trafficPatterns o') /\
  sum_counters (m_trafficPatterns o') <= Z.of_nat (length cbs).
Proof.
  induction cbs as [|cb cbs IH] using rev_ind; intros o [H0 Hall] Hlen; simpl.
  - assert (sum_counters (m_trafficPatterns o) = 0) as Hsum.
    { clear -Hall. induction Hall as [|p ps Hp _ IH]; simpl; [done|]. lia. }
    rewrite Hsum. split_and!; [done| |done].
    eapply Forall_impl; [exact Hall|]. simpl. lia.
  - rewrite length_app in *. simpl in Hlen.
    rewrite run_schedule_snoc.
    destruct (IH o) as (IHn & IHpos & IHsum); [done|lia|].
    destruct (dispatch_counters cb (run_schedule cbs o))
      as [[Hn Hps]|(i & p & Hp & Hn & Hps)].
    + rewrite Hn, Hps. split_and!; [done|done|simpl; lia].
    + pose proof (sum_counters_ge _ _ _ IHpos Hp) as Hle.
      rewrite Hn, Hps, (sum_counters_insert _ _ _ _ Hp). simpl.
      rewrite !wrap64_small by (unfold UINT64_MODULUS in *; lia).
      split_and!; [lia| |simpl; lia].
      apply Forall_insert; [done|]. simpl.
      rewrite wrap64_small by (unfold UINT64_MODULUS in *; lia). lia.
Qed.

(** C5. At every point of every run, the global total of publications is
    the sum of the counters of the patterns, and a publish step increments
    the two counters together, after the signing and before the emission.

    A run starts with nothing published ([main_nothing_published]) and is
    any schedule [cbs] of callbacks. At the point [o] it reaches, the total is the sum of the
    counters in 64-bit arithmetic, and is the sum itself as long as fewer
    than [2^64] callbacks have run. A publish step from [o] on a pattern [p]
    counts in both counters or in neither: in both when the signing
    returned, whether the face then accepts the packet (the step returns)
    or throws ([put_error]); in neither when the step is left before or by
    the signing. *)
Theorem total_is_sum_of_pattern_counters
    (o0 : NdnTrafficPush) (cbs : list callback)
    (patternId : nat) (timer : deadline_timer) (p : TrafficPattern) :
  nothing_published o0 ->
  m_trafficPatterns (run_schedule cbs o0) !! patternId = Some p ->
  let o := run_schedule cbs o0 in
  m_nInterestsReceived o = wrap64 (sum_counters (m_trafficPatterns o)) /\
  (Z.of_nat (length cbs) < UINT64_MODULUS ->
   m_nInterestsReceived o = sum_counters (m_trafficPatterns o)) /\
  match fst (sendData patternId timer o) with
  | Done _ | Thrown put_error =>
      counted_once patternId p o (snd (sendData patternId timer o))
  | Thrown _ => not_counted o (snd (sendData patternId timer o))
  end.
Proof.
  intros Hstart Hp o. split_and!.
  - apply counts_agree_schedule. destruct Hstart as [-> Hall].
    assert (sum_counters (m_trafficPatterns o0) = 0) as ->; [|done].
    clear -Hall. induction Hall as [|q ps Hq _ IH]; simpl; [done|]. lia.
  - intros Hlen. by apply counts_exact_schedule.
  - by apply sendData_counters.
Qed.

(** *** What the publish step adds to the trace *)

Lemma emitted_app evs evs' : emitted (evs ++ evs') = emitted evs ++ emitted evs'.
Proof.
  induction evs as [|e evs IH]; [done|]. destruct e; simpl; by rewrite ?IH.
Qed.

Lemma emitted_before_put patternId o p : emitted (before_put_events patternId o p) = [].
Proof.
  unfold before_put_events.
  by destruct (m_wantQuiet o), (0 <? DataTrafficConfiguration.m_contentDelay p),
    (0 <? m_contentDelay o).
Qed.

Lemma emitted_after_put patternId o p timer :
  emitted (after_put_events patternId o p timer) = [].
Proof.
  unfold after_put_events. by destruct (m_wantQuiet o), (cap_reached o).
Qed.

Lemma sendData_content_engine p o :
  exists e, snd (sendData_content p o) = with_randomNumberEngine e o.
Proof.
  rewrite sendData_content_run.
  destruct (filler_length p) as [n|]; [destruct (max_size <? n)|]; simpl; eauto;
    exists (randomNumberEngine o); by destruct o.
Qed.

(** The publish step that returns: one packet, with the signed content, is
    handed to the face, the pattern is counted and the timer re-armed one
    generation interval after its last expiry time. *)
Lemma publish_done patternId p content timer o t o' :
  publish patternId p content timer o = (Done t, o') ->
  keyChain_sign (make_data p content None) (DataTrafficConfiguration.m_signingInfo p) = true /\
  face_put (make_data p content (Some (DataTrafficConfiguration.m_signingInfo p))) = true /\
  expires_at t = expires_at timer + DataTrafficConfiguration.m_generationInterval p /\
  m_trafficPatterns o' =
    <[patternId := DataTrafficConfiguration.count p]> (m_trafficPatterns o) /\
  exists evs,
    trace o' = trace o ++ evs /\
    emitted evs =
      [make_data p content (Some (DataTrafficConfiguration.m_signingInfo p))].
Proof.
  unfold publish.
  destruct (keyChain_sign _ _); [|done]. destruct (face_put _); [|done].
  intros [= <- <-]. split_and!; try done.
  - by destruct (cap_reached _).
  - eexists. split.
    + destruct (cap_reached _); unfold id, counted; fields;
        rewrite <- app_assoc; reflexivity.
    + cbn [app emitted].
      by rewrite emitted_app, emitted_before_put; cbn [app emitted];
        rewrite emitted_after_put.
Qed.

Lemma publish_thrown patternId p content timer o e o' :
  publish patternId p content timer o = (Thrown e, o') ->
  exists evs, trace o' = trace o ++ evs /\ emitted evs = [].
Proof.
  unfold publish.
  destruct (keyChain_sign _ _).
  - destruct (face_put _); [done|]. intros [= <- <-]. eexists. split.
    + unfold counted; fields. rewrite <- app_assoc. reflexivity.
    + cbn [app emitted]. apply emitted_before_put.
  - intros [= <- <-]. exists []. by rewrite app_nil_r.
Qed.

Lemma publish_returns patternId p content timer o :
  keyChain_sign (make_data p content None) (DataTrafficConfiguration.m_signingInfo p) = true ->
  face_put (make_data p content (Some (DataTrafficConfiguration.m_signingInfo p))) = true ->
  exists t o', publish patternId p content timer o = (Done t, o').
Proof. intros Hs Hp. unfold publish. rewrite Hs, Hp. eauto. Qed.

(** The two ways a publish step ends, seen from the trace. *)
Lemma sendData_done patternId timer o p t o' :
  m_trafficPatterns o !! patternId = Some p ->
  sendData patternId timer o = (Done t, o') ->
  exists content o1,
    sendData_content p o = (Done content, o1) /\
    expires_at t = expires_at timer + DataTrafficConfiguration.m_generationInterval p /\
    m_trafficPatterns o' =
      <[patternId := DataTrafficConfiguration.count p]> (m_trafficPatterns o) /\
    exists evs,
      trace o' = trace o ++ evs /\
      emitted evs =
        [make_data p content (Some (DataTrafficConfiguration.m_signingInfo p))].
Proof.
  intros Hp. rewrite (sendData_run _ _ _ _ Hp).
  destruct (sendData_content_engine p o) as [e He].
  pose proof (sendData_content_patterns p o) as Hps.
  destruct (sendData_content p o) as [[content|err] o1]; [|done]. simpl in *.
  intros (_ & _ & Ht & Hps' & evs & Htr & Hem)%publish_done.
  exists content, o1. split_and!; [done|done|by rewrite Hps', Hps|].
  exists evs. split; [|done]. by rewrite Htr, He.
Qed.

Lemma sendData_thrown patternId timer o e o' :
  sendData patternId timer o = (Thrown e, o') ->
  exists evs, trace o' = trace o ++ evs /\ emitted evs = [].
Proof.
  destruct (m_trafficPatterns o !! patternId) as [p|] eqn:Hp.
  - rewrite (sendData_run _ _ _ _ Hp).
    destruct (sendData_content_engine p o) as [eng He].
    destruct (sendData_content p o) as [[content|err] o1]; simpl in *.
    + intros (evs & Htr & Hem)%publish_thrown. exists evs. by rewrite Htr, He.
    + intros [= <- <-]. exists []. by rewrite He, app_nil_r.
  - rewrite sendData_bad_index by done. intros [= <- <-]. exists [].
    by rewrite app_nil_r.
Qed.

Lemma sendData_returns patternId timer o p content o1 :
  m_trafficPatterns o !! patternId = Some p ->
  sendData_content p o = (Done content, o1) ->
  keyChain_sign (make_data p content None) (DataTrafficConfiguration.m_signingInfo p) = true ->
  face_put (make_data p content (Some (DataTrafficConfiguration.m_signingInfo p))) = true ->
  exists t o', sendData patternId timer o = (Done t, o').
Proof.
  intros Hp Hc Hs Hput. rewrite (sendData_run _ _ _ _ Hp), Hc.
  by apply publish_returns.
Qed.

(** *** Generated content *)

Lemma size_append (s s' : string) : size (s ++ s') = size s + size s'.
Proof.
  unfold size. induction s as [|c s IH].
  - change (String.append EmptyString s') with s'. simpl. lia.
  - change (String.append (String c s) s') with (String c (String.append s s')).
    cbn [String.length]. rewrite !Nat2Z.inj_succ. lia.
Qed.

Lemma size_nonneg (s : string) : 0 <= size s.
Proof. unfold size. lia. Qed.

(** With a content length [len] that the header fits in, the content block
    draws the [len - header.size()] missing bytes and makes a content of
    [len] bytes out of them; all it changes is the engine. *)
Lemma sendData_content_generated p o len :
  DataTrafficConfiguration.m_contentLength p = Some len ->
  DataTrafficConfiguration.m_content p = EmptyString ->
  0 < len < UINT64_MODULUS ->
  size (header p) <= len ->
  if max_size <? len - size (header p)
  then sendData_content p o = (Thrown length_error, o)
  else exists content,
    sendData_content p o =
      (Done content,
       with_randomNumberEngine
         (snd (draw_chars (Z.to_nat (len - size (header p))) (randomNumberEngine o))) o) /\
    size content = len.
Proof.
  intros Hlen Hcontent Hrange Hheader.
  rewrite sendData_content_run. unfold filler_length. rewrite Hlen, Hcontent.
  destruct (Z.ltb_spec 0 len) as [_|?]; [|lia].
  pose proof (size_nonneg (header p)).
  rewrite wrap64_small by lia.
  destruct (max_size <? len - size (header p)); [done|].
  eexists. split; [reflexivity|]. cbn [empty].
  rewrite size_append. unfold size at 2. rewrite draw_chars_length. lia.
Qed.

Lemma count_iter_comm k p :
  Nat.iter k DataTrafficConfiguration.count (DataTrafficConfiguration.count p) =
  Nat.iter (S k) DataTrafficConfiguration.count p.
Proof. induction k as [|k IH]; [done|]. simpl in *. by rewrite IH. Qed.

Lemma firings_payloads N : forall patternId timer o p len,
  m_trafficPatterns o !! patternId = Some p ->
  DataTrafficConfiguration.m_content p = EmptyString ->
  DataTrafficConfiguration.m_contentLength p = Some len ->
  len < UINT64_MODULUS ->
  (forall k, (k < N)%nat ->
     size (header (Nat.iter k DataTrafficConfiguration.count p)) < len) ->
  exists evs,
    trace (snd (firings N patternId timer o)) = trace o ++ evs /\
    Forall (fun d => size (d_content d) = len) (emitted evs) /\
    (len <= max_size ->
     (forall d si, keyChain_sign d si = true) ->
     (forall d, face_put d = true) ->
     (exists t, fst (firings N patternId timer o) = Done t) /\
     length (emitted evs) = N).
Proof.
  induction N as [|N IH]; intros patternId timer o p len Hp Hcontent Hlen Hmax Hheader.
  { exists []. simpl. rewrite app_nil_r. split_and!; [done|constructor|eauto]. }
  pose proof (Hheader O (Nat.lt_0_succ N)) as H0. simpl in H0.
  pose proof (size_nonneg (header p)) as Hnonneg.
  assert (0 < len < UINT64_MODULUS) as Hrange by lia.
  assert (size (header p) <= len) as Hfit by lia.
  pose proof (sendData_content_generated p o len Hlen Hcontent Hrange Hfit) as Hgen.
  cbn [firings]. unfold bind.
  destruct (sendData patternId timer o) as [[t|e] o'] eqn:Hsend.
  - destruct (sendData_done _ _ _ _ _ _ Hp Hsend)
      as (content & o1 & Hc & _ & Hps & evs & Htr & Hem).
    assert (size content = len) as Hsize.
    { destruct (max_size <? len - size (header p)); [congruence|].
      destruct Hgen as (content' & Hc' & Hsize). congruence. }
    destruct (IH patternId t o' (DataTrafficConfiguration.count p) len)
      as (evs' & Htr' & Hall & Hret); try done.
    { rewrite Hps. apply list_lookup_insert_eq. by eapply lookup_lt_Some. }
    { intros k Hk. rewrite count_iter_comm. apply Hheader. lia. }
    exists (evs ++ evs'). split_and!.
    + by rewrite Htr', Htr, app_assoc.
    + rewrite emitted_app, Hem. by constructor.
    + intros Hfits Hsign Hput. destruct (Hret Hfits Hsign Hput) as [Hdone Hcount].
      split; [done|]. rewrite emitted_app, Hem, length_app, Hcount. done.
  - destruct (sendData_thrown _ _ _ _ _ Hsend) as (evs & Htr & Hem).
    exists evs. cbn [fst snd]. split_and!; [done|by rewrite Hem|].
    intros Hfits Hsign Hput. exfalso.
    destruct (Z.ltb_spec max_size (len - size (header p))) as [?|_]; [lia|].
    destruct Hgen as (content & Hc & _).
    destruct (sendData_returns patternId timer o p content _ Hp Hc (Hsign _ _) (Hput _))
      as (t & o'' & Hdone).
    congruence.
Qed.

(** C7. For any sequence of [N] publish firings on one pattern with no
    explicit content and a content length [L] strictly greater than the
    length of the header, every emitted payload has length exactly [L].

    The header is the one of each firing: its sequence number grows with
    the counter of the pattern. Whatever the key chain and the face do,
    every packet the [N] firings hand to the face has a content of [L]
    bytes; and when [L] bytes fit in a string and the key chain and the
    face accept every packet, the [N] firings return and hand [N] packets
    to the face. *)
Theorem generated_payload_has_content_length
    (N : nat) (patternId : nat) (timer : deadline_timer) (o : NdnTrafficPush)
    (p : TrafficPattern) (L : Z) :
  m_trafficPatterns o !! patternId = Some p ->
  DataTrafficConfiguration.m_content p = EmptyString ->
  DataTrafficConfiguration.m_contentLength p = Some L ->
  L < UINT64_MODULUS ->
  (forall k, (k < N)%nat ->
     size (header (Nat.iter k DataTrafficConfiguration.count p)) < L) ->
  exists evs,
    trace (snd (firings N patternId timer o)) = trace o ++ evs /\
    Forall (fun d => size (d_content d) = L) (emitted evs) /\
    (L <= max_size ->
     (forall d si, keyChain_sign d si = true) ->
     (forall d, face_put d = true) ->
     (exists t, fst (firings N patternId timer o) = Done t) /\
     length (emitted evs) = N).
Proof. apply firings_payloads. Qed.

(** *** Timers *)

Lemma startPushLoop_run patternId now o p :
  m_trafficPatterns o !! patternId = Some p ->
  startPushLoop patternId now o =
  (Done {| expires_at := now + DataTrafficConfiguration.m_generationInterval p |},
   with_trace
     (trace o ++
      [Log ("Starting push loop for pattern " ++ to_string (Z.of_nat patternId + 1) ++ ".")
           false false;
       SignalAsyncWait pushLoop_signal_handler;
       TimerAsyncWait patternId
         (now + DataTrafficConfiguration.m_generationInterval p);
       Log ("Push loop for pattern " ++ to_string (Z.of_nat patternId + 1) ++ " started.")
           false false;
       ProcessEvents]) o).
Proof.
  intros Hp. unfold startPushLoop. rewrite bind_log, bind_trafficPattern. fields.
  rewrite Hp. repeat mstep. unfold ret. cbn [expires_at].
  rewrite <- !app_assoc. reflexivity.
Qed.

Lemma rearmed_deadline patternId interval n t t' :
  rearmed patternId interval n t t' ->
  expires_at t' = expires_at t + Z.of_nat n * interval.
Proof.
  induction 1 as [t|n t t' t'' o o' p _ IH Hp Hinterval Hsend]; [lia|].
  destruct (sendData_done _ _ _ _ _ _ Hp Hsend) as (_ & _ & _ & Ht & _).
  rewrite Ht, IH, Hinterval. lia.
Qed.

(** C8. For every pattern with generation interval [I], the first firing
    is scheduled a full interval after the start, and each firing re-arms
    the timer to its previous deadline plus [I]: for every [N] the deadline
    after [N] firings is the initial deadline plus [N] times [I], whatever
    the processing and the delays took.

    [now] is the time at which [startPushLoop] constructs the timer; the
    [N] firings are those of [rearmed], each from an arbitrary state of the
    object. A firing whose content is generated and whose packet the key
    chain and the face accept does return, with the timer re-armed. *)
Theorem deadline_after_firings
    (patternId : nat) (interval now : Z) (o : NdnTrafficPush) (p : TrafficPattern)
    (N : nat) (timer : deadline_timer) :
  m_trafficPatterns o !! patternId = Some p ->
  DataTrafficConfiguration.m_generationInterval p = interval ->
  rearmed patternId interval N {| expires_at := now + interval |} timer ->
  fst (startPushLoop patternId now o) = Done {| expires_at := now + interval |} /\
  In (TimerAsyncWait patternId (now + interval))
     (trace (snd (startPushLoop patternId now o))) /\
  expires_at timer = (now + interval) + Z.of_nat N * interval /\
  (forall content o1,
     sendData_content p o = (Done content, o1) ->
     keyChain_sign (make_data p content None)
       (DataTrafficConfiguration.m_signingInfo p) = true ->
     face_put (make_data p content (Some (DataTrafficConfiguration.m_signingInfo p)))
       = true ->
     fst (sendData patternId timer o) =
       Done {| expires_at := expires_at timer + interval |}).
Proof.
  intros Hp Hinterval Hfirings.
  rewrite (startPushLoop_run _ _ _ _ Hp), Hinterval. cbn [fst snd]. fields.
  split_and!; [done| | |].
  - apply in_or_app. right. simpl. tauto.
  - by apply rearmed_deadline in Hfirings.
  - intros content o1 Hc Hsign Hput.
    destruct (sendData_returns patternId timer o p content o1 Hp Hc Hsign Hput)
      as (t & o' & Hsend).
    destruct (sendData_done _ _ _ _ _ _ Hp Hsend) as (_ & _ & _ & Ht & _).
    rewrite Hsend. cbn [fst]. destruct t as [e]. simpl in Ht. by rewrite Ht, Hinterval.
Qed.

(** *** The content block, case by case *)

Lemma sendData_emitted patternId timer o p :
  m_trafficPatterns o !! patternId = Some p ->
  exists evs,
    trace (snd (sendData patternId timer o)) = trace o ++ evs /\
    match fst (sendData patternId timer o) with
    | Done _ =>
        exists content o1,
          sendData_content p o = (Done content, o1) /\
          emitted evs =
            [make_data p content (Some (DataTrafficConfiguration.m_signingInfo p))]
    | Thrown _ => emitted evs = []
    end.
Proof.
  intros Hp. destruct (sendData patternId timer o) as [[t|e] o'] eqn:Hsend.
  - destruct (sendData_done _ _ _ _ _ _ Hp Hsend)
      as (content & o1 & Hc & _ & _ & evs & Htr & Hem).
    exists evs. split; [done|]. cbn [fst]. eauto.
  - destruct (sendData_thrown _ _ _ _ _ Hsend) as (evs & Htr & Hem). eauto.
Qed.

Lemma sendData_content_explicit p o content o1 :
  empty (DataTrafficConfiguration.m_content p) = false ->
  sendData_content p o = (Done content, o1) ->
  content = DataTrafficConfiguration.m_content p.
Proof.
  intros Hne. rewrite sendData_content_run, Hne.
  destruct (filler_length p) as [n|]; [destruct (max_size <? n)|]; congruence.
Qed.

Lemma sendData_content_no_length p o :
  filler_length p = None ->
  DataTrafficConfiguration.m_content p = EmptyString ->
  sendData_content p o = (Done EmptyString, o).
Proof. intros Hn Hc. by rewrite sendData_content_run, Hn, Hc. Qed.

(** C4, as the code has it. For every pattern with a content length
    greater than 0 and no explicit content, if the header
    ["<name>/seq=<sequenceNumber>&%_"] is longer than the content length,
    the publish step is left by an exception instead of producing a
    payload: the [std::size_t] difference wraps around to at least [2^63]
    and [getRandomByteString] cannot reserve that many bytes
    ([std::length_error]). Nothing is signed, counted or handed to the
    face. The limit [max_size] of a string is less than [2^63] and the
    header is a string. *)
Theorem short_content_length_throws
    (patternId : nat) (timer : deadline_timer) (o : NdnTrafficPush)
    (p : TrafficPattern) (L : Z) :
  m_trafficPatterns o !! patternId = Some p ->
  DataTrafficConfiguration.m_contentLength p = Some L ->
  DataTrafficConfiguration.m_content p = EmptyString ->
  0 < L ->
  L < size (header p) ->
  size (header p) <= max_size ->
  max_size < 2 ^ 63 ->
  sendData_content p o = (Thrown length_error, o) /\
  sendData patternId timer o = (Thrown length_error, o).
Proof.
  intros Hp Hlen _ Hpos Hshort Hheader Hmax.
  assert (sendData_content p o = (Thrown length_error, o)) as Hc.
  { rewrite sendData_content_run. unfold filler_length. rewrite Hlen.
    destruct (Z.ltb_spec 0 L) as [_|?]; [|lia].
    assert (wrap64 (L - size (header p)) = L - size (header p) + UINT64_MODULUS) as ->.
    { unfold wrap64, UINT64_MODULUS in *. symmetry. apply Z.mod_unique_pos with (q := -1); lia. }
    destruct (Z.ltb_spec max_size (L - size (header p) + UINT64_MODULUS)) as [_|?];
      [done|]. unfold UINT64_MODULUS in *. lia. }
  split; [done|]. by rewrite (sendData_run _ _ _ _ Hp), Hc.
Qed.

(** C10. For every pattern whose content length is configured as 0 and
    whose explicit content is empty, every publish firing emits an empty
    payload: a content length of 0 is treated as an absent one, no header
    is written and no length is checked.

    The content block gives the empty content and leaves the object as it
    is, as it does for the same pattern without a content length; the
    publish step hands nothing but empty contents to the face, is never
    left by [std::length_error], and returns with one packet when the key
    chain and the face accept it. *)
Theorem zero_content_length_publishes_empty
    (patternId : nat) (timer : deadline_timer) (o : NdnTrafficPush)
    (p : TrafficPattern) :
  m_trafficPatterns o !! patternId = Some p ->
  DataTrafficConfiguration.m_contentLength p = Some 0 ->
  DataTrafficConfiguration.m_content p = EmptyString ->
  sendData_content p o = (Done EmptyString, o) /\
  sendData_content p o =
    sendData_content (DataTrafficConfiguration.with_contentLength None p) o /\
  exists evs,
    trace (snd (sendData patternId timer o)) = trace o ++ evs /\
    Forall (fun d => d_content d = EmptyString) (emitted evs) /\
    fst (sendData patternId timer o) <> Thrown length_error /\
    ((forall d si, keyChain_sign d si = true) ->
     (forall d, face_put d = true) ->
     (exists t, fst (sendData patternId timer o) = Done t) /\
     length (emitted evs) = 1%nat).
Proof.
  intros Hp Hlen Hcontent.
  assert (sendData_content p o = (Done EmptyString, o)) as Hc.
  { apply sendData_content_no_length; [|done]. unfold filler_length. by rewrite Hlen. }
  split_and!; [done| |].
  { rewrite Hc. symmetry. by apply sendData_content_no_length. }
  destruct (sendData_emitted patternId timer o p Hp) as (evs & Htr & Hem).
  exists evs. split; [done|].
  rewrite (sendData_run _ _ _ _ Hp), Hc in *.
  destruct (publish patternId p EmptyString timer o) as [[t|e] o'] eqn:Hpub; cbn [fst] in *.
  - destruct Hem as (content & o1 & [= <- <-] & ->).
    split_and!; [by repeat constructor|done|eauto].
  - rewrite Hem. split_and!; [constructor| |].
    + unfold publish in Hpub. destruct (keyChain_sign _ _); [|congruence].
      destruct (face_put _); congruence.
    + intros Hsign Hput.
      destruct (publish_returns patternId p EmptyString timer o (Hsign _ _) (Hput _))
        as (t & o'' & Hdone). congruence.
Qed.

(** C6, as the code has it. For every pattern with both an explicit
    content and a content length, every published object carries the
    explicit content as its payload. When the header fits in the content
    length, the random filler is generated first (the engine is advanced by
    content length minus header length draws) and the explicit content then
    replaces the generated one; the step returns with one packet when the
    key chain and the face accept it. *)
Theorem explicit_content_is_published
    (patternId : nat) (timer : deadline_timer) (o : NdnTrafficPush)
    (p : TrafficPattern) (L : Z) :
  m_trafficPatterns o !! patternId = Some p ->
  empty (DataTrafficConfiguration.m_content p) = false ->
  DataTrafficConfiguration.m_contentLength p = Some L ->
  exists evs,
    trace (snd (sendData patternId timer o)) = trace o ++ evs /\
    Forall (fun d => d_content d = DataTrafficConfiguration.m_content p) (emitted evs) /\
    (0 < L < UINT64_MODULUS ->
     size (header p) <= L ->
     L - size (header p) <= max_size ->
     sendData_content p o =
       (Done (DataTrafficConfiguration.m_content p),
        with_randomNumberEngine
          (snd (draw_chars (Z.to_nat (L - size (header p))) (randomNumberEngine o))) o) /\
     ((forall d si, keyChain_sign d si = true) ->
      (forall d, face_put d = true) ->
      (exists t, fst (sendData patternId timer o) = Done t) /\
      length (emitted evs) = 1%nat)).
Proof.
  intros Hp Hne Hlen.
  destruct (sendData_emitted patternId timer o p Hp) as (evs & Htr & Hem).
  exists evs. split_and!; [done| |].
  - destruct (fst (sendData patternId timer o)).
    + destruct Hem as (content & o1 & Hc & ->).
      apply (sendData_content_explicit _ _ _ _ Hne) in Hc as ->. by repeat constructor.
    + rewrite Hem. constructor.
  - intros Hrange Hfits Hmax.
    assert (sendData_content p o =
            (Done (DataTrafficConfiguration.m_content p),
             with_randomNumberEngine
               (snd (draw_chars (Z.to_nat (L - size (header p))) (randomNumberEngine o)))
               o)) as Hc.
    { rewrite sendData_content_run. unfold filler_length. rewrite Hlen, Hne.
      destruct (Z.ltb_spec 0 L) as [_|?]; [|lia].
      pose proof (size_nonneg (header p)).
      rewrite wrap64_small by lia.
      by destruct (Z.ltb_spec max_size (L - size (header p))) as [?|_]; [lia|]. }
    split; [done|]. intros Hsign Hput.
    destruct (sendData_returns patternId timer o p _ _ Hp Hc (Hsign _ _) (Hput _))
      as (t & o' & Hdone).
    rewrite Hdone in *. cbn [fst] in *. split; [eauto|].
    destruct Hem as (content & o1 & _ & ->). done.
Qed.

(** *** Registration failures *)

(** The publish step reads neither the failure count nor the trace: from
    an object that differs in these two only, it ends the same way and adds
    the same events. *)
Lemma sendData_frame evs0 failures patternId timer o :
  let o_f := with_trace evs0 (with_nRegistrationsFailed failures o) in
  fst (sendData patternId timer o_f) = fst (sendData patternId timer o) /\
  exists evs,
    trace (snd (sendData patternId timer o_f)) = evs0 ++ evs /\
    trace (snd (sendData patternId timer o)) = trace o ++ evs.
Proof.
  intros o_f.
  destruct (m_trafficPatterns o !! patternId) as [p|] eqn:Hp.
  - assert (m_trafficPatterns o_f !! patternId = Some p) as Hp' by done.
    rewrite (sendData_run _ _ _ _ Hp), (sendData_run _ _ _ _ Hp'),
      !sendData_content_run.
    subst o_f.
    destruct (filler_length p) as [n|]; [destruct (max_size <? n)|]; fields;
      try (split; [done|exists []; by rewrite !app_nil_r]).
    all: unfold publish; fields;
      destruct (keyChain_sign _ _);
        [|split; [done|exists []; by rewrite !app_nil_r]];
      destruct (face_put _); cbn [fst snd].
    all: split; [done|].
    all: try destruct (cap_reached _) eqn:Hcap.
    all: unfold id, counted, cap_reached in *; fields; try rewrite Hcap; fields;
      rewrite <- ?app_assoc; eexists; split; reflexivity.
  - rewrite !sendData_bad_index by done. split; [done|].
    exists []. by rewrite !app_nil_r.
Qed.

Lemma io_stops_app evs evs' : io_stops (evs ++ evs') = (io_stops evs + io_stops evs')%nat.
Proof.
  induction evs as [|e evs IH]; [done|]. destruct e; simpl; by rewrite ?IH.
Qed.

Lemma reports_app evs evs' : reports (evs ++ evs') = (reports evs + reports evs')%nat.
Proof.
  induction evs as [|e evs IH]; [done|]. destruct e; simpl; rewrite ?IH; try done.
  by destruct (String.eqb _ _).
Qed.

(** C9. For every run with [P] patterns, each registration failure
    increments the failure count; exactly when the count reaches [P] the
    error flag is set and [stop] is invoked; with fewer failures the run is
    not halted and the patterns go on publishing.

    When the count, once incremented, is [P], the callback sets the error
    flag and adds the events of one [stop]. Otherwise it adds its log line
    and nothing else changes but the failure count: the error flag is as it
    was, the io service is not stopped, and the publish step of any pattern
    ends as it would have and adds the same events. *)
Theorem registration_failure_counts_and_stops_at_total
    (reason : string) (patternId : nat) (o : NdnTrafficPush) (p : TrafficPattern) :
  m_trafficPatterns o !! patternId = Some p ->
  let failures := wrap64 (m_nRegistrationsFailed o + 1) in
  let o' := snd (onRegisterFailed reason patternId o) in
  let line :=
    Log ("Prefix registration failed - PatternType=" ++
         to_string (Z.of_nat patternId + 1) ++
         ", Name=" ++ DataTrafficConfiguration.m_name p ++
         ", Reason=" ++ reason) true true in
  fst (onRegisterFailed reason patternId o) = Done tt /\
  m_nRegistrationsFailed o' = failures /\
  (failures = Z.of_nat (length (m_trafficPatterns o)) ->
   m_hasError o' = true /\
   trace o' =
     trace o ++ [line; Log "Registration failure." false false] ++ stop_events o) /\
  (failures <> Z.of_nat (length (m_trafficPatterns o)) ->
   o' = with_trace (trace o ++ [line]) (with_nRegistrationsFailed failures o) /\
   m_hasError o' = m_hasError o /\
   io_stops (trace o') = io_stops (trace o) /\
   reports (trace o') = reports (trace o) /\
   forall id timer,
     fst (sendData id timer o') = fst (sendData id timer o) /\
     exists evs,
       trace (snd (sendData id timer o')) = trace o' ++ evs /\
       trace (snd (sendData id timer o)) = trace o ++ evs).
Proof.
  intros Hp failures o' line. subst o'.
  rewrite (onRegisterFailed_run _ _ _ _ Hp). cbn [fst snd]. fold failures. fold line.
  split; [done|].
  destruct (Z.eqb_spec failures (Z.of_nat (length (m_trafficPatterns o)))) as [Heq|Hne].
  - split; [done|]. split; [|done]. intros _. split; reflexivity.
  - split; [done|]. split; [done|]. intros _. fields.
    split_and!; [reflexivity|reflexivity| | |].
    + rewrite io_stops_app. simpl. lia.
    + rewrite reports_app. subst line.
      change (reports [?e]) with O. lia.
    + intros id timer. apply sendData_frame.
Qed.

(** *** Start-up *)

Lemma bind_done {A B} (c : M A) (k : A -> M B) o a o' :
  c o = (Done a, o') -> bind c k o = k a o'.
Proof. intros H. unfold bind. by rewrite H. Qed.

Lemma log_patterns_run ps : forall i o,
  log_patterns i ps o = (Done tt, with_trace (trace o ++ configuration_events i ps) o).
Proof.
  induction ps as [|p ps IH]; intros i o; simpl.
  - by rewrite app_nil_r, with_trace_same.
  - repeat mstep. rewrite IH. fields. by rewrite <- !app_assoc.
Qed.

Lemma register_patterns_run ps : forall id o,
  register_patterns id ps o =
  (Done tt,
   with_trace (trace o ++ registration_events id ps)
     (with_registeredPrefixes (m_registeredPrefixes o ++ seq id (length ps)) o)).
Proof.
  induction ps as [|p ps IH]; intros id o; simpl.
  - rewrite !app_nil_r. by destruct o.
  - repeat mstep. rewrite IH. fields. by rewrite <- !app_assoc.
Qed.

Lemma run_run now o :
  run now o =
  match readConfigurationFile (m_configurationFile o) with
  | None =>
      (Done (Returned 2),
       with_trace
         (trace o ++
          [InitializeLog (to_string (fst (generateWord32 (randomNumberEngine o))))])
         (with_randomNumberEngine (snd (generateWord32 (randomNumberEngine o))) o))
  | Some ps =>
      (Done (fst (run_loaded now o (fst (generateWord32 (randomNumberEngine o)))
                    (snd (generateWord32 (randomNumberEngine o))) ps)),
       snd (run_loaded now o (fst (generateWord32 (randomNumberEngine o)))
              (snd (generateWord32 (randomNumberEngine o))) ps))
  end.
Proof.
  unfold run, run_loaded. rewrite bind_get.
  destruct (generateWord32 (randomNumberEngine o)) as [word e]. cbn [fst snd].
  repeat mstep.
  destruct (readConfigurationFile (m_configurationFile o)) as [ps|]; [|done].
  repeat mstep. unfold checkTrafficPatternCorrectness. cbn [negb].
  rewrite bind_log, (bind_done _ _ _ _ _ (log_patterns_run _ _ _)). fields.
  destruct (optional_eq_0 (m_nMaximumInterests o)).
  - rewrite (bind_done _ _ _ _ _ (logStatistics_run _)). fields.
    unfold ret. cbn [fst snd]. by rewrite <- !app_assoc.
  - repeat mstep. rewrite (bind_done _ _ _ _ _ (register_patterns_run _ _ _)). fields.
    destruct (m_trafficPatterns o ++ ps) as [|p all] eqn:Hall.
    + repeat mstep. unfold ret. cbn [fst snd length seq]. by rewrite <- !app_assoc.
    + rewrite bind_log.
      erewrite (bind_done (startPushLoop 0 now)); [|by apply startPushLoop_run].
      unfold ret, startPushLoop_events. cbn [fst snd]. fields.
      by rewrite <- !app_assoc.
Qed.

(** Every run starts with nothing published: the constructor sets the
    total to zero, the start-up leaves it, and the patterns are those of the
    reader, which cannot set their counter. *)
Lemma main_nothing_published (opts : options) (rng : engine) (now : Z) :
  (forall file ps,
     readConfigurationFile file = Some ps ->
     Forall (fun p => DataTrafficConfiguration.m_nInterestsReceived p = 0) ps) ->
  nothing_published (snd (main opts rng now)).
Proof.
  intros Hreader.
  assert (forall o0,
            m_nInterestsReceived o0 = 0 -> m_trafficPatterns o0 = [] ->
            nothing_published (snd (run now o0))) as Hrun.
  { intros o0 Hn Hps. rewrite run_run.
    destruct (readConfigurationFile (m_configurationFile o0)) as [ps|] eqn:Hread.
    - cbn [snd]. unfold run_loaded. rewrite Hps. cbn [app].
      specialize (Hreader _ _ Hread).
      destruct (optional_eq_0 _); [by split|].
      destruct ps; by split.
    - split; [done|]. cbn [snd]. fields. rewrite Hps. constructor. }
  unfold main.
  destruct (opt_help opts); [by split; [|constructor]|].
  destruct (empty (opt_configFile opts)); [by split; [|constructor]|].
  destruct (opt_count opts) as [count|].
  - destruct (count <? 0); [by split; [|constructor]|].
    destruct (opt_delay opts <? 0); [by split; [|constructor]|].
    destruct (opt_quiet opts); by apply Hrun.
  - destruct (opt_delay opts <? 0); [by split; [|constructor]|].
    destruct (opt_quiet opts); by apply Hrun.
Qed.

Lemma registered_app evs evs' : registered (evs ++ evs') = registered evs ++ registered evs'.
Proof.
  induction evs as [|e evs IH]; [done|]. destruct e; simpl; by rewrite ?IH.
Qed.

Lemma registered_logging evs :
  Forall (fun e => is_logging e = true) evs -> registered evs = [].
Proof. induction 1 as [|e evs He _ IH]; [done|]. by destruct e. Qed.

Lemma registered_registration ps : forall id,
  registered (registration_events id ps) = map DataTrafficConfiguration.m_name ps.
Proof. induction ps as [|p ps IH]; intros id; simpl; [done|]. by rewrite IH. Qed.

Lemma configuration_events_logging ps : forall i,
  Forall (fun e => is_logging e = true) (configuration_events i ps).
Proof. induction ps as [|p ps IH]; intros i; simpl; repeat constructor. apply IH. Qed.

Lemma report_pattern_events_logging ps : forall i,
  Forall (fun e => is_logging e = true) (report_pattern_events i ps).
Proof. induction ps as [|p ps IH]; intros i; simpl; repeat constructor. apply IH. Qed.

Lemma report_events_logging total ps :
  Forall (fun e => is_logging e = true) (report_events total ps).
Proof. unfold report_events. repeat constructor. apply report_pattern_events_logging. Qed.

(** The exit code 2 of [run] is that of the reader: [run] returns it
    exactly when the configuration file cannot be read, and never for what
    a pattern contains. *)
Lemma run_returns_2_for_unreadable_file_only (now : Z) (o : NdnTrafficPush) :
  fst (run now o) = Done (Returned 2) <->
  readConfigurationFile (m_configurationFile o) = None.
Proof.
  rewrite run_run.
  destruct (readConfigurationFile (m_configurationFile o)) as [ps|]; [|done].
  cbn [fst]. unfold run_loaded.
  destruct (optional_eq_0 _); [done|].
  by destruct (m_trafficPatterns o ++ ps).
Qed.

(** C3, what the code does where the claim has the run abort. The
    validation step is called, and its exit with the code 2 is there, but
    it refuses nothing. Whatever the patterns of the file hold (an empty
    name and the generation interval of [-1_ms] included), a run with a cap
    other than 0 does not return: the patterns are kept as they were read,
    the name of each is registered as it is, the timer of the first is
    armed one interval of that pattern after the start, and the firing of
    that timer that returns has published one packet of the pattern, under
    its name. *)
Theorem unvalidated_pattern_is_registered_and_published
    (now : Z) (o : NdnTrafficPush) (p : TrafficPattern) (ps : list TrafficPattern) :
  readConfigurationFile (m_configurationFile o) = Some (p :: ps) ->
  m_trafficPatterns o = [] ->
  optional_eq_0 (m_nMaximumInterests o) = false ->
  let timer := {| expires_at := now + DataTrafficConfiguration.m_generationInterval p |} in
  fst (run now o) = Done (InProcessEvents (Some timer)) /\
  m_trafficPatterns (snd (run now o)) = p :: ps /\
  (exists evs,
     trace (snd (run now o)) = trace o ++ evs /\
     registered evs = map DataTrafficConfiguration.m_name (p :: ps)) /\
  (forall t o',
     sendData 0 timer (snd (run now o)) = (Done t, o') ->
     exists content evs,
       trace o' = trace (snd (run now o)) ++ evs /\
       emitted evs =
         [make_data p content (Some (DataTrafficConfiguration.m_signingInfo p))]).
Proof.
  intros Hread Hps Hcap timer.
  assert (m_trafficPatterns (snd (run now o)) = p :: ps) as Hkept.
  { rewrite run_run, Hread. unfold run_loaded. rewrite Hcap, Hps. reflexivity. }
  split_and!.
  - rewrite run_run, Hread. unfold run_loaded. rewrite Hcap, Hps. reflexivity.
  - exact Hkept.
  - rewrite run_run, Hread. unfold run_loaded. rewrite Hcap, Hps. cbn [app snd].
    pose proof (configuration_events_logging (p :: ps) 0) as Hlog.
    cbn [trace with_trace with_registeredPrefixes with_trafficPatterns
         with_randomNumberEngine].
    rewrite <- !app_assoc. eexists. split; [reflexivity|].
    unfold startPushLoop_events. cbn [app registered].
    rewrite !registered_app, (registered_logging _ Hlog).
    cbn [app registered].
    rewrite !registered_app, registered_registration.
    cbn [app registered]. by rewrite app_nil_r.
  - intros t o' Hsend.
    assert (m_trafficPatterns (snd (run now o)) !! 0%nat = Some p) as Hp
      by (by rewrite Hkept).
    destruct (sendData_emitted 0 timer _ p Hp) as (evs & Htr & Hem).
    rewrite Hsend in Htr, Hem. cbn [fst snd] in Htr, Hem.
    destruct Hem as (content & o1 & _ & Hem). by exists content, evs.
Qed.

(** C1, as the code has it. For every invocation whose options are
    accepted and whose configuration file is read: with a cap of 0 the
    program is in report-only mode, it does nothing but log, the statistics
    report with a total of zero comes last, no prefix is registered, the
    event loop is not entered and the exit code is 0; with no [--count]
    there is no cap, and the program registers the prefix of every pattern
    and enters the event loop. *)
Theorem count_zero_is_report_only
    (opts : options) (rng : engine) (now : Z) (ps : list TrafficPattern) :
  opt_help opts = false ->
  empty (opt_configFile opts) = false ->
  0 <= opt_delay opts ->
  readConfigurationFile (opt_configFile opts) = Some ps ->
  (opt_count opts = Some 0 ->
   fst (main opts rng now) = Done (Returned 0) /\
   Forall (fun e => is_logging e = true) (trace (snd (main opts rng now))) /\
   registered (trace (snd (main opts rng now))) = [] /\
   m_registeredPrefixes (snd (main opts rng now)) = [] /\
   m_nInterestsReceived (snd (main opts rng now)) = 0 /\
   exists evs, trace (snd (main opts rng now)) = evs ++ report_events 0 ps) /\
  (opt_count opts = None ->
   (exists timer, fst (main opts rng now) = Done (InProcessEvents timer)) /\
   registered (trace (snd (main opts rng now))) =
     map DataTrafficConfiguration.m_name ps /\
   m_registeredPrefixes (snd (main opts rng now)) = seq 0 (length ps) /\
   In ProcessEvents (trace (snd (main opts rng now)))).
Proof.
  intros Hhelp Hfile Hdelay Hread.
  assert ((opt_delay opts <? 0) = false) as Hd by lia.
  split; intros Hcount; unfold main; rewrite Hhelp, Hfile, Hcount, Hd; cbn [Z.ltb Z.compare].
  - assert (forall o0,
              m_configurationFile o0 = opt_configFile opts ->
              m_nMaximumInterests o0 = Some 0 ->
              m_trafficPatterns o0 = [] -> m_registeredPrefixes o0 = [] ->
              m_nInterestsReceived o0 = 0 -> trace o0 = [] ->
              fst (run now o0) = Done (Returned 0) /\
              Forall (fun e => is_logging e = true) (trace (snd (run now o0))) /\
              registered (trace (snd (run now o0))) = [] /\
              m_registeredPrefixes (snd (run now o0)) = [] /\
              m_nInterestsReceived (snd (run now o0)) = 0 /\
              exists evs, trace (snd (run now o0)) = evs ++ report_events 0 ps) as Hrun.
    { intros o0 Hf Hcap Hps Hreg Hn Htr. rewrite run_run, Hf, Hread.
      unfold run_loaded. rewrite Hcap, Hps, Hn, Htr.
      cbn [optional_eq_0 Z.eqb fst snd app]. fields.
      assert (forall e1 e2,
                is_logging e1 = true -> is_logging e2 = true ->
                Forall (fun e => is_logging e = true)
                  (e1 :: e2 :: configuration_events 0 ps ++ report_events 0 ps))
        as Hlog.
      { intros e1 e2 H1 H2. repeat constructor; [done|done|]. apply Forall_app. split;
          [apply configuration_events_logging|apply report_events_logging]. }
      split_and!; [done|by apply Hlog| |done|done|].
      - apply registered_logging. by apply Hlog.
      - eexists (_ :: _ :: _). reflexivity. }
    destruct (opt_quiet opts); by apply Hrun.
  - assert (forall o0,
              m_configurationFile o0 = opt_configFile opts ->
              m_nMaximumInterests o0 = None ->
              m_trafficPatterns o0 = [] -> m_registeredPrefixes o0 = [] ->
              trace o0 = [] ->
              (exists timer, fst (run now o0) = Done (InProcessEvents timer)) /\
              registered (trace (snd (run now o0))) =
                map DataTrafficConfiguration.m_name ps /\
              m_registeredPrefixes (snd (run now o0)) = seq 0 (length ps) /\
              In ProcessEvents (trace (snd (run now o0)))) as Hrun.
    { intros o0 Hf Hcap Hps Hreg Htr. rewrite run_run, Hf, Hread.
      unfold run_loaded. rewrite Hcap, Hps, Hreg, Htr. cbn [optional_eq_0 fst snd app].
      destruct ps as [|p ps']; cbn [fst snd]; fields.
      - split_and!; [eauto|done|done|]. simpl. tauto.
      - split_and!; [eauto| |done|].
        + rewrite !registered_app.
          unfold startPushLoop_events. cbn [app registered].
          rewrite (registered_logging (configuration_events _ _))
            by apply configuration_events_logging.
          by rewrite registered_registration, app_nil_r.
        + apply in_or_app. right. simpl. tauto. }
    destruct (opt_quiet opts); by apply Hrun.
Qed.

(** *** Stop *)

Lemma printTrafficConfiguration_not_heading p :
  String.eqb (DataTrafficConfiguration.printTrafficConfiguration p) report_heading = false.
Proof.
  unfold DataTrafficConfiguration.printTrafficConfiguration.
  destruct (empty (DataTrafficConfiguration.m_name p)),
    (empty (DataTrafficConfiguration.m_content p)),
    (0 <=? DataTrafficConfiguration.m_contentDelay p),
    (0 <=? DataTrafficConfiguration.m_generationInterval p),
    (0 <=? DataTrafficConfiguration.m_freshnessPeriod p),
    (DataTrafficConfiguration.m_contentType p),
    (DataTrafficConfiguration.m_contentLength p); reflexivity.
Qed.

Lemma reports_pattern_events ps : forall i, reports (report_pattern_events i ps) = O.
Proof.
  induction ps as [|p ps IH]; intros i; [done|].
  cbn [report_pattern_events reports].
  rewrite printTrafficConfiguration_not_heading, IH. reflexivity.
Qed.

Lemma reports_stop_events o : reports (stop_events o) = 1%nat.
Proof.
  unfold stop_events, report_events. rewrite reports_app.
  cbn [reports]. rewrite reports_pattern_events. reflexivity.
Qed.

Lemma io_stops_logging evs :
  Forall (fun e => is_logging e = true) evs -> io_stops evs = O.
Proof. induction 1 as [|e evs He _ IH]; [done|]. by destruct e. Qed.

Lemma io_stops_stop_events o : io_stops (stop_events o) = 1%nat.
Proof.
  unfold stop_events. rewrite io_stops_app.
  by rewrite (io_stops_logging _ (report_events_logging _ _)).
Qed.

(** C2, as the code has it. [stop] has no guard: every invocation emits
    the statistics report, shuts the face down and stops the io service,
    and changes nothing else of the object. [k] invocations, from whichever
    path, return and emit [k] reports. *)
Theorem stop_reports_at_every_invocation (k : nat) (o : NdnTrafficPush) :
  stop o = (Done tt, with_trace (trace o ++ stop_events o) o) /\
  fst (stop_times k o) = Done tt /\
  exists evs,
    snd (stop_times k o) = with_trace (trace o ++ evs) o /\
    reports evs = k /\
    io_stops evs = k.
Proof.
  split; [apply stop_run|]. revert o.
  induction k as [|k IH]; intros o.
  - split; [done|]. exists []. by rewrite app_nil_r, with_trace_same.
  - cbn [stop_times]. rewrite bind_stop.
    destruct (IH (with_trace (trace o ++ stop_events o) o)) as (Hdone & evs & Hsnd & Hr & Hs).
    split; [done|]. exists (stop_events o ++ evs). split_and!.
    + rewrite Hsnd. fields. by rewrite app_assoc.
    + by rewrite reports_app, reports_stop_events, Hr.
    + by rewrite io_stops_app, io_stops_stop_events, Hs.
Qed.

End Properties.

(** * The properties on the bench *)

(** C5 on the bench: after three publications and a registration failure
    the total and the sum are 3, and one more firing counts in both. *)
Lemma total_is_sum_of_pattern_counters_witness :
  nothing_published (bench_started 9) /\
  m_trafficPatterns (run_schedule bench_schedule (bench_started 9)) !! 1%nat =
    Some (DataTrafficConfiguration.count pattern_b) /\
  m_nInterestsReceived (run_schedule bench_schedule (bench_started 9)) = 3 /\
  sum_counters (m_trafficPatterns (run_schedule bench_schedule (bench_started 9))) = 3 /\
  counted_once 1 (DataTrafficConfiguration.count pattern_b)
    (run_schedule bench_schedule (bench_started 9))
    (snd (sendData 1 bench_timer (run_schedule bench_schedule (bench_started 9)))).
Proof.
  assert (nothing_published (bench_started 9)) as Hstart.
  { split; [reflexivity|]. vm_compute. repeat constructor. }
  assert (m_trafficPatterns (run_schedule bench_schedule (bench_started 9)) !! 1%nat =
          Some (DataTrafficConfiguration.count pattern_b)) as Hp
    by (vm_compute; reflexivity).
  destruct (total_is_sum_of_pattern_counters (bench_started 9) bench_schedule
              1 bench_timer _ Hstart Hp) as (Hagree & Hexact & Hstep).
  split_and!; [exact Hstart|exact Hp|vm_compute; reflexivity| |exact Hstep].
  rewrite <- Hexact; [vm_compute; reflexivity|by vm_compute].
Defined.

(** C7 on the bench: three firings of the first pattern, twenty bytes
    each. *)
Lemma generated_payload_has_content_length_witness :
  m_trafficPatterns (bench_started 9) !! 0%nat = Some pattern_a /\
  DataTrafficConfiguration.m_content pattern_a = EmptyString /\
  DataTrafficConfiguration.m_contentLength pattern_a = Some 20 /\
  20 < UINT64_MODULUS /\
  (forall k, (k < 3)%nat ->
     size (header (Nat.iter k DataTrafficConfiguration.count pattern_a)) < 20) /\
  exists evs,
    trace (snd (firings 3 0 bench_timer (bench_started 9))) =
      trace (bench_started 9) ++ evs /\
    Forall (fun d => size (d_content d) = 20) (emitted evs) /\
    length (emitted evs) = 3%nat.
Proof.
  assert (forall k, (k < 3)%nat ->
            size (header (Nat.iter k DataTrafficConfiguration.count pattern_a)) < 20)
    as Hheader.
  { intros [|[|[|k]]] Hk; [reflexivity..|lia]. }
  split_and!; [reflexivity..|exact Hheader|].
  destruct (generated_payload_has_content_length (collaborators := bench)
              3 0 bench_timer (bench_started 9) pattern_a 20
              eq_refl eq_refl eq_refl eq_refl Hheader)
    as (evs & Htr & Hall & Hret).
  exists evs. split_and!; [exact Htr|exact Hall|].
  apply Hret; [by vm_compute|reflexivity..].
Defined.

(** C8 on the bench: the timer of the second pattern, armed at 100 + 300,
    expires at 1000 after two firings from two different states. *)
Lemma deadline_after_firings_witness :
  m_trafficPatterns (bench_started 9) !! 1%nat = Some pattern_b /\
  DataTrafficConfiguration.m_generationInterval pattern_b = 300 /\
  rearmed (collaborators := bench) 1 300 2 {| expires_at := 100 + 300 |}
    {| expires_at := 1000 |} /\
  fst (startPushLoop 1 100 (bench_started 9)) = Done {| expires_at := 100 + 300 |} /\
  expires_at {| expires_at := 1000 |} = (100 + 300) + Z.of_nat 2 * 300.
Proof.
  assert (rearmed (collaborators := bench) 1 300 2 {| expires_at := 100 + 300 |}
            {| expires_at := 1000 |}) as Hfirings.
  { eapply (rearmed_S (collaborators := bench) _ _ 1 {| expires_at := 100 + 300 |}
              {| expires_at := 700 |} _
              (snd (sendData 1 bench_timer (run_schedule bench_schedule (bench_started 9))))
              _ (DataTrafficConfiguration.count (DataTrafficConfiguration.count pattern_b)));
      [|vm_compute; reflexivity|reflexivity|vm_compute; reflexivity].
    eapply (rearmed_S (collaborators := bench) _ _ 0 {| expires_at := 100 + 300 |}
              {| expires_at := 100 + 300 |} _ (bench_started 9) _ pattern_b);
      [apply rearmed_O|reflexivity|reflexivity|vm_compute; reflexivity]. }
  destruct (deadline_after_firings (collaborators := bench) 1 300 100 (bench_started 9)
              pattern_b 2 {| expires_at := 1000 |} eq_refl eq_refl Hfirings)
    as (Hstart & _ & Hdeadline & _).
  split_and!; [reflexivity|reflexivity|exact Hfirings|exact Hstart|exact Hdeadline].
Defined.

(** C4 on the bench: a content length of 5 under a header of eleven
    characters. *)
Lemma short_content_length_throws_witness :
  m_trafficPatterns (bench_started 9) !! 3%nat = Some pattern_short /\
  DataTrafficConfiguration.m_contentLength pattern_short = Some 5 /\
  size (header pattern_short) = 11 /\
  sendData (collaborators := bench) 3 bench_timer (bench_started 9) =
    (Thrown length_error, bench_started 9).
Proof.
  split_and!; [reflexivity..|].
  apply (short_content_length_throws (collaborators := bench)
           3 bench_timer (bench_started 9) pattern_short 5);
    [reflexivity|reflexivity|reflexivity|lia|reflexivity|by vm_compute|reflexivity].
Defined.

(** C4 fails as stated: with a content length of 0 the header (eleven
    characters) is longer than the content length, and the publish step
    signals nothing: it returns and hands a packet with empty content to the
    face. *)
Lemma zero_content_length_signals_nothing :
  DataTrafficConfiguration.m_contentLength pattern_zero = Some 0 /\
  DataTrafficConfiguration.m_content pattern_zero = EmptyString /\
  0 < size (header pattern_zero) /\
  m_trafficPatterns (bench_started 9) !! 2%nat = Some pattern_zero /\
  fst (sendData_content (collaborators := bench) pattern_zero (bench_started 9)) =
    Done EmptyString /\
  fst (sendData (collaborators := bench) 2 bench_timer (bench_started 9)) =
    Done {| expires_at := 700 |} /\
  emitted (trace (snd (sendData (collaborators := bench) 2 bench_timer
                         (with_trace [] (bench_started 9))))) =
    [make_data pattern_zero EmptyString (Some "id:/z"%string)].
Proof. split_and!; reflexivity. Qed.

(** C10 on the bench. *)
Lemma zero_content_length_publishes_empty_witness :
  m_trafficPatterns (bench_started 9) !! 2%nat = Some pattern_zero /\
  DataTrafficConfiguration.m_contentLength pattern_zero = Some 0 /\
  DataTrafficConfiguration.m_content pattern_zero = EmptyString /\
  exists evs,
    trace (snd (sendData 2 bench_timer (bench_started 9))) =
      trace (bench_started 9) ++ evs /\
    Forall (fun d => d_content d = EmptyString) (emitted evs) /\
    length (emitted evs) = 1%nat.
Proof.
  split_and!; [reflexivity..|].
  destruct (zero_content_length_publishes_empty (collaborators := bench)
              2 bench_timer (bench_started 9) pattern_zero eq_refl eq_refl eq_refl)
    as (_ & _ & evs & Htr & Hall & _ & Hret).
  exists evs. split_and!; [exact Htr|exact Hall|].
  apply Hret; reflexivity.
Defined.

(** C6 on the bench: the payload is the configured content. *)
Lemma explicit_content_is_published_witness :
  m_trafficPatterns (bench_started 9) !! 1%nat = Some pattern_b /\
  empty (DataTrafficConfiguration.m_content pattern_b) = false /\
  DataTrafficConfiguration.m_contentLength pattern_b = Some 20 /\
  exists evs,
    trace (snd (sendData 1 bench_timer (bench_started 9))) =
      trace (bench_started 9) ++ evs /\
    Forall (fun d => d_content d = "hi"%string) (emitted evs) /\
    length (emitted evs) = 1%nat.
Proof.
  split_and!; [reflexivity..|].
  destruct (explicit_content_is_published (collaborators := bench)
              1 bench_timer (bench_started 9) pattern_b 20 eq_refl eq_refl eq_refl)
    as (evs & Htr & Hall & Hgen).
  exists evs. split_and!; [exact Htr|exact Hall|].
  apply Hgen; [by vm_compute|by vm_compute|by vm_compute|reflexivity..].
Defined.

(** C6 fails as stated: the pattern has both a content and a content
    length of 20; the published payload is the content, and the filler was
    generated all the same: the publish step drew the nine bytes that
    complete the eleven of the header from the engine. *)
Lemma filler_is_generated_then_dropped :
  m_trafficPatterns (bench_started 9) !! 1%nat = Some pattern_b /\
  DataTrafficConfiguration.m_content pattern_b = "hi"%string /\
  DataTrafficConfiguration.m_contentLength pattern_b = Some 20 /\
  size (header pattern_b) = 11 /\
  emitted (trace (snd (sendData (collaborators := bench) 1 bench_timer
                         (with_trace [] (bench_started 9))))) =
    [make_data pattern_b "hi" (Some "id:/b"%string)] /\
  randomNumberEngine (bench_started 9) = 1%nat /\
  randomNumberEngine (snd (sendData (collaborators := bench) 1 bench_timer
                             (bench_started 9))) = 10%nat /\
  randomNumberEngine (snd (sendData (collaborators := bench) 1 bench_timer
                             (bench_started 9))) =
    snd (draw_chars (collaborators := bench) 9 (randomNumberEngine (bench_started 9))).
Proof. split_and!; vm_compute; reflexivity. Qed.

(** C9 on the bench: the fourth failure of four sets the error flag and
    stops the io service. *)
Lemma registration_failure_counts_and_stops_at_total_witness :
  m_trafficPatterns bench_three_failed !! 3%nat = Some pattern_short /\
  m_nRegistrationsFailed bench_three_failed = 3 /\
  m_hasError bench_three_failed = false /\
  io_stops (trace bench_three_failed) = 0%nat /\
  m_nRegistrationsFailed (snd (onRegisterFailed "timeout" 3 bench_three_failed)) = 4 /\
  m_hasError (snd (onRegisterFailed "timeout" 3 bench_three_failed)) = true /\
  io_stops (trace (snd (onRegisterFailed "timeout" 3 bench_three_failed))) = 1%nat.
Proof.
  destruct (registration_failure_counts_and_stops_at_total (collaborators := bench)
              "timeout" 3 bench_three_failed pattern_short eq_refl)
    as (_ & Hcount & Htotal & _).
  destruct (Htotal eq_refl) as [Herror Htrace].
  split_and!; [vm_compute; reflexivity..|exact Hcount|exact Herror|].
  rewrite Htrace. vm_compute. reflexivity.
Defined.

(** C1 on the bench, with a cap of 0. *)
Lemma count_zero_is_report_only_witness :
  opt_help (options_count 0 "push.conf") = false /\
  empty (opt_configFile (options_count 0 "push.conf")) = false /\
  0 <= opt_delay (options_count 0 "push.conf") /\
  opt_count (options_count 0 "push.conf") = Some 0 /\
  fst (main (collaborators := bench) (options_count 0 "push.conf") 0%nat 100) =
    Done (Returned 0) /\
  registered (trace (snd (main (collaborators := bench) (options_count 0 "push.conf")
                            0%nat 100))) = [] /\
  Forall (fun e => is_logging e = true)
    (trace (snd (main (collaborators := bench) (options_count 0 "push.conf") 0%nat 100))).
Proof.
  destruct (count_zero_is_report_only (collaborators := bench)
              (options_count 0 "push.conf") 0%nat 100
              [pattern_a; pattern_b; pattern_zero; pattern_short]
              eq_refl eq_refl ltac:(by vm_compute) eq_refl) as [Hzero _].
  destruct (Hzero eq_refl) as (Hexit & Hlog & Hreg & _).
  split_and!; [reflexivity|reflexivity|by vm_compute|reflexivity|
               exact Hexit|exact Hreg|exact Hlog].
Defined.

(** C1 fails as stated: with no [--count] the program is not in report-only
    mode. It registers the four prefixes of the file, arms the timer of the
    first pattern and enters the event loop; it returns no exit code and
    prints no report. *)
Lemma absent_count_registers_and_enters_loop :
  opt_count (options_no_count "push.conf") = None /\
  fst (main (collaborators := bench) (options_no_count "push.conf") 0%nat 100) =
    Done (InProcessEvents (Some {| expires_at := 600 |})) /\
  registered (trace (snd (main (collaborators := bench) (options_no_count "push.conf")
                            0%nat 100))) = ["/a"; "/b"; "/z"; "/s"]%string /\
  m_registeredPrefixes (snd (main (collaborators := bench) (options_no_count "push.conf")
                               0%nat 100)) = [0; 1; 2; 3]%nat /\
  In ProcessEvents (trace (snd (main (collaborators := bench)
                                  (options_no_count "push.conf") 0%nat 100))) /\
  reports (trace (snd (main (collaborators := bench) (options_no_count "push.conf")
                         0%nat 100))) = 0%nat.
Proof. split_and!; [reflexivity..| |reflexivity]. vm_compute. tauto. Qed.

(** C2 on the bench: two invocations, two reports. *)
Lemma stop_reports_at_every_invocation_witness :
  exists evs,
    snd (stop_times 2 (bench_started 9)) =
      with_trace (trace (bench_started 9) ++ evs) (bench_started 9) /\
    reports evs = 2%nat /\ io_stops evs = 2%nat.
Proof.
  exact (proj2 (proj2 (stop_reports_at_every_invocation (collaborators := bench)
                         2 (bench_started 9)))).
Defined.

(** C2 fails as stated: a second invocation of [stop] is not a no-op, it
    emits the report again. So do the two signal waits of a run, the one of
    [run] and the one of [startPushLoop]: when the cap is reached the waits
    are cancelled, both handlers complete, each invokes [stop], and the
    report is emitted twice. *)
Lemma stop_twice_reports_twice :
  reports (trace (bench_started 9)) = 0%nat /\
  reports (trace (snd (stop (bench_started 9)))) = 1%nat /\
  reports (trace (snd (stop (snd (stop (bench_started 9)))))) = 2%nat /\
  snd (stop (snd (stop (bench_started 9)))) <> snd (stop (bench_started 9)) /\
  m_nInterestsReceived bench_cap_reached = 2 /\
  In SignalCancel (trace bench_cap_reached) /\
  reports (trace bench_cap_reached) = 0%nat /\
  reports (trace (run_schedule
                    [SignalWaitCompleted run_signal_handler;
                     SignalWaitCompleted pushLoop_signal_handler]
                    bench_cap_reached)) = 2%nat.
Proof.
  split_and!; [reflexivity..| |reflexivity| |reflexivity|reflexivity].
  - intros H. apply (f_equal (fun o => reports (trace o))) in H. vm_compute in H.
    discriminate.
  - vm_compute. tauto.
Qed.

(** C3 on the bench: the file holds one pattern with an empty name and no
    generation interval (the defaults), and the cap is 1. The run does not
    end with the exit code 2: the empty prefix is registered, the timer is
    armed with the interval of [-1_ms] and the event loop is entered; the
    first firing publishes a packet under the empty name. *)
Lemma unvalidated_pattern_is_registered_and_published_witness :
  readConfigurationFile (Collaborators := bench) "blank.conf" =
    Some [DataTrafficConfiguration.default EmptyString] /\
  DataTrafficConfiguration.m_name (DataTrafficConfiguration.default EmptyString) = EmptyString /\
  DataTrafficConfiguration.m_generationInterval (DataTrafficConfiguration.default EmptyString) =
    -1000 /\
  fst (main (collaborators := bench) (options_count 1 "blank.conf") 0%nat 100) =
    Done (InProcessEvents (Some {| expires_at := -900 |})) /\
  fst (main (collaborators := bench) (options_count 1 "blank.conf") 0%nat 100) <>
    Done (Returned 2) /\
  m_trafficPatterns (snd (main (collaborators := bench) (options_count 1 "blank.conf")
                            0%nat 100)) =
    [DataTrafficConfiguration.default EmptyString] /\
  registered (trace (snd (main (collaborators := bench) (options_count 1 "blank.conf")
                            0%nat 100))) = [EmptyString] /\
  emitted (trace (snd (sendData (collaborators := bench) 0 {| expires_at := -900 |}
                         (snd (main (collaborators := bench)
                                 (options_count 1 "blank.conf") 0%nat 100))))) =
    [make_data (DataTrafficConfiguration.default EmptyString) EmptyString (Some EmptyString)].
Proof.
  pose (o := setContentDelay 7
               (setMaximumInterests 1 (construct (collaborators := bench) "blank.conf" 0%nat))).
  assert (main (collaborators := bench) (options_count 1 "blank.conf") 0%nat 100 =
          run 100 o) as Hmain by reflexivity.
  destruct (unvalidated_pattern_is_registered_and_published (collaborators := bench)
              100 o (DataTrafficConfiguration.default EmptyString) []
              eq_refl eq_refl eq_refl)
    as (Hresult & Hkept & (evs & Htr & Hreg) & _).
  rewrite Hmain.
  split_and!; [reflexivity|reflexivity|reflexivity|exact Hresult| |exact Hkept| |].
  - rewrite Hresult. discriminate.
  - rewrite Htr. exact Hreg.
  - vm_compute. reflexivity.
Defined.

(** * Further properties *)

(** ** The lines of the configuration file *)

Section ConfigurationProperties.

Variable extractParameterAndValue : string -> option (string * string).
Variable stoul : string -> option Z.
Variable signingInfo_of_string : string -> option SigningInfo.

Local Abbreviation parse :=
  (parseConfigurationLine extractParameterAndValue stoul signingInfo_of_string).
Local Abbreviation parsed_pattern :=
  (parsed extractParameterAndValue stoul signingInfo_of_string).

Ltac parse_cases :=
  unfold parsed, parseConfigurationLine, assign_number in *;
  repeat match goal with
         | H : context [match extractParameterAndValue ?l with _ => _ end] |- _ =>
             destruct (extractParameterAndValue l) as [[? ?]|] eqn:?
         | |- context [match extractParameterAndValue ?l with _ => _ end] =>
             destruct (extractParameterAndValue l) as [[? ?]|] eqn:?
         | H : context [if String.eqb ?a ?b then _ else _] |- _ =>
             destruct (String.eqb a b) eqn:?
         | |- context [if String.eqb ?a ?b then _ else _] =>
             destruct (String.eqb a b) eqn:?
         | H : context [match stoul ?v with _ => _ end] |- _ =>
             destruct (stoul v) eqn:?
         | |- context [match stoul ?v with _ => _ end] => destruct (stoul v) eqn:?
         | H : context [match signingInfo_of_string ?v with _ => _ end] |- _ =>
             destruct (signingInfo_of_string v) eqn:?
         | |- context [match signingInfo_of_string ?v with _ => _ end] =>
             destruct (signingInfo_of_string v) eqn:?
         end.

(** X1. A line is fatal for its syntax only: [parseConfigurationLine]
    returns false exactly when the line has no parameter and value. A line
    that is refused or logged leaves the pattern as it was, a line logs at
    most once, and no line sets the counter of publications. *)
Theorem parse_line_is_fatal_for_syntax_only
    (line : string) (lineNumber : Z) (p p' : TrafficPattern)
    (ok : bool) (logged : list event) :
  parse line lineNumber p = parse_returned ok p' logged ->
  (ok = false <-> extractParameterAndValue line = None) /\
  (logged <> [] -> p' = p) /\
  (length logged <= 1)%nat /\
  Forall (fun e => is_logging e = true) logged /\
  DataTrafficConfiguration.m_nInterestsReceived p' =
    DataTrafficConfiguration.m_nInterestsReceived p.
Proof.
  intros H. parse_cases; try discriminate H; injection H as <- <- <-; simpl;
    (split_and!; [split; congruence|congruence|lia|repeat constructor|reflexivity]).
Qed.

(** X2. The eight parameter names are compared exactly. A line with any
    other parameter is ignored: it returns true, leaves the pattern as it
    was and logs one line; a line with one of the eight names that returns
    logs nothing. *)
Theorem unknown_parameter_is_ignored
    (line : string) (lineNumber : Z) (p : TrafficPattern) (parameter value : string) :
  extractParameterAndValue line = Some (parameter, value) ->
  (~ In parameter known_parameters ->
   parse line lineNumber p =
     parse_returned true p
       [Log ("Line " ++ to_string lineNumber ++ " - Ignoring unknown parameter: " ++
             parameter) false true]) /\
  (In parameter known_parameters ->
   forall ok p' logged,
     parse line lineNumber p = parse_returned ok p' logged -> ok = true /\ logged = []).
Proof.
  intros Hline. unfold parseConfigurationLine, assign_number. rewrite Hline.
  unfold known_parameters. split.
  - intros Hunknown.
    repeat match goal with
           | |- context [if String.eqb ?a ?b then _ else _] =>
               destruct (String.eqb_spec a b) as [->|_];
                 [exfalso; apply Hunknown; simpl; tauto|]
           end.
    reflexivity.
  - intros Hknown ok p' logged.
    repeat match goal with
           | |- context [if String.eqb ?a ?b then _ else _] =>
               destruct (String.eqb_spec a b) as [->|?]
           | |- context [match stoul ?v with _ => _ end] => destruct (stoul v)
           | |- context [match signingInfo_of_string ?v with _ => _ end] =>
               destruct (signingInfo_of_string v)
           end;
      try (intros [= <- <- <-]; by split); try discriminate.
    exfalso. simpl in Hknown. intuition congruence.
Qed.

(** X3. Two lines that set different parameters can be read in either
    order: the pattern they leave, or the fact that one of them throws, is
    the same. *)
Theorem lines_of_different_parameters_commute
    (line1 line2 : string) (n1 n2 : Z) (p : TrafficPattern)
    (parameter1 value1 parameter2 value2 : string) :
  extractParameterAndValue line1 = Some (parameter1, value1) ->
  extractParameterAndValue line2 = Some (parameter2, value2) ->
  parameter1 <> parameter2 ->
  parsed extractParameterAndValue stoul signingInfo_of_string line1 n1 p ≫=
    parsed extractParameterAndValue stoul signingInfo_of_string line2 n2 =
  parsed extractParameterAndValue stoul signingInfo_of_string line2 n2 p ≫=
    parsed extractParameterAndValue stoul signingInfo_of_string line1 n1.
Proof.
  intros H1 H2 Hne. unfold parsed, parseConfigurationLine, assign_number.
  rewrite H1, H2.
  repeat match goal with
         | |- context [if String.eqb ?a ?b then _ else _] =>
             destruct (String.eqb_spec a b) as [?|?]
         | |- context [match stoul ?v with _ => _ end] => destruct (stoul v)
         | |- context [match signingInfo_of_string ?v with _ => _ end] =>
             destruct (signingInfo_of_string v)
         end;
    simpl; rewrite ?H1, ?H2; simpl; try reflexivity; try (exfalso; congruence).
Qed.

(** X4. Of two lines that set the same parameter the later one wins: after
    the first has been read, the second leaves the pattern it would have
    left without the first. *)
Theorem later_line_overrides_same_parameter
    (line1 line2 : string) (n1 n2 : Z) (p p1 : TrafficPattern)
    (parameter value1 value2 : string) :
  extractParameterAndValue line1 = Some (parameter, value1) ->
  extractParameterAndValue line2 = Some (parameter, value2) ->
  parsed extractParameterAndValue stoul signingInfo_of_string line1 n1 p = Some p1 ->
  parsed extractParameterAndValue stoul signingInfo_of_string line2 n2 p1 =
  parsed extractParameterAndValue stoul signingInfo_of_string line2 n2 p.
Proof.
  intros H1 H2. unfold parsed, parseConfigurationLine, assign_number.
  rewrite H1, H2.
  repeat match goal with
         | |- context [if String.eqb ?a ?b then _ else _] =>
             destruct (String.eqb a b)
         | |- context [match stoul ?v with _ => _ end] => destruct (stoul v)
         | |- context [match signingInfo_of_string ?v with _ => _ end] =>
             destruct (signingInfo_of_string v)
         end;
    try discriminate; intros [= <-]; reflexivity.
Qed.

Lemma append_assoc (s1 s2 s3 : string) :
  ((s1 ++ s2) ++ s3 = s1 ++ (s2 ++ s3))%string.
Proof.
  induction s1 as [|c s1 IH]; [reflexivity|].
  change (String c ((s1 ++ s2) ++ s3) = String c (s1 ++ s2 ++ s3))%string.
  by rewrite IH.
Qed.

Lemma to_int64_small v : 0 <= v < 2 ^ 63 -> to_int64 v = v.
Proof.
  intros Hv. unfold to_int64. rewrite wrap64_small by (unfold UINT64_MODULUS; lia).
  destruct (Z.ltb_spec v (2 ^ 63)); [done|lia].
Qed.

Lemma to_int64_large v : 2 ^ 63 <= v < UINT64_MODULUS -> to_int64 v = v - UINT64_MODULUS.
Proof.
  intros Hv. unfold to_int64. rewrite wrap64_small by lia.
  destruct (Z.ltb_spec v (2 ^ 63)); [lia|done].
Qed.

(** X5. What a freshly constructed pattern reads from one line is what
    [printTrafficConfiguration] prints: the name and the content as they
    are, the content length in decimal (0 included: a length of 0 is
    present), a delay in decimal when it is below [2^63]. A delay of [2^63]
    microseconds or more becomes a negative duration in the member and is
    printed as if it had not been configured. *)
Theorem fresh_pattern_prints_the_line_it_read
    (si : SigningInfo) (line : string) (lineNumber : Z) (value : string) (v : Z) :
  let fresh := DataTrafficConfiguration.default si in
  let printed :=
    DataTrafficConfiguration.printTrafficConfiguration <$>
    parsed_pattern line lineNumber fresh in
  (extractParameterAndValue line = Some ("Name"%string, value) ->
   empty value = false ->
   printed = Some ("Name=" ++ value ++ ", " ++ "SigningInfo=" ++ si)%string) /\
  (extractParameterAndValue line = Some ("Content"%string, value) ->
   empty value = false ->
   printed = Some ("Content=" ++ value ++ ", " ++ "SigningInfo=" ++ si)%string) /\
  (extractParameterAndValue line = Some ("ContentBytes"%string, value) ->
   stoul value = Some v -> 0 <= v < UINT64_MODULUS ->
   printed = Some ("ContentBytes=" ++ to_string v ++ ", " ++ "SigningInfo=" ++ si)%string) /\
  (extractParameterAndValue line = Some ("ContentDelay"%string, value) ->
   stoul value = Some v -> 0 <= v < 2 ^ 63 ->
   printed = Some ("ContentDelay=" ++ to_string v ++ ", " ++ "SigningInfo=" ++ si)%string) /\
  (extractParameterAndValue line = Some ("ContentDelay"%string, value) ->
   stoul value = Some v -> 2 ^ 63 <= v < UINT64_MODULUS ->
   printed = Some ("SigningInfo=" ++ si)%string).
Proof.
  intros fresh printed. subst printed fresh.
  unfold parsed, parseConfigurationLine, assign_number,
    DataTrafficConfiguration.printTrafficConfiguration.
  split_and!; intros Hline.
  - intros Hvalue. rewrite Hline. simpl. rewrite Hvalue, !append_assoc. reflexivity.
  - intros Hvalue. rewrite Hline. simpl. rewrite Hvalue, !append_assoc. reflexivity.
  - intros Hv Hrange. rewrite Hline, Hv. simpl. rewrite wrap64_small by done.
    rewrite !append_assoc. reflexivity.
  - intros Hv Hrange. rewrite Hline, Hv. simpl. rewrite to_int64_small by done.
    destruct (Z.leb_spec 0 v); [|lia]. rewrite !append_assoc. reflexivity.
  - intros Hv Hrange. rewrite Hline, Hv. simpl. rewrite to_int64_large by done.
    destruct (Z.leb_spec 0 (v - UINT64_MODULUS)); [lia|done].
Qed.

End ConfigurationProperties.

(** ** The publish step, outcome by outcome *)

Section PublishProperties.

Context {collaborators : Collaborators}.

Implicit Types (o : NdnTrafficPush) (p : TrafficPattern).

(** The object after the signing and the counting, from the object [o] the
    step started from, the engine [e] the content block left and the
    content. *)
Local Abbreviation counted_after patternId p content e o :=
  (counted patternId p
     (with_trace
        (trace o ++
         [Sign (make_data p content None) (DataTrafficConfiguration.m_signingInfo p)])
        (with_randomNumberEngine e o))).

Lemma sendData_content_done p o content o1 :
  sendData_content p o = (Done content, o1) ->
  exists e, o1 = with_randomNumberEngine e o.
Proof.
  intros H. destruct (sendData_content_engine p o) as [e He].
  rewrite H in He. eauto.
Qed.

(** The step that returns. *)
Lemma sendData_done_form patternId timer o p t o' :
  m_trafficPatterns o !! patternId = Some p ->
  sendData patternId timer o = (Done t, o') ->
  exists content e,
    sendData_content p o = (Done content, with_randomNumberEngine e o) /\
    t = {| expires_at :=
             expires_at timer + DataTrafficConfiguration.m_generationInterval p |} /\
    let o2 := counted_after patternId p content e o in
    o' =
      (if cap_reached o2 then with_registeredPrefixes [] else id)
        (with_trace
           (trace o2 ++
            before_put_events patternId o2 (DataTrafficConfiguration.count p) ++
            [Put (make_data p content (Some (DataTrafficConfiguration.m_signingInfo p)))] ++
            after_put_events patternId o2 (DataTrafficConfiguration.count p) timer) o2).
Proof.
  intros Hp. rewrite (sendData_run _ _ _ _ Hp).
  destruct (sendData_content p o) as [[content|err] o1] eqn:Hc; [|done].
  destruct (sendData_content_done _ _ _ _ Hc) as [e ->].
  unfold publish. destruct (keyChain_sign _ _); [|done]. destruct (face_put _); [|done].
  intros [= <- <-]. by exists content, e.
Qed.

(** The step the face leaves by an exception. *)
Lemma sendData_put_error_form patternId timer o p o' :
  m_trafficPatterns o !! patternId = Some p ->
  sendData patternId timer o = (Thrown put_error, o') ->
  exists content e,
    sendData_content p o = (Done content, with_randomNumberEngine e o) /\
    let o2 := counted_after patternId p content e o in
    o' =
      with_trace
        (trace o2 ++ before_put_events patternId o2 (DataTrafficConfiguration.count p)) o2.
Proof.
  intros Hp. rewrite (sendData_run _ _ _ _ Hp).
  destruct (sendData_content p o) as [[content|err] o1] eqn:Hc.
  - destruct (sendData_content_done _ _ _ _ Hc) as [e ->].
    unfold publish. destruct (keyChain_sign _ _); [|done]. destruct (face_put _); [done|].
    intros [= <-]. by exists content, e.
  - apply sendData_content_throws in Hc as [-> ->]. done.
Qed.

(** The step left before the counting. *)
Lemma sendData_early_exit_form patternId timer o e o' :
  sendData patternId timer o = (Thrown e, o') ->
  e <> put_error ->
  (e = bad_index /\ m_trafficPatterns o !! patternId = None /\ o' = o) \/
  (e = length_error /\ o' = o) \/
  (e = sign_error /\ exists eng, o' = with_randomNumberEngine eng o).
Proof.
  destruct (m_trafficPatterns o !! patternId) as [p|] eqn:Hp.
  - rewrite (sendData_run _ _ _ _ Hp).
    destruct (sendData_content p o) as [[content|err] o1] eqn:Hc.
    + destruct (sendData_content_done _ _ _ _ Hc) as [eng ->].
      unfold publish. destruct (keyChain_sign _ _).
      * destruct (face_put _); [done|]. by intros [= <- <-].
      * intros [= <- <-] _. right. right. eauto.
    + apply sendData_content_throws in Hc as [-> ->]. intros [= <- <-] _. auto.
  - rewrite sendData_bad_index by done. intros [= <- <-] _. auto.
Qed.

Ltac object_fields :=
  cbn [m_configurationFile m_nMaximumInterests m_contentDelay m_trafficPatterns
       m_registeredPrefixes m_nRegistrationsFailed m_nInterestsReceived m_wantQuiet
       m_hasError randomNumberEngine trace
       with_nMaximumInterests with_contentDelay with_trafficPatterns
       with_registeredPrefixes with_nRegistrationsFailed with_nInterestsReceived
       with_wantQuiet with_hasError with_randomNumberEngine with_trace] in *.

(** The total after the counting decides the cap test of the step. *)
Lemma cap_reached_counted patternId p content e o :
  cap_reached (counted_after patternId p content e o) =
  match m_nMaximumInterests o with
  | Some cap => cap <=? wrap64 (m_nInterestsReceived o + 1)
  | None => false
  end.
Proof. reflexivity. Qed.

(** X6. The publish step that takes the total to the cap (or finds it
    there) still publishes its packet and re-arms its timer, and then
    releases every registered prefix and cancels the signal waits, once.
    Below the cap, and without a cap, the prefixes stay registered and
    nothing is cancelled. *)
Theorem cap_reached_releases_prefixes
    (patternId : nat) (timer t : deadline_timer) (o o' : NdnTrafficPush)
    (p : TrafficPattern) :
  m_trafficPatterns o !! patternId = Some p ->
  sendData patternId timer o = (Done t, o') ->
  exists evs,
    trace o' = trace o ++ evs /\
    length (emitted evs) = 1%nat /\
    timers_armed evs =
      [(patternId, expires_at timer + DataTrafficConfiguration.m_generationInterval p)] /\
    cap_reached o' =
      match m_nMaximumInterests o with
      | Some cap => cap <=? wrap64 (m_nInterestsReceived o + 1)
      | None => false
      end /\
    if cap_reached o'
    then m_registeredPrefixes o' = [] /\
         released evs = m_registeredPrefixes o /\
         signal_cancels evs = 1%nat
    else m_registeredPrefixes o' = m_registeredPrefixes o /\
         released evs = [] /\
         signal_cancels evs = 0%nat.
Proof.
  intros Hp Hsend.
  destruct (sendData_done_form _ _ _ _ _ _ Hp Hsend) as (content & e & _ & _ & Ho').
  cbn zeta in Ho'. subst o'.
  pose proof (cap_reached_counted patternId p content e o) as Hcap.
  eexists. split.
  { destruct (cap_reached _); unfold id, counted; object_fields;
      rewrite <- app_assoc; reflexivity. }
  unfold before_put_events, after_put_events.
  destruct (cap_reached (counted_after patternId p content e o)) eqn:Hreached;
    rewrite <- Hcap; unfold id, cap_reached, counted in *; object_fields;
    rewrite Hreached;
    destruct (m_wantQuiet o), (0 <? DataTrafficConfiguration.m_contentDelay _),
      (0 <? m_contentDelay o); cbn; rewrite ?app_nil_r; done.
Qed.

Lemma sendData_done_trace patternId timer o p t o' :
  m_trafficPatterns o !! patternId = Some p ->
  sendData patternId timer o = (Done t, o') ->
  exists content e,
    sendData_content p o = (Done content, with_randomNumberEngine e o) /\
    let o2 := counted_after patternId p content e o in
    trace o' =
      trace o ++
      Sign (make_data p content None) (DataTrafficConfiguration.m_signingInfo p) ::
      before_put_events patternId o2 (DataTrafficConfiguration.count p) ++
      Put (make_data p content (Some (DataTrafficConfiguration.m_signingInfo p))) ::
      after_put_events patternId o2 (DataTrafficConfiguration.count p) timer /\
    m_hasError o' = m_hasError o /\
    m_nMaximumInterests o' = m_nMaximumInterests o /\
    m_contentDelay o' = m_contentDelay o /\
    m_wantQuiet o' = m_wantQuiet o /\
    m_nRegistrationsFailed o' = m_nRegistrationsFailed o /\
    m_configurationFile o' = m_configurationFile o /\
    randomNumberEngine o' = e /\
    cap_reached o' = cap_reached o2.
Proof.
  intros Hp Hsend.
  destruct (sendData_done_form _ _ _ _ _ _ Hp Hsend) as (content & e & Hc & _ & Ho').
  cbn zeta in Ho'. subst o'. exists content, e. split; [done|]. cbn zeta.
  destruct (cap_reached _) eqn:Hcap; unfold id, counted, cap_reached in *; object_fields;
    rewrite <- app_assoc; done.
Qed.

Lemma sendData_put_error_trace patternId timer o p o' :
  m_trafficPatterns o !! patternId = Some p ->
  sendData patternId timer o = (Thrown put_error, o') ->
  exists content e,
    sendData_content p o = (Done content, with_randomNumberEngine e o) /\
    let o2 := counted_after patternId p content e o in
    trace o' =
      trace o ++
      Sign (make_data p content None) (DataTrafficConfiguration.m_signingInfo p) ::
      before_put_events patternId o2 (DataTrafficConfiguration.count p) /\
    m_hasError o' = m_hasError o /\
    m_nMaximumInterests o' = m_nMaximumInterests o /\
    m_contentDelay o' = m_contentDelay o /\
    m_wantQuiet o' = m_wantQuiet o /\
    m_nRegistrationsFailed o' = m_nRegistrationsFailed o /\
    m_registeredPrefixes o' = m_registeredPrefixes o /\
    randomNumberEngine o' = e.
Proof.
  intros Hp Hsend.
  destruct (sendData_put_error_form _ _ _ _ _ Hp Hsend) as (content & e & Hc & Ho').
  cbn zeta in Ho'. subst o'. exists content, e. split; [done|]. cbn zeta.
  unfold counted. object_fields. rewrite <- app_assoc. done.
Qed.

Lemma sendData_lookup patternId timer o r o' :
  sendData patternId timer o = (r, o') ->
  r <> Thrown bad_index ->
  exists p, m_trafficPatterns o !! patternId = Some p.
Proof.
  destruct (m_trafficPatterns o !! patternId) as [p|] eqn:Hp; [eauto|].
  rewrite sendData_bad_index by done. by intros [= <- <-].
Qed.

Lemma sleeps_app evs evs' : sleeps (evs ++ evs') = sleeps evs ++ sleeps evs'.
Proof. induction evs as [|e evs IH]; [done|]. destruct e; simpl; by rewrite ?IH. Qed.

Lemma timers_armed_app evs evs' :
  timers_armed (evs ++ evs') = timers_armed evs ++ timers_armed evs'.
Proof. induction evs as [|e evs IH]; [done|]. destruct e; simpl; by rewrite ?IH. Qed.

Lemma log_lines_app evs evs' : log_lines (evs ++ evs') = (log_lines evs + log_lines evs')%nat.
Proof. induction evs as [|e evs IH]; [done|]. destruct e; simpl; by rewrite ?IH. Qed.

Lemma signal_cancels_app evs evs' :
  signal_cancels (evs ++ evs') = (signal_cancels evs + signal_cancels evs')%nat.
Proof. induction evs as [|e evs IH]; [done|]. destruct e; simpl; by rewrite ?IH. Qed.

Lemma released_app evs evs' : released (evs ++ evs') = released evs ++ released evs'.
Proof.
  induction evs as [|e evs IH]; [done|]. destruct e; simpl; rewrite ?IH; try done.
  by rewrite app_assoc.
Qed.

Lemma signal_waits_app evs evs' :
  signal_waits (evs ++ evs') = signal_waits evs ++ signal_waits evs'.
Proof. induction evs as [|e evs IH]; [done|]. destruct e; simpl; by rewrite ?IH. Qed.

(** What the events before the call of the face hold. *)
Lemma before_put_observed patternId o p :
  sleeps (before_put_events patternId o p) =
    (if 0 <? DataTrafficConfiguration.m_contentDelay p
     then [DataTrafficConfiguration.m_contentDelay p] else []) ++
    (if 0 <? m_contentDelay o then [m_contentDelay o] else []) /\
  log_lines (before_put_events patternId o p) = (if m_wantQuiet o then 0 else 1)%nat /\
  timers_armed (before_put_events patternId o p) = [] /\
  signal_cancels (before_put_events patternId o p) = 0%nat /\
  released (before_put_events patternId o p) = [] /\
  io_stops (before_put_events patternId o p) = 0%nat /\
  reports (before_put_events patternId o p) = 0%nat /\
  registered (before_put_events patternId o p) = [].
Proof.
  unfold before_put_events.
  destruct (m_wantQuiet o), (0 <? DataTrafficConfiguration.m_contentDelay p),
    (0 <? m_contentDelay o); done.
Qed.

(** What the events after the call of the face hold. *)
Lemma after_put_observed patternId o p timer :
  sleeps (after_put_events patternId o p timer) = [] /\
  emitted (after_put_events patternId o p timer) = [] /\
  log_lines (after_put_events patternId o p timer) =
    (if cap_reached o then 2 else 1)%nat /\
  io_stops (after_put_events patternId o p timer) = 0%nat /\
  reports (after_put_events patternId o p timer) = 0%nat /\
  registered (after_put_events patternId o p timer) = [].
Proof.
  unfold after_put_events. by destruct (m_wantQuiet o), (cap_reached o).
Qed.

Lemma exn_put_error_or_not (e : exn) : e = put_error \/ e <> put_error.
Proof. destruct e; (by left) || (by right). Qed.

Lemma sendData_keeps_settings
    (patternId : nat) (timer : deadline_timer) (o : NdnTrafficPush) :
  let o' := snd (sendData patternId timer o) in
  m_hasError o' = m_hasError o /\
  m_nMaximumInterests o' = m_nMaximumInterests o /\
  m_contentDelay o' = m_contentDelay o /\
  m_wantQuiet o' = m_wantQuiet o /\
  m_nRegistrationsFailed o' = m_nRegistrationsFailed o /\
  exists evs,
    trace o' = trace o ++ evs /\
    io_stops evs = 0%nat /\ reports evs = 0%nat /\ registered evs = [].
Proof.
  intros o'. subst o'.
  destruct (sendData patternId timer o) as [[t|e] o'] eqn:Hsend; cbn [snd].
  - destruct (sendData_lookup _ _ _ _ _ Hsend) as [p Hp]; [done|].
    destruct (sendData_done_trace _ _ _ _ _ _ Hp Hsend)
      as (content & e & _ & Htr & -> & -> & -> & -> & -> & _).
    split_and!; try done. eexists. split; [exact Htr|].
    destruct (before_put_observed patternId (counted_after patternId p content e o)
                (DataTrafficConfiguration.count p))
      as (_ & _ & _ & _ & _ & Hs & Hr & Hg).
    destruct (after_put_observed patternId (counted_after patternId p content e o)
                (DataTrafficConfiguration.count p) timer)
      as (_ & _ & _ & Hs' & Hr' & Hg').
    cbn [io_stops reports registered].
    rewrite io_stops_app, reports_app, registered_app, Hs, Hr, Hg.
    cbn [io_stops reports registered]. by rewrite Hs', Hr', Hg'.
  - destruct (exn_put_error_or_not e) as [->|Hne].
    + destruct (sendData_lookup _ _ _ _ _ Hsend) as [p Hp]; [done|].
      destruct (sendData_put_error_trace _ _ _ _ _ Hp Hsend)
        as (content & eng & _ & Htr & -> & -> & -> & -> & -> & _).
      split_and!; try done. eexists. split; [exact Htr|].
      destruct (before_put_observed patternId (counted_after patternId p content eng o)
                  (DataTrafficConfiguration.count p))
        as (_ & _ & _ & _ & _ & Hs & Hr & Hg).
      cbn [io_stops reports registered]. by rewrite Hs, Hr, Hg.
    + destruct (sendData_early_exit_form _ _ _ _ _ Hsend Hne)
        as [(_ & _ & ->)|[(_ & ->)|(_ & eng & ->)]];
        (split_and!; try done; exists []; by rewrite app_nil_r).
Qed.

(** X7. The publish step never stops the run and never reports: however
    it ends, it emits no statistics report, does not stop the io service,
    registers no prefix, and leaves the error flag, the cap, the delay, the
    quiet flag and the count of failed registrations as they were. *)
Theorem publish_step_never_stops
    (patternId : nat) (timer : deadline_timer) (o : NdnTrafficPush) :
  let o' := snd (sendData patternId timer o) in
  m_hasError o' = m_hasError o /\
  m_nMaximumInterests o' = m_nMaximumInterests o /\
  m_contentDelay o' = m_contentDelay o /\
  m_wantQuiet o' = m_wantQuiet o /\
  m_nRegistrationsFailed o' = m_nRegistrationsFailed o /\
  exists evs,
    trace o' = trace o ++ evs /\
    io_stops evs = 0%nat /\ reports evs = 0%nat /\ registered evs = [].
Proof. apply sendData_keeps_settings. Qed.

(** X8. The two delays stack and come right before the emission: a step
    that returns pauses first for the delay of the pattern, then for the
    delay of the run, each only when it is more than zero, after the signing
    and before the one call of the face; nothing pauses after it. *)
Theorem delays_stack_before_emission
    (patternId : nat) (timer t : deadline_timer) (o o' : NdnTrafficPush)
    (p : TrafficPattern) :
  m_trafficPatterns o !! patternId = Some p ->
  sendData patternId timer o = (Done t, o') ->
  exists unsigned pre packet post,
    trace o' =
      trace o ++ Sign unsigned (DataTrafficConfiguration.m_signingInfo p) ::
      pre ++ Put packet :: post /\
    sleeps pre = pauses o p /\
    emitted pre = [] /\
    sleeps post = [] /\
    emitted post = [].
Proof.
  intros Hp Hsend.
  destruct (sendData_done_trace _ _ _ _ _ _ Hp Hsend) as (content & e & _ & Htr & _).
  cbn zeta in Htr.
  destruct (before_put_observed patternId (counted_after patternId p content e o)
              (DataTrafficConfiguration.count p)) as (Hs & _).
  destruct (after_put_observed patternId (counted_after patternId p content e o)
              (DataTrafficConfiguration.count p) timer) as (Hs' & He' & _).
  do 4 eexists. split; [exact Htr|].
  split_and!; [exact Hs|apply emitted_before_put|exact Hs'|exact He'].
Qed.

(** X9. Every packet a publish step hands to the face is the pattern's:
    its name is the name of the pattern, its content type the one of the
    pattern, it is signed with the signing info of the pattern, and it
    carries a freshness period exactly when the one of the pattern is not
    negative (zero included). *)
Theorem emitted_packet_is_the_patterns
    (patternId : nat) (timer : deadline_timer) (o : NdnTrafficPush) (p : TrafficPattern) :
  m_trafficPatterns o !! patternId = Some p ->
  exists evs,
    trace (snd (sendData patternId timer o)) = trace o ++ evs /\
    Forall
      (fun d =>
         d_name d = DataTrafficConfiguration.m_name p /\
         d_contentType d = DataTrafficConfiguration.m_contentType p /\
         d_signature d = Some (DataTrafficConfiguration.m_signingInfo p) /\
         d_freshnessPeriod d =
           (if 0 <=? DataTrafficConfiguration.m_freshnessPeriod p
            then Some (DataTrafficConfiguration.m_freshnessPeriod p) else None))
      (emitted evs).
Proof.
  intros Hp. destruct (sendData_emitted patternId timer o p Hp) as (evs & Htr & Hem).
  exists evs. split; [done|].
  destruct (fst (sendData patternId timer o)).
  - destruct Hem as (content & o1 & _ & ->). by repeat constructor.
  - rewrite Hem. constructor.
Qed.

(** X10. When the face throws, the publication is counted and not
    emitted: both counters are incremented and the pauses were made, but no
    packet was handed over, the timer of the pattern is not re-armed, and
    the cap is not looked at: no prefix is released and the signal waits
    are not cancelled, even if the total has reached the cap. *)
Theorem face_exception_leaves_timer_unarmed
    (patternId : nat) (timer : deadline_timer) (o o' : NdnTrafficPush)
    (p : TrafficPattern) :
  m_trafficPatterns o !! patternId = Some p ->
  sendData patternId timer o = (Thrown put_error, o') ->
  counted_once patternId p o o' /\
  m_registeredPrefixes o' = m_registeredPrefixes o /\
  exists evs,
    trace o' = trace o ++ evs /\
    sleeps evs = pauses o p /\
    emitted evs = [] /\
    timers_armed evs = [] /\
    released evs = [] /\
    signal_cancels evs = 0%nat.
Proof.
  intros Hp Hsend.
  pose proof (sendData_counters patternId timer o p Hp) as Hcount.
  rewrite Hsend in Hcount. cbn [fst snd] in Hcount. split; [done|].
  destruct (sendData_put_error_trace _ _ _ _ _ Hp Hsend)
    as (content & e & _ & Htr & _ & _ & _ & _ & _ & Hreg & _).
  split; [done|]. eexists. split; [exact Htr|].
  destruct (before_put_observed patternId (counted_after patternId p content e o)
              (DataTrafficConfiguration.count p)) as (Hs & _ & Ht & Hc & Hr & _).
  cbn [sleeps emitted timers_armed released signal_cancels].
  split_and!; [exact Hs|apply emitted_before_put|exact Ht|exact Hr|exact Hc].
Qed.

(** X11. A publish step of an existing pattern that is left before the
    counting is left by the filler or by the signing, and leaves the object
    as it found it, except for the random engine when the signing throws:
    nothing is logged and nothing counted. The error of the filler leaves
    even the engine untouched. *)
Theorem early_exception_changes_nothing
    (patternId : nat) (timer : deadline_timer) (o o' : NdnTrafficPush)
    (p : TrafficPattern) (e : exn) :
  m_trafficPatterns o !! patternId = Some p ->
  sendData patternId timer o = (Thrown e, o') ->
  e <> put_error ->
  (e = length_error \/ e = sign_error) /\
  o' = with_randomNumberEngine (randomNumberEngine o') o /\
  trace o' = trace o /\
  (e = length_error -> o' = o).
Proof.
  intros Hp Hsend Hne.
  destruct (sendData_early_exit_form _ _ _ _ _ Hsend Hne)
    as [(_ & Hnone & _)|[(-> & ->)|(-> & eng & ->)]].
  - congruence.
  - split_and!; [by left|by destruct o|done|done].
  - split_and!; [by right|done|done|discriminate].
Qed.

(** X12. The generated payload is the header followed by the bytes of the
    engine, and the header carries the counter of the pattern as it was
    before the step: the first packet of a pattern is number 0. With a
    content length the header fits in and no explicit content, the step that
    returns hands over exactly that content, leaves the engine where the
    draws left it and the counter one higher. *)
Theorem payload_is_header_then_engine_bytes
    (patternId : nat) (timer t : deadline_timer) (o o' : NdnTrafficPush)
    (p : TrafficPattern) (L : Z) :
  m_trafficPatterns o !! patternId = Some p ->
  DataTrafficConfiguration.m_content p = EmptyString ->
  DataTrafficConfiguration.m_contentLength p = Some L ->
  0 < L < UINT64_MODULUS ->
  size (header p) <= L ->
  sendData patternId timer o = (Done t, o') ->
  let drawn := draw_chars (Z.to_nat (L - size (header p))) (randomNumberEngine o) in
  emitted (drop (length (trace o)) (trace o')) =
    [make_data p (header p ++ fst drawn)
       (Some (DataTrafficConfiguration.m_signingInfo p))] /\
  randomNumberEngine o' = snd drawn /\
  m_trafficPatterns o' !! patternId = Some (DataTrafficConfiguration.count p) /\
  header (DataTrafficConfiguration.count p) =
    (DataTrafficConfiguration.m_name p ++ "/seq=" ++
     to_string (wrap64 (DataTrafficConfiguration.m_nInterestsReceived p + 1)) ++
     "&%_")%string.
Proof.
  intros Hp Hcontent Hlen Hrange Hfit Hsend drawn.
  destruct (sendData_done _ _ _ _ _ _ Hp Hsend)
    as (content & o1 & Hc & _ & Hps & evs & Htr & Hem).
  destruct (sendData_done_trace _ _ _ _ _ _ Hp Hsend)
    as (content' & e & Hc' & _ & _ & _ & _ & _ & _ & _ & Heng & _).
  rewrite Hc in Hc'. injection Hc' as <- ->.
  pose proof (sendData_content_run p o) as Hrun. rewrite Hc in Hrun.
  unfold filler_length in Hrun. rewrite Hlen, Hcontent in Hrun.
  destruct (Z.ltb_spec 0 L) as [_|?]; [|lia].
  pose proof (size_nonneg (header p)).
  rewrite wrap64_small in Hrun by lia.
  destruct (max_size <? L - size (header p)); [done|].
  cbn [empty] in Hrun. injection Hrun as -> He.
  split_and!.
  - by rewrite Htr, drop_app_length, Hem.
  - rewrite Heng. exact He.
  - rewrite Hps. apply list_lookup_insert_eq. by eapply lookup_lt_Some.
  - reflexivity.
Qed.

(** X13. A pattern without a positive content length takes nothing from
    the random engine: however its publish step ends, the engine is as it
    was, so the bytes generated for the other patterns do not depend on how
    often this one fires. *)
Theorem no_content_length_leaves_engine
    (patternId : nat) (timer : deadline_timer) (o : NdnTrafficPush) (p : TrafficPattern) :
  m_trafficPatterns o !! patternId = Some p ->
  (forall len, DataTrafficConfiguration.m_contentLength p = Some len -> len <= 0) ->
  randomNumberEngine (snd (sendData patternId timer o)) = randomNumberEngine o.
Proof.
  intros Hp Hlen.
  assert (sendData_content p o =
          (Done (if empty (DataTrafficConfiguration.m_content p)
                 then EmptyString else DataTrafficConfiguration.m_content p), o)) as Hc.
  { rewrite sendData_content_run. unfold filler_length.
    destruct (DataTrafficConfiguration.m_contentLength p) as [len|]; [|done].
    specialize (Hlen len eq_refl). by destruct (Z.ltb_spec 0 len); [lia|]. }
  rewrite (sendData_run _ _ _ _ Hp), Hc. unfold publish.
  destruct (keyChain_sign _ _); [|done]. destruct (face_put _); [|done].
  cbn [snd]. by destruct (cap_reached _).
Qed.

(** X14. Quiet logging drops one of the two lines of a publication, it
    does not silence it: a step that returns logs one line when quiet and
    two otherwise, and one more when it finds the cap reached. *)
Theorem quiet_logging_keeps_one_line
    (patternId : nat) (timer t : deadline_timer) (o o' : NdnTrafficPush)
    (p : TrafficPattern) :
  m_trafficPatterns o !! patternId = Some p ->
  sendData patternId timer o = (Done t, o') ->
  log_lines (drop (length (trace o)) (trace o')) =
    ((if m_wantQuiet o then 1 else 2) + (if cap_reached o' then 1 else 0))%nat.
Proof.
  intros Hp Hsend.
  destruct (sendData_done_trace _ _ _ _ _ _ Hp Hsend)
    as (content & e & _ & Htr & _ & _ & _ & _ & _ & _ & _ & Hcap).
  cbn zeta in Htr, Hcap. rewrite Htr, drop_app_length, Hcap.
  destruct (before_put_observed patternId (counted_after patternId p content e o)
              (DataTrafficConfiguration.count p)) as (_ & Hl & _).
  destruct (after_put_observed patternId (counted_after patternId p content e o)
              (DataTrafficConfiguration.count p) timer) as (_ & _ & Hl' & _).
  cbn [log_lines]. rewrite log_lines_app, Hl. cbn [log_lines]. rewrite Hl'.
  change (m_wantQuiet (counted_after patternId p content e o)) with (m_wantQuiet o).
  destruct (m_wantQuiet o), (cap_reached (counted_after patternId p content e o));
    reflexivity.
Qed.

End PublishProperties.

(** ** What the callbacks keep *)

Section ScheduleProperties.

Context {collaborators : Collaborators}.

Implicit Types (o : NdnTrafficPush) (p : TrafficPattern).

Lemma configuration_insert_count (ps : list TrafficPattern) (patternId : nat) p :
  ps !! patternId = Some p ->
  configuration <$> <[patternId := DataTrafficConfiguration.count p]> ps =
  configuration <$> ps.
Proof.
  intros Hp. rewrite list_fmap_insert.
  apply list_insert_id. by rewrite list_lookup_fmap, Hp.
Qed.

Lemma dispatch_settings cb o :
  configuration <$> m_trafficPatterns (dispatch cb o) =
    configuration <$> m_trafficPatterns o /\
  m_nMaximumInterests (dispatch cb o) = m_nMaximumInterests o /\
  m_contentDelay (dispatch cb o) = m_contentDelay o /\
  m_wantQuiet (dispatch cb o) = m_wantQuiet o.
Proof.
  destruct cb as [patternId timer|reason patternId|h]; cbn [dispatch].
  - destruct (sendData_keeps_settings patternId timer o) as (_ & -> & -> & -> & _).
    split; [|done].
    destruct (dispatch_counters (TimerExpired patternId timer) o)
      as [[_ Hps]|(i & p & Hp & _ & Hps)]; cbn [dispatch] in Hps; rewrite Hps; [done|].
    by apply configuration_insert_count.
  - destruct (m_trafficPatterns o !! patternId) as [p|] eqn:Hp.
    + rewrite (onRegisterFailed_run _ _ _ _ Hp). cbn [snd]. by destruct (_ =? _).
    + by rewrite onRegisterFailed_bad_index.
  - destruct h; cbn [signal_callback].
    + rewrite on_run_signal_run. cbn [snd]. by destruct (cap_pending o).
    + unfold on_pushLoop_signal. by rewrite stop_run.
Qed.

Lemma run_schedule_settings (cbs : list callback) (o : NdnTrafficPush) :
  configuration <$> m_trafficPatterns (run_schedule cbs o) =
    configuration <$> m_trafficPatterns o /\
  length (m_trafficPatterns (run_schedule cbs o)) = length (m_trafficPatterns o) /\
  m_nMaximumInterests (run_schedule cbs o) = m_nMaximumInterests o /\
  m_contentDelay (run_schedule cbs o) = m_contentDelay o /\
  m_wantQuiet (run_schedule cbs o) = m_wantQuiet o.
Proof.
  assert (configuration <$> m_trafficPatterns (run_schedule cbs o) =
            configuration <$> m_trafficPatterns o /\
          m_nMaximumInterests (run_schedule cbs o) = m_nMaximumInterests o /\
          m_contentDelay (run_schedule cbs o) = m_contentDelay o /\
          m_wantQuiet (run_schedule cbs o) = m_wantQuiet o) as (Hps & Hcap & Hd & Hq).
  { induction cbs as [|cb cbs IH] using rev_ind; [done|].
    rewrite run_schedule_snoc.
    destruct (dispatch_settings cb (run_schedule cbs o)) as (-> & -> & -> & ->).
    exact IH. }
  split_and!; try done.
  apply (f_equal length) in Hps. by rewrite !length_fmap in Hps.
Qed.

(** X15. What the configuration file and the command line defined stays
    as it is for the whole run: whatever callbacks the event loop
    dispatches, the patterns are the same in number and in every field but
    their counter, and the cap, the delay and the quiet flag are
    unchanged. *)
Theorem callbacks_keep_the_configuration (cbs : list callback) (o : NdnTrafficPush) :
  configuration <$> m_trafficPatterns (run_schedule cbs o) =
    configuration <$> m_trafficPatterns o /\
  length (m_trafficPatterns (run_schedule cbs o)) = length (m_trafficPatterns o) /\
  m_nMaximumInterests (run_schedule cbs o) = m_nMaximumInterests o /\
  m_contentDelay (run_schedule cbs o) = m_contentDelay o /\
  m_wantQuiet (run_schedule cbs o) = m_wantQuiet o.
Proof. apply run_schedule_settings. Qed.

Lemma dispatch_hasError cb o :
  m_hasError (dispatch cb o) = m_hasError o || sets_error cb o.
Proof.
  destruct cb as [patternId timer|reason patternId|h]; cbn [dispatch sets_error].
  - destruct (sendData_keeps_settings patternId timer o) as (-> & _).
    by rewrite orb_false_r.
  - destruct (m_trafficPatterns o !! patternId) as [p|] eqn:Hp.
    + rewrite (onRegisterFailed_run _ _ _ _ Hp). cbn [snd].
      rewrite bool_decide_true by eauto. cbn [andb].
      destruct (_ =? _); cbn [m_hasError with_trace with_hasError with_nRegistrationsFailed];
        by rewrite ?orb_true_r, ?orb_false_r.
    + rewrite onRegisterFailed_bad_index by done. cbn [snd].
      rewrite bool_decide_false by (by intros [? ?]). by rewrite orb_false_r.
  - destruct h; cbn [signal_callback].
    + rewrite on_run_signal_run. cbn [snd].
      destruct (cap_pending o); cbn [m_hasError with_trace with_hasError];
        by rewrite ?orb_true_r, ?orb_false_r.
    + unfold on_pushLoop_signal. rewrite stop_run. cbn [snd]. by rewrite orb_false_r.
Qed.

(** X16. The error flag is set by two callbacks only and cleared by none.
    After a callback it is set exactly when it was set before, or the
    callback is the registration failure that makes the count of failures
    equal to the number of patterns, or the callback is the completion of
    the signal wait of [run] while a cap is set and the total is below it.
    No publish step and no completion of the signal wait of [startPushLoop]
    sets it; once set it stays set through every schedule. *)
Theorem error_flag_is_set_by_failure_or_early_signal
    (cb : callback) (cbs : list callback) (o : NdnTrafficPush) :
  m_hasError (dispatch cb o) = m_hasError o || sets_error cb o /\
  (m_hasError o = true -> m_hasError (run_schedule cbs o) = true) /\
  (m_hasError (run_schedule cbs o) = true ->
   m_hasError o = true \/
   exists done cb' rest,
     cbs = done ++ cb' :: rest /\ sets_error cb' (run_schedule done o) = true).
Proof.
  split; [apply dispatch_hasError|]. split.
  - intros Hset. induction cbs as [|cb' cbs IH] using rev_ind; [done|].
    by rewrite run_schedule_snoc, dispatch_hasError, IH.
  - induction cbs as [|cb' cbs IH] using rev_ind; [auto|].
    rewrite run_schedule_snoc, dispatch_hasError.
    intros [Hbefore|Hnow]%orb_true_iff.
    + destruct (IH Hbefore) as [?|(done & cb'' & rest & -> & Hs)]; [auto|].
      right. exists done, cb'', (rest ++ [cb']). by rewrite <- app_assoc.
    + right. by exists cbs, cb', [].
Qed.

Lemma dispatch_prefixes cb o :
  m_registeredPrefixes (dispatch cb o) = m_registeredPrefixes o \/
  m_registeredPrefixes (dispatch cb o) = [].
Proof.
  destruct cb as [patternId timer|reason patternId|h]; cbn [dispatch].
  - destruct (sendData patternId timer o) as [[t|e] o'] eqn:Hsend; cbn [snd].
    + destruct (sendData_lookup _ _ _ _ _ Hsend) as [p Hp]; [done|].
      destruct (sendData_done_form _ _ _ _ _ _ Hp Hsend) as (content & eng & _ & _ & Ho').
      cbn zeta in Ho'. subst o'. destruct (cap_reached _); [by right|by left].
    + left. destruct (exn_put_error_or_not e) as [->|Hne].
      * destruct (sendData_lookup _ _ _ _ _ Hsend) as [p Hp]; [done|].
        by destruct (sendData_put_error_trace _ _ _ _ _ Hp Hsend)
          as (content & eng & _ & _ & _ & _ & _ & _ & _ & -> & _).
      * by destruct (sendData_early_exit_form _ _ _ _ _ Hsend Hne)
          as [(_ & _ & ->)|[(_ & ->)|(_ & eng & ->)]].
  - left. destruct (m_trafficPatterns o !! patternId) as [p|] eqn:Hp.
    + rewrite (onRegisterFailed_run _ _ _ _ Hp). cbn [snd]. by destruct (_ =? _).
    + by rewrite onRegisterFailed_bad_index.
  - left. destruct h; cbn [signal_callback].
    + rewrite on_run_signal_run. cbn [snd]. by destruct (cap_pending o).
    + unfold on_pushLoop_signal. by rewrite stop_run.
Qed.

Lemma dispatch_registers_nothing cb o :
  exists evs, trace (dispatch cb o) = trace o ++ evs /\ registered evs = [].
Proof.
  destruct cb as [patternId timer|reason patternId|h]; cbn [dispatch].
  - destruct (sendData_keeps_settings patternId timer o)
      as (_ & _ & _ & _ & _ & evs & Htr & _ & _ & Hreg). eauto.
  - destruct (m_trafficPatterns o !! patternId) as [p|] eqn:Hp.
    + rewrite (onRegisterFailed_run _ _ _ _ Hp). cbn [snd].
      destruct (_ =? _); eexists; (split; [reflexivity|]); [|done].
      cbn [app registered]. unfold stop_events. rewrite registered_app.
      by rewrite (registered_logging _ (report_events_logging _ _)).
    + rewrite onRegisterFailed_bad_index by done. exists []. by rewrite app_nil_r.
  - assert (registered (stop_events o) = []) as Hstop.
    { unfold stop_events. rewrite registered_app.
      by rewrite (registered_logging _ (report_events_logging _ _)). }
    destruct h; cbn [signal_callback].
    + rewrite on_run_signal_run. cbn [snd].
      destruct (cap_pending o); eexists; (split; [reflexivity|]); by cbn [app registered].
    + unfold on_pushLoop_signal. rewrite stop_run. eauto.
Qed.

(** X17. Once the event loop runs, prefixes are only ever released, all
    at once: after any schedule of callbacks the list of registered
    prefixes is the one the start-up left or it is empty, and no callback
    registers a prefix. *)
Theorem callbacks_only_release_prefixes (cbs : list callback) (o : NdnTrafficPush) :
  (m_registeredPrefixes (run_schedule cbs o) = m_registeredPrefixes o \/
   m_registeredPrefixes (run_schedule cbs o) = []) /\
  exists evs,
    trace (run_schedule cbs o) = trace o ++ evs /\ registered evs = [].
Proof.
  induction cbs as [|cb cbs IH] using rev_ind.
  - split; [by left|]. exists []. by rewrite app_nil_r.
  - rewrite run_schedule_snoc. destruct IH as [Hreg (evs & Htr & Hnone)]. split.
    + destruct (dispatch_prefixes cb (run_schedule cbs o)) as [-> | ->];
        [done|by right].
    + destruct (dispatch_registers_nothing cb (run_schedule cbs o))
        as (evs' & Htr' & Hnone').
      exists (evs ++ evs'). rewrite Htr', Htr, registered_app, Hnone, Hnone'.
      by rewrite app_assoc.
Qed.

Lemma failures_schedule (cbs : list callback) (o : NdnTrafficPush) :
  failures_only cbs o ->
  m_nRegistrationsFailed o = 0 ->
  Z.of_nat (length cbs) < UINT64_MODULUS ->
  let stopped :=
    (0 <? length cbs)%nat && (length (m_trafficPatterns o) <=? length cbs)%nat in
  m_nRegistrationsFailed (run_schedule cbs o) = Z.of_nat (length cbs) /\
  io_stops (trace (run_schedule cbs o)) =
    (io_stops (trace o) + (if stopped then 1 else 0))%nat /\
  m_hasError (run_schedule cbs o) = m_hasError o || stopped.
Proof.
  unfold failures_only.
  induction cbs as [|cb cbs IH] using rev_ind; intros Hall Hzero Hlen; cbn zeta.
  { cbn. rewrite Hzero, orb_false_r. split_and!; [done|lia|done]. }
  apply Forall_app in Hall as [Hall Hcb]. apply Forall_inv in Hcb.
  rewrite length_app in *. cbn [length] in *.
  destruct (IH Hall Hzero) as (Hcount & Hstops & Herror); [lia|].
  cbn zeta in Hstops, Herror.
  destruct cb as [|reason patternId|]; cbn beta iota in Hcb; [done| |done].
  destruct (run_schedule_settings cbs o) as (_ & Hsame & _).
  rewrite run_schedule_snoc. cbn [dispatch].
  destruct (lookup_lt_is_Some_2 (m_trafficPatterns (run_schedule cbs o)) patternId)
    as [p Hp]; [rewrite Hsame; exact Hcb|].
  rewrite (onRegisterFailed_run _ _ _ _ Hp). cbn [snd]. rewrite Hcount, Hsame.
  rewrite wrap64_small by lia.
  destruct (Z.eqb_spec (Z.of_nat (length cbs) + 1)
              (Z.of_nat (length (m_trafficPatterns o)))) as [Heq|Hne];
    cbn [m_nRegistrationsFailed m_hasError trace
         with_trace with_hasError with_nRegistrationsFailed].
  - assert (length (m_trafficPatterns o) = S (length cbs)) as HP by lia.
    rewrite HP in *.
    replace (length cbs + 1)%nat with (S (length cbs)) by lia.
    rewrite Nat.leb_refl. cbn [Nat.ltb Nat.leb andb].
    rewrite orb_true_r. split_and!; [lia| |done].
    rewrite io_stops_app. cbn [app io_stops]. rewrite io_stops_stop_events, Hstops.
    destruct (Nat.leb_spec (S (length cbs)) (length cbs)); [lia|].
    rewrite andb_false_r. lia.
  - split_and!; [lia| |].
    + rewrite io_stops_app. cbn [io_stops]. rewrite Hstops.
      replace ((0 <? length cbs + 1)%nat && (length (m_trafficPatterns o) <=? length cbs + 1)%nat)
        with ((0 <? length cbs)%nat && (length (m_trafficPatterns o) <=? length cbs)%nat);
        [lia|].
      destruct (Nat.ltb_spec 0 (length cbs)), (Nat.ltb_spec 0 (length cbs + 1)),
        (Nat.leb_spec (length (m_trafficPatterns o)) (length cbs)),
        (Nat.leb_spec (length (m_trafficPatterns o)) (length cbs + 1));
        cbn [andb]; try done; lia.
    + rewrite Herror. f_equal.
      destruct (Nat.ltb_spec 0 (length cbs)), (Nat.ltb_spec 0 (length cbs + 1)),
        (Nat.leb_spec (length (m_trafficPatterns o)) (length cbs)),
        (Nat.leb_spec (length (m_trafficPatterns o)) (length cbs + 1));
        cbn [andb]; try done; lia.
Qed.

(** X18. Registration failures stop the run once, at the last pattern.
    From an object with no failure counted, a schedule of [k] registration
    failures, each for a pattern of the object, leaves a count of [k]; the
    io service is stopped and the error flag set by the failure that makes
    the count equal to the number of patterns, and by no other: before it
    nothing is stopped, after it nothing is stopped again. *)
Theorem registration_failures_stop_once
    (cbs : list callback) (o : NdnTrafficPush) :
  failures_only cbs o ->
  m_nRegistrationsFailed o = 0 ->
  Z.of_nat (length cbs) < UINT64_MODULUS ->
  let stopped :=
    (0 <? length cbs)%nat && (length (m_trafficPatterns o) <=? length cbs)%nat in
  m_nRegistrationsFailed (run_schedule cbs o) = Z.of_nat (length cbs) /\
  io_stops (trace (run_schedule cbs o)) =
    (io_stops (trace o) + (if stopped then 1 else 0))%nat /\
  m_hasError (run_schedule cbs o) = m_hasError o || stopped.
Proof. apply failures_schedule. Qed.

(** X19. Reaching the cap is no error. When a publish step returns with
    the cap reached and has cancelled the signal waits, the completion of
    either wait stops the io service once and leaves the error flag as it
    was before the step. *)
Theorem cap_reached_then_signal_is_no_error
    (patternId : nat) (timer t : deadline_timer) (o o' : NdnTrafficPush)
    (h : signal_handler) :
  sendData patternId timer o = (Done t, o') ->
  cap_reached o' = true ->
  m_hasError (dispatch (SignalWaitCompleted h) o') = m_hasError o /\
  io_stops (trace (dispatch (SignalWaitCompleted h) o')) = S (io_stops (trace o')) /\
  reports (trace (dispatch (SignalWaitCompleted h) o')) = S (reports (trace o')).
Proof.
  intros Hsend Hcap.
  destruct (sendData_keeps_settings patternId timer o) as (Herr & _).
  rewrite Hsend in Herr. cbn [snd] in Herr.
  assert (cap_pending o' = false) as Hpending.
  { unfold cap_reached, cap_pending in *.
    destruct (m_nMaximumInterests o') as [cap|]; [|done].
    apply Z.leb_le in Hcap. by destruct (Z.ltb_spec (m_nInterestsReceived o') cap); [lia|]. }
  cbn [dispatch]. destruct h; cbn [signal_callback].
  - rewrite on_run_signal_run, Hpending. cbn [snd m_hasError trace with_trace].
    rewrite io_stops_app, reports_app. cbn [app io_stops reports].
    rewrite io_stops_stop_events, reports_stop_events.
    split_and!; [done|lia|].
    change (String.eqb "Async wait ended." report_heading) with false. cbn iota. lia.
  - unfold on_pushLoop_signal. rewrite stop_run. cbn [snd m_hasError trace with_trace].
    rewrite io_stops_app, reports_app, io_stops_stop_events, reports_stop_events.
    split_and!; [done|lia|lia].
Qed.

End ScheduleProperties.

(** ** Start-up and command line *)

Section StartupProperties.

Context {collaborators : Collaborators}.

Implicit Types (o : NdnTrafficPush) (p : TrafficPattern).

Lemma timers_armed_logging evs :
  Forall (fun e => is_logging e = true) evs -> timers_armed evs = [].
Proof. induction 1 as [|e evs He _ IH]; [done|]. by destruct e. Qed.

Lemma signal_waits_logging evs :
  Forall (fun e => is_logging e = true) evs -> signal_waits evs = [].
Proof. induction 1 as [|e evs He _ IH]; [done|]. by destruct e. Qed.

Lemma timers_armed_registration ps : forall id, timers_armed (registration_events id ps) = [].
Proof. induction ps as [|p ps IH]; intros id; [done|]. simpl. apply IH. Qed.

Lemma signal_waits_registration ps : forall id, signal_waits (registration_events id ps) = [].
Proof. induction ps as [|p ps IH]; intros id; [done|]. simpl. apply IH. Qed.

(** X20. When [run] enters the event loop it has registered the prefix of
    every pattern, in the order of the file, but armed one timer only, the
    one of the first pattern, one generation interval after the start:
    [startPushLoop] enters the event loop itself and the push loops of the
    other patterns are not started before that loop ends. Two signal waits
    are pending, the one of [run] and the one of the first push loop; with
    no pattern at all there is no timer and only the wait of [run]. *)
Theorem only_first_timer_is_armed_at_loop_entry
    (now : Z) (o : NdnTrafficPush) (ps : list TrafficPattern) :
  readConfigurationFile (m_configurationFile o) = Some ps ->
  optional_eq_0 (m_nMaximumInterests o) = false ->
  m_trafficPatterns o = [] ->
  exists evs,
    trace (snd (run now o)) = trace o ++ evs /\
    registered evs = DataTrafficConfiguration.m_name <$> ps /\
    m_registeredPrefixes (snd (run now o)) = m_registeredPrefixes o ++ seq 0 (length ps) /\
    match ps with
    | [] =>
        fst (run now o) = Done (InProcessEvents None) /\
        timers_armed evs = [] /\
        signal_waits evs = [run_signal_handler]
    | p :: _ =>
        fst (run now o) =
          Done (InProcessEvents
                  (Some {| expires_at :=
                             now + DataTrafficConfiguration.m_generationInterval p |})) /\
        timers_armed evs =
          [(0%nat, now + DataTrafficConfiguration.m_generationInterval p)] /\
        signal_waits evs = [run_signal_handler; pushLoop_signal_handler]
    end.
Proof.
  intros Hread Hcap Hps. rewrite run_run, Hread. unfold run_loaded.
  rewrite Hcap, Hps. cbn [app].
  pose proof (configuration_events_logging ps 0) as Hlog.
  destruct ps as [|p ps']; cbn [fst snd];
    cbn [trace m_registeredPrefixes with_trace with_registeredPrefixes
         with_trafficPatterns with_randomNumberEngine];
    rewrite <- !app_assoc; (eexists; split; [reflexivity|]).
  - by split_and!.
  - unfold startPushLoop_events. cbn [app registered timers_armed signal_waits].
    rewrite !registered_app, !timers_armed_app, !signal_waits_app.
    rewrite (registered_logging _ Hlog), (timers_armed_logging _ Hlog),
      (signal_waits_logging _ Hlog).
    cbn [app registered timers_armed signal_waits].
    rewrite !registered_app, !timers_armed_app, !signal_waits_app.
    rewrite registered_registration, timers_armed_registration, signal_waits_registration.
    cbn [app registered timers_armed signal_waits fmap list_fmap].
    by rewrite app_nil_r.
Qed.

Lemma run_trace_nonempty now o : trace o = [] -> trace (snd (run now o)) <> [].
Proof.
  intros Htr. rewrite run_run.
  destruct (readConfigurationFile (m_configurationFile o)) as [ps|]; cbn [snd].
  - unfold run_loaded. rewrite Htr. destruct (optional_eq_0 _); [done|].
    by destruct (m_trafficPatterns o ++ ps).
  - cbn [trace with_trace]. by rewrite Htr.
Qed.

Lemma run_keeps_options now o :
  m_contentDelay (snd (run now o)) = m_contentDelay o /\
  m_nMaximumInterests (snd (run now o)) = m_nMaximumInterests o /\
  m_wantQuiet (snd (run now o)) = m_wantQuiet o.
Proof.
  rewrite run_run.
  destruct (readConfigurationFile (m_configurationFile o)) as [ps|]; cbn [snd]; [|done].
  unfold run_loaded. destruct (optional_eq_0 _); [done|].
  by destruct (m_trafficPatterns o ++ ps).
Qed.

(** X21. [main] returns before [run] exactly when the parser of the
    command line throws, or for [--help], a missing configuration file, a
    negative count or a negative delay. It then has logged nothing and, if
    the object exists, has neither drawn from its engine nor given it a
    pattern. The exit code is 2 when the parser throws, whatever the
    command line asked for; otherwise it is 0 for [--help], which wins over
    the other three, and 2 for these. *)
Theorem main_leaves_early_on_usage_errors
    (cl : command_line) (rng : engine) (now : Z) :
  (returns_before_run cl = true <->
   from_option trace [] (snd (main_argv cl rng now)) = []) /\
  (returns_before_run cl = true ->
   fst (main_argv cl rng now) =
     Done (Returned match cl with
                    | po_thrown => 2
                    | po_stored opts => if opt_help opts then 0 else 2
                    end) /\
   forall o,
     snd (main_argv cl rng now) = Some o ->
     randomNumberEngine o = rng /\ m_trafficPatterns o = []).
Proof.
  destruct cl as [|opts]; [split; [done|]; split; [done|]; by intros o [=]|].
  unfold returns_before_run, main_argv, leaves_early, main. cbn [fst snd from_option].
  destruct (opt_help opts); [split; [done|]; split; [done|]; by intros o [= <-]|].
  destruct (empty (opt_configFile opts));
    [split; [done|]; split; [done|]; by intros o [= <-]|].
  cbn [orb].
  destruct (opt_count opts) as [count|];
    [destruct (count <? 0); [split; [done|]; split; [done|]; by intros o [= <-]|]|];
    (destruct (opt_delay opts <? 0);
       [split; [done|]; split; [done|]; by intros o [= <-]|]); cbn [orb];
    (split; [|done]); (split; [done|]);
    intros Htr; exfalso; revert Htr;
    destruct (opt_quiet opts); by apply run_trace_nonempty.
Qed.

(** X22. The options reach the object as they were given: whenever [main]
    calls [run], the object holds the delay, the quiet flag and the cap of
    the command line (no cap when [--count] is absent), and [run] leaves
    them. The delay of the object is never negative, so the assertion of
    [setContentDelay] holds on every call. *)
Theorem options_reach_the_object (opts : options) (rng : engine) (now : Z) :
  0 <= m_contentDelay (snd (main opts rng now)) /\
  (leaves_early opts = false ->
   m_contentDelay (snd (main opts rng now)) = opt_delay opts /\
   m_wantQuiet (snd (main opts rng now)) = opt_quiet opts /\
   m_nMaximumInterests (snd (main opts rng now)) = wrap64 <$> opt_count opts).
Proof.
  unfold leaves_early, main.
  destruct (opt_help opts); [by split|].
  destruct (empty (opt_configFile opts)); [by split|].
  cbn [orb].
  destruct (opt_count opts) as [count|]; [destruct (count <? 0); [by split|]|];
    (destruct (Z.ltb_spec (opt_delay opts) 0) as [?|Hdelay]; [by split|]); cbn [orb];
    match goal with
    | |- context [run now ?o0] =>
        destruct (run_keeps_options now o0) as (-> & -> & ->)
    end;
    by destruct (opt_quiet opts).
Qed.

Lemma log_lines_report_patterns ps : forall i,
  log_lines (report_pattern_events i ps) = (3 * length ps)%nat.
Proof.
  induction ps as [|p ps IH]; intros i; [done|].
  cbn [report_pattern_events log_lines length]. rewrite IH. lia.
Qed.

(** X23. The statistics report is three lines for the run and three per
    pattern, and reporting changes nothing: [logStatistics] returns, only
    logs, and leaves every counter, flag and pattern of the object as it
    was. Its second and third lines give the number of patterns and the
    total of the object at that moment. *)
Theorem report_is_three_lines_per_pattern (o : NdnTrafficPush) :
  exists evs,
    logStatistics o = (Done tt, with_trace (trace o ++ evs) o) /\
    Forall (fun e => is_logging e = true) evs /\
    log_lines evs = (3 + 3 * length (m_trafficPatterns o))%nat /\
    length evs = (3 + 3 * length (m_trafficPatterns o))%nat /\
    reports evs = 1%nat /\
    evs !! 1%nat =
      Some (Log ("Total Traffic Pattern Types = " ++
                 to_string (Z.of_nat (length (m_trafficPatterns o)))) false true) /\
    evs !! 2%nat =
      Some (Log ("Total Interests Received    = " ++ to_string (m_nInterestsReceived o))
              false true).
Proof.
  exists (report_events (m_nInterestsReceived o) (m_trafficPatterns o)).
  split; [apply logStatistics_run|].
  split; [apply report_events_logging|].
  assert (forall ps i, length (report_pattern_events i ps) = (3 * length ps)%nat) as Hlen.
  { induction ps as [|p ps IH]; intros i; [done|].
    cbn [report_pattern_events length]. rewrite IH. lia. }
  unfold report_events. cbn [log_lines length reports].
  rewrite log_lines_report_patterns, Hlen, reports_pattern_events.
  split_and!; [lia|lia|reflexivity|reflexivity|reflexivity].
Qed.

(** X24. Two calls of [getRandomByteString] in a row give the bytes of one
    call for the sum of the lengths, and leave the engine in the same
    state: a byte string depends on the engine and on how many bytes were
    drawn before, not on how the draws were grouped. *)
Theorem random_bytes_compose (n m : nat) (o : NdnTrafficPush) :
  Z.of_nat (n + m) <= max_size ->
  bind (getRandomByteString (Z.of_nat n))
    (fun s1 => bind (getRandomByteString (Z.of_nat m)) (fun s2 => ret (s1 ++ s2)%string)) o =
  getRandomByteString (Z.of_nat (n + m)) o.
Proof.
  intros Hmax.
  assert (forall k o1,
            Z.of_nat k <= max_size ->
            getRandomByteString (Z.of_nat k) o1 =
            (Done (fst (draw_chars k (randomNumberEngine o1))),
             with_randomNumberEngine (snd (draw_chars k (randomNumberEngine o1))) o1))
    as Hget.
  { intros k o1 Hk. unfold getRandomByteString.
    destruct (Z.ltb_spec max_size (Z.of_nat k)); [lia|].
    rewrite bind_get, Nat2Z.id.
    destruct (draw_chars k (randomNumberEngine o1)) as [s e']. by rewrite bind_modify. }
  assert (forall k e,
            draw_chars (k + m) e =
            ((fst (draw_chars k e) ++ fst (draw_chars m (snd (draw_chars k e))))%string,
             snd (draw_chars m (snd (draw_chars k e))))) as Hsplit.
  { induction k as [|k IH]; intros e.
    - cbn [Nat.add draw_chars fst snd]. by destruct (draw_chars m e).
    - cbn [Nat.add draw_chars]. destruct (dist e) as [v e1]. rewrite IH.
      by destruct (draw_chars k e1) as [s1 e2]. }
  unfold bind at 1. rewrite Hget by lia.
  unfold bind at 1. rewrite Hget by lia.
  rewrite Hget by lia. by rewrite Hsplit.
Qed.

(** X25. The cast of the distribution's values to [char] loses nothing:
    every byte is the cast of exactly one value between [CHAR_MIN] and
    [CHAR_MAX], so every one of the 256 byte values can be generated. *)
Theorem every_byte_is_one_cast (c : ascii) :
  exists z,
    -128 <= z <= 127 /\ static_cast_char z = c /\
    forall z', -128 <= z' <= 127 -> static_cast_char z' = c -> z' = z.
Proof.
  assert (forall z, 0 <= z < 256 -> N_of_ascii (ascii_of_N (Z.to_N z)) = Z.to_N z) as Hemb.
  { intros z Hz. apply N_ascii_embedding. lia. }
  pose proof (N_ascii_bounded c) as Hc.
  set (n := Z.of_N (N_of_ascii c)).
  assert (0 <= n < 256) as Hn by (subst n; lia).
  exists (if n <? 128 then n else n - 256).
  assert (static_cast_char (if n <? 128 then n else n - 256) = c) as Hcast.
  { unfold static_cast_char.
    replace ((if n <? 128 then n else n - 256) mod 256) with n.
    - subst n. by rewrite N2Z.id, ascii_N_embedding.
    - destruct (Z.ltb_spec n 128).
      + symmetry. apply Z.mod_small. lia.
      + apply Z.mod_unique_pos with (q := -1); lia. }
  split; [destruct (Z.ltb_spec n 128); lia|]. split; [exact Hcast|].
  intros z' Hz' Hcast'. rewrite <- Hcast in Hcast'. unfold static_cast_char in Hcast'.
  apply (f_equal N_of_ascii) in Hcast'.
  rewrite !Hemb in Hcast' by (apply Z.mod_pos_bound; lia).
  apply Z2N.inj in Hcast'; try (apply Z.mod_pos_bound; lia).
  destruct (Z.ltb_spec n 128).
  - destruct (Z.ltb_spec z' 0).
    + replace (z' mod 256) with (z' + 256) in Hcast'
        by (apply Z.mod_unique_pos with (q := -1); lia).
      rewrite (Z.mod_small n) in Hcast' by lia. lia.
    + rewrite !Z.mod_small in Hcast' by lia. done.
  - replace ((n - 256) mod 256) with n in Hcast'
      by (apply Z.mod_unique_pos with (q := -1); lia).
    destruct (Z.ltb_spec z' 0).
    + replace (z' mod 256) with (z' + 256) in Hcast'
        by (apply Z.mod_unique_pos with (q := -1); lia). lia.
    + rewrite Z.mod_small in Hcast' by lia. lia.
Qed.

End StartupProperties.

(** * The further properties on the bench *)

(** X1 on the bench: a line without ['='] is refused and logged. *)
Lemma parse_line_is_fatal_for_syntax_only_witness :
  bench_parse "no equals sign" 3 pattern_a =
    parse_returned false pattern_a
      [Log "Line 3 - Invalid syntax: no equals sign" false true] /\
  bench_extract "no equals sign" = None.
Proof.
  assert (bench_parse "no equals sign" 3 pattern_a =
          parse_returned false pattern_a
            [Log "Line 3 - Invalid syntax: no equals sign" false true]) as H
    by (vm_compute; reflexivity).
  split; [exact H|].
  destruct (parse_line_is_fatal_for_syntax_only bench_extract bench_stoul
              bench_signingInfo _ _ _ _ _ _ H) as (Hfatal & _).
  apply Hfatal. reflexivity.
Defined.

(** X2 on the bench: the parameter names are case-sensitive. *)
Lemma unknown_parameter_is_ignored_witness :
  bench_extract "name=/a" = Some ("name", "/a")%string /\
  ~ In "name"%string known_parameters /\
  bench_parse "name=/a" 4 pattern_b =
    parse_returned true pattern_b
      [Log "Line 4 - Ignoring unknown parameter: name" false true].
Proof.
  assert (~ In "name"%string known_parameters) as Hunknown.
  { unfold known_parameters. simpl. intros H.
    repeat (destruct H as [H|H]; [discriminate H|]). exact H. }
  split_and!; [reflexivity|exact Hunknown|].
  apply (unknown_parameter_is_ignored bench_extract bench_stoul bench_signingInfo
           "name=/a" 4 pattern_b "name" "/a" eq_refl); exact Hunknown.
Defined.

(** X3 on the bench: a name and a content length, in both orders. *)
Lemma lines_of_different_parameters_commute_witness :
  bench_extract "Name=/n" = Some ("Name", "/n")%string /\
  bench_extract "ContentBytes=64" = Some ("ContentBytes", "64")%string /\
  parsed bench_extract bench_stoul bench_signingInfo "Name=/n" 1 pattern_zero ≫=
    parsed bench_extract bench_stoul bench_signingInfo "ContentBytes=64" 2 =
  parsed bench_extract bench_stoul bench_signingInfo "ContentBytes=64" 1 pattern_zero ≫=
    parsed bench_extract bench_stoul bench_signingInfo "Name=/n" 2.
Proof.
  split_and!; [reflexivity|reflexivity|].
  apply (lines_of_different_parameters_commute bench_extract bench_stoul
           bench_signingInfo "Name=/n" "ContentBytes=64" 1 2 pattern_zero
           "Name" "/n" "ContentBytes" "64" eq_refl eq_refl).
  discriminate.
Defined.

(** X4 on the bench: the second content length replaces the first. *)
Lemma later_line_overrides_same_parameter_witness :
  parsed bench_extract bench_stoul bench_signingInfo "ContentBytes=64" 1 pattern_zero =
    Some (DataTrafficConfiguration.with_contentLength (Some 64) pattern_zero) /\
  parsed bench_extract bench_stoul bench_signingInfo "ContentBytes=8" 2
    (DataTrafficConfiguration.with_contentLength (Some 64) pattern_zero) =
  parsed bench_extract bench_stoul bench_signingInfo "ContentBytes=8" 2 pattern_zero.
Proof.
  split; [vm_compute; reflexivity|].
  apply (later_line_overrides_same_parameter bench_extract bench_stoul
           bench_signingInfo "ContentBytes=64" "ContentBytes=8" 1 2 pattern_zero _
           "ContentBytes" "64" "8" eq_refl eq_refl).
  vm_compute; reflexivity.
Defined.

(** X5 on the bench: a content length of 0 is read and printed. *)
Lemma fresh_pattern_prints_the_line_it_read_witness :
  bench_extract "ContentBytes=0" = Some ("ContentBytes", "0")%string /\
  bench_stoul "0" = Some 0 /\
  DataTrafficConfiguration.printTrafficConfiguration <$>
    parsed bench_extract bench_stoul bench_signingInfo "ContentBytes=0" 1
      (DataTrafficConfiguration.default "id:/k") =
  Some "ContentBytes=0, SigningInfo=id:/k"%string.
Proof.
  split_and!; [reflexivity|reflexivity|].
  destruct (fresh_pattern_prints_the_line_it_read bench_extract bench_stoul
              bench_signingInfo "id:/k" "ContentBytes=0" 1 "0" 0)
    as (_ & _ & Hbytes & _).
  apply Hbytes; [reflexivity|reflexivity|by vm_compute].
Defined.

(** X6 on the bench: the second publication reaches the cap of 2. *)
Lemma cap_reached_releases_prefixes_witness :
  m_trafficPatterns bench_one_published !! 1%nat = Some pattern_b /\
  m_registeredPrefixes bench_one_published = [0; 1; 2; 3]%nat /\
  cap_reached (snd (sendData 1 bench_timer bench_one_published)) = true /\
  m_registeredPrefixes (snd (sendData 1 bench_timer bench_one_published)) = [] /\
  exists evs,
    trace (snd (sendData 1 bench_timer bench_one_published)) =
      trace bench_one_published ++ evs /\
    length (emitted evs) = 1%nat /\
    timers_armed evs = [(1%nat, 900)].
Proof.
  assert (sendData 1 bench_timer bench_one_published =
          (Done {| expires_at := 900 |}, snd (sendData 1 bench_timer bench_one_published)))
    as Hsend by (vm_compute; reflexivity).
  destruct (cap_reached_releases_prefixes (collaborators := bench) 1 bench_timer _
              bench_one_published _ pattern_b eq_refl Hsend)
    as (evs & Htr & Hem & Harm & Hcap & Hreleased).
  assert (cap_reached (snd (sendData 1 bench_timer bench_one_published)) = true)
    as Hreached by (vm_compute; reflexivity).
  rewrite Hreached in Hreleased.
  split_and!; [reflexivity|vm_compute; reflexivity|exact Hreached|apply Hreleased|].
  exists evs. split_and!; [exact Htr|exact Hem|exact Harm].
Defined.

(** X8 on the bench: the pattern pauses 40, then the run pauses 7. *)
Lemma delays_stack_before_emission_witness :
  m_trafficPatterns (bench_started 9) !! 1%nat = Some pattern_b /\
  pauses (bench_started 9) pattern_b = [40; 7] /\
  exists unsigned pre packet post,
    trace (snd (sendData 1 bench_timer (bench_started 9))) =
      trace (bench_started 9) ++ Sign unsigned "id:/b" :: pre ++ Put packet :: post /\
    sleeps pre = [40; 7] /\ sleeps post = [].
Proof.
  assert (sendData 1 bench_timer (bench_started 9) =
          (Done {| expires_at := 900 |}, snd (sendData 1 bench_timer (bench_started 9))))
    as Hsend by (vm_compute; reflexivity).
  destruct (delays_stack_before_emission (collaborators := bench) 1 bench_timer _
              (bench_started 9) _ pattern_b eq_refl Hsend)
    as (unsigned & pre & packet & post & Htr & Hpre & _ & Hpost & _).
  split_and!; [reflexivity|vm_compute; reflexivity|].
  exists unsigned, pre, packet, post. split_and!; [exact Htr|exact Hpre|exact Hpost].
Defined.

(** X9 on the bench. *)
Lemma emitted_packet_is_the_patterns_witness :
  m_trafficPatterns (bench_started 9) !! 1%nat = Some pattern_b /\
  exists evs,
    trace (snd (sendData 1 bench_timer (bench_started 9))) =
      trace (bench_started 9) ++ evs /\
    Forall
      (fun d =>
         d_name d = "/b"%string /\ d_contentType d = Some 0 /\
         d_signature d = Some "id:/b"%string /\ d_freshnessPeriod d = Some 1000)
      (emitted evs).
Proof.
  split; [reflexivity|].
  exact (emitted_packet_is_the_patterns (collaborators := bench) 1 bench_timer
           (bench_started 9) pattern_b eq_refl).
Defined.

(** X10 on the bench whose face throws: counted, not emitted, not
    re-armed. *)
Lemma face_exception_leaves_timer_unarmed_witness :
  m_trafficPatterns offline_started !! 0%nat = Some pattern_a /\
  fst (sendData 0 bench_timer offline_started) = Thrown put_error /\
  m_nInterestsReceived (snd (sendData 0 bench_timer offline_started)) = 1 /\
  exists evs,
    trace (snd (sendData 0 bench_timer offline_started)) = trace offline_started ++ evs /\
    emitted evs = [] /\ timers_armed evs = [] /\ signal_cancels evs = 0%nat.
Proof.
  assert (sendData 0 bench_timer offline_started =
          (Thrown put_error, snd (sendData 0 bench_timer offline_started)))
    as Hsend by (vm_compute; reflexivity).
  destruct (face_exception_leaves_timer_unarmed (collaborators := offline_bench)
              0 bench_timer offline_started _ pattern_a eq_refl Hsend)
    as ([Hcount _] & _ & evs & Htr & _ & Hem & Harm & _ & Hcancel).
  split_and!; [reflexivity|vm_compute; reflexivity|exact Hcount|].
  exists evs. split_and!; [exact Htr|exact Hem|exact Harm|exact Hcancel].
Defined.

(** X11 on the bench: the pattern whose content length is too short. *)
Lemma early_exception_changes_nothing_witness :
  m_trafficPatterns (bench_started 9) !! 3%nat = Some pattern_short /\
  sendData 3 bench_timer (bench_started 9) = (Thrown length_error, bench_started 9) /\
  trace (bench_started 9) = trace (bench_started 9).
Proof.
  assert (sendData 3 bench_timer (bench_started 9) =
          (Thrown length_error, bench_started 9)) as Hsend by (vm_compute; reflexivity).
  destruct (early_exception_changes_nothing (collaborators := bench) 3 bench_timer
              (bench_started 9) (bench_started 9) pattern_short length_error
              eq_refl Hsend ltac:(discriminate))
    as (_ & _ & Htr & _).
  split_and!; [reflexivity|exact Hsend|exact Htr].
Defined.

(** X12 on the bench: the first payload of the first pattern. *)
Lemma payload_is_header_then_engine_bytes_witness :
  m_trafficPatterns (bench_started 9) !! 0%nat = Some pattern_a /\
  header pattern_a = "/a/seq=0&%_"%string /\
  randomNumberEngine (bench_started 9) = 1%nat /\
  randomNumberEngine (snd (sendData 0 bench_timer (bench_started 9))) = 10%nat /\
  header (DataTrafficConfiguration.count pattern_a) = "/a/seq=1&%_"%string.
Proof.
  assert (sendData 0 bench_timer (bench_started 9) =
          (Done {| expires_at := 1100 |}, snd (sendData 0 bench_timer (bench_started 9))))
    as Hsend by (vm_compute; reflexivity).
  destruct (payload_is_header_then_engine_bytes (collaborators := bench) 0 bench_timer _
              (bench_started 9) _ pattern_a 20 eq_refl eq_refl eq_refl
              ltac:(by vm_compute) ltac:(by vm_compute) Hsend)
    as (_ & Hengine & _ & Hheader).
  split_and!; [reflexivity|reflexivity|reflexivity| |].
  - rewrite Hengine. vm_compute. reflexivity.
  - rewrite Hheader. vm_compute. reflexivity.
Defined.

(** X13 on the bench: the pattern with a content length of 0. *)
Lemma no_content_length_leaves_engine_witness :
  m_trafficPatterns (bench_started 9) !! 2%nat = Some pattern_zero /\
  randomNumberEngine (snd (sendData 2 bench_timer (bench_started 9))) =
    randomNumberEngine (bench_started 9).
Proof.
  split; [reflexivity|].
  apply (no_content_length_leaves_engine (collaborators := bench) 2 bench_timer
           (bench_started 9) pattern_zero eq_refl).
  intros len [= <-]. lia.
Defined.

(** X14 on the bench, which is not quiet: two lines. *)
Lemma quiet_logging_keeps_one_line_witness :
  m_trafficPatterns (bench_started 9) !! 0%nat = Some pattern_a /\
  m_wantQuiet (bench_started 9) = false /\
  log_lines (drop (length (trace (bench_started 9)))
               (trace (snd (sendData 0 bench_timer (bench_started 9))))) = 2%nat.
Proof.
  assert (sendData 0 bench_timer (bench_started 9) =
          (Done {| expires_at := 1100 |}, snd (sendData 0 bench_timer (bench_started 9))))
    as Hsend by (vm_compute; reflexivity).
  split_and!; [reflexivity|reflexivity|].
  rewrite (quiet_logging_keeps_one_line (collaborators := bench) 0 bench_timer _
             (bench_started 9) _ pattern_a eq_refl Hsend).
  vm_compute. reflexivity.
Defined.

(** X16 on the bench: a signal before the cap of 9 is reached. *)
Lemma error_flag_is_set_by_failure_or_early_signal_witness :
  m_hasError (bench_started 9) = false /\
  sets_error (SignalWaitCompleted run_signal_handler) (bench_started 9) = true /\
  m_hasError (dispatch (SignalWaitCompleted run_signal_handler) (bench_started 9)) = true.
Proof.
  split_and!; [reflexivity|reflexivity|].
  rewrite (proj1 (error_flag_is_set_by_failure_or_early_signal (collaborators := bench)
                    (SignalWaitCompleted run_signal_handler) [] (bench_started 9))).
  reflexivity.
Defined.

(** X18 on the bench: the four registrations fail. *)
Lemma registration_failures_stop_once_witness :
  failures_only bench_all_fail (bench_started 9) /\
  m_nRegistrationsFailed (bench_started 9) = 0 /\
  m_nRegistrationsFailed (run_schedule bench_all_fail (bench_started 9)) = 4 /\
  io_stops (trace (run_schedule bench_all_fail (bench_started 9))) = 1%nat /\
  m_hasError (run_schedule bench_all_fail (bench_started 9)) = true.
Proof.
  assert (failures_only bench_all_fail (bench_started 9)) as Hall.
  { unfold failures_only, bench_all_fail.
    change (length (m_trafficPatterns (bench_started 9))) with 4%nat.
    repeat constructor. }
  destruct (registration_failures_stop_once (collaborators := bench) bench_all_fail
              (bench_started 9) Hall eq_refl ltac:(by vm_compute))
    as (Hcount & Hstops & Herror).
  split_and!; [exact Hall|reflexivity|exact Hcount| |].
  - rewrite Hstops. vm_compute. reflexivity.
  - rewrite Herror. vm_compute. reflexivity.
Defined.

(** X19 on the bench: the cap of 2 is reached, then the wait of [run]
    completes. *)
Lemma cap_reached_then_signal_is_no_error_witness :
  cap_reached (snd (sendData 1 bench_timer bench_one_published)) = true /\
  m_hasError bench_one_published = false /\
  m_hasError
    (dispatch (SignalWaitCompleted run_signal_handler)
       (snd (sendData 1 bench_timer bench_one_published))) = false.
Proof.
  assert (sendData 1 bench_timer bench_one_published =
          (Done {| expires_at := 900 |}, snd (sendData 1 bench_timer bench_one_published)))
    as Hsend by (vm_compute; reflexivity).
  assert (cap_reached (snd (sendData 1 bench_timer bench_one_published)) = true)
    as Hreached by (vm_compute; reflexivity).
  destruct (cap_reached_then_signal_is_no_error (collaborators := bench) 1 bench_timer _
              bench_one_published _ run_signal_handler Hsend Hreached) as (Herror & _).
  split_and!; [exact Hreached|vm_compute; reflexivity|].
  rewrite Herror. vm_compute. reflexivity.
Defined.

(** X20 on the bench: four prefixes, one timer. *)
Lemma only_first_timer_is_armed_at_loop_entry_witness :
  readConfigurationFile (Collaborators := bench) (m_configurationFile bench_constructed) =
    Some [pattern_a; pattern_b; pattern_zero; pattern_short] /\
  exists evs,
    trace (snd (run 100 bench_constructed)) = trace bench_constructed ++ evs /\
    registered evs = ["/a"; "/b"; "/z"; "/s"]%string /\
    timers_armed evs = [(0%nat, 600)] /\
    signal_waits evs = [run_signal_handler; pushLoop_signal_handler].
Proof.
  split; [reflexivity|].
  destruct (only_first_timer_is_armed_at_loop_entry (collaborators := bench) 100
              bench_constructed [pattern_a; pattern_b; pattern_zero; pattern_short]
              eq_refl eq_refl eq_refl)
    as (evs & Htr & Hreg & _ & _ & Harm & Hwaits).
  exists evs. split_and!; [exact Htr|exact Hreg|exact Harm|exact Hwaits].
Defined.

(** X21 on the bench: a negative count returns 2 with nothing logged, and
    so does a command line the parser refuses, even if it holds
    [--help]. *)
Lemma main_leaves_early_on_usage_errors_witness :
  returns_before_run (po_stored options_negative_count) = true /\
  fst (main_argv (collaborators := bench) (po_stored options_negative_count) 0%nat 100) =
    Done (Returned 2) /\
  from_option trace []
    (snd (main_argv (collaborators := bench) (po_stored options_negative_count) 0%nat 100)) =
    [] /\
  fst (main_argv (collaborators := bench) po_thrown 0%nat 100) = Done (Returned 2).
Proof.
  destruct (main_leaves_early_on_usage_errors (collaborators := bench)
              (po_stored options_negative_count) 0%nat 100) as [Hiff Hearly].
  destruct (main_leaves_early_on_usage_errors (collaborators := bench)
              po_thrown 0%nat 100) as [_ Hthrown].
  split_and!; [reflexivity|apply (Hearly eq_refl)|apply Hiff; reflexivity|
               apply (Hthrown eq_refl)].
Defined.

(** X22 on the bench: a count of 2 and a delay of 7. *)
Lemma options_reach_the_object_witness :
  leaves_early (options_count 2 "push.conf") = false /\
  m_contentDelay (bench_started 2) = 7 /\
  m_nMaximumInterests (bench_started 2) = Some 2.
Proof.
  destruct (options_reach_the_object (collaborators := bench)
              (options_count 2 "push.conf") 0%nat 100) as [_ Hoptions].
  destruct (Hoptions eq_refl) as (Hdelay & _ & Hcap).
  split_and!; [reflexivity|exact Hdelay|exact Hcap].
Defined.

(** X24 on the bench: two bytes and three bytes are five bytes. *)
Lemma random_bytes_compose_witness :
  Z.of_nat (2 + 3) <= max_size (Collaborators := bench) /\
  bind (getRandomByteString (Z.of_nat 2))
    (fun s1 => bind (getRandomByteString (Z.of_nat 3)) (fun s2 => ret (s1 ++ s2)%string))
    (bench_started 9) =
  getRandomByteString (Z.of_nat (2 + 3)) (bench_started 9).
Proof.
  split; [by vm_compute|].
  apply (random_bytes_compose (collaborators := bench) 2 3 (bench_started 9)).
  by vm_compute.
Defined.
